(** * The chat relay of [server.js]: rooms, history, typing, joins and sweeps

    The development embeds the canonical variant of the server (the one with
    [cleanupUserConnections], the heartbeat and the 15 s sweep): the three
    process-wide registries [rooms], [messageBuffers] and [typingUsers], the
    helpers that broadcast to a room, and the handlers of the [connection],
    [message] and [close] events and of the periodic sweep.

    Conventions.
    - A JavaScript string is a sequence of UTF-16 code units; it is modelled
      as a [list N] of code units and its [length] is the list length.
    - A JavaScript object used as a dictionary ([rooms], [messageBuffers],
      [typingUsers]) is a [gmap] keyed by the room identifier, holding the
      object's own properties.  A read [rooms[k]] also sees what the object
      inherits from [Object.prototype]: for the names in [inherited] (such
      as [constructor]) it is never [undefined], and the connection handler
      is modelled with what follows from that.
    - A socket is named by a number; its [readyState] is read from a
      snapshot that every handler run receives, since it changes only
      between handler runs.  Server-side sockets are never [CONNECTING].
    - [Date.now()] is an input of the handler run; the connection handler
      reads it twice and receives two readings.
    - The connection handler is modelled from the point where [room] and
      [nick] have been read from the request URL.
    - What a handler does to the outside world is the list of [send] and
      [close] calls it makes, in order.  The argument of [JSON.stringify]
      is kept as the structured message, not its serialisation: what the
      serialisation does to a value (a number beyond the range of a double
      is [Infinity] in the program and is written [null]) is not modelled.
    - Of the logging only the conversions to string that can throw are
      kept; the heartbeat ping and the timers themselves are left out.

    Beside the canonical variant, the message handler of the variant without
    typing indicators, the connection handler of the variant without the
    clean-up, and the shutdown routine are embedded further down. *)

From stdpp Require Import base option list gmap strings.
From Stdlib Require Import ZArith NArith Ascii Lia.

Set Warnings "-register-all".
Local Open Scope N_scope.

(** ** Strings *)

Abbreviation jstring := (list N).

(** The code units of a literal. *)
Fixpoint js (s : string) : jstring :=
  match s with
  | EmptyString => []
  | String c r => N_of_ascii c :: js r
  end.

(** [WhiteSpace] and [LineTerminator] code points, which
    [String.prototype.trim] strips and [StringToNumber] skips. *)
Definition is_js_space (c : N) : bool :=
  (c =? 9) || (c =? 10) || (c =? 11) || (c =? 12) || (c =? 13) || (c =? 32)
  || (c =? 160) || (c =? 5760) || ((8192 <=? c) && (c <=? 8202))
  || (c =? 8232) || (c =? 8233) || (c =? 8239) || (c =? 8287)
  || (c =? 12288) || (c =? 65279).

Fixpoint trim_start (s : jstring) : jstring :=
  match s with
  | [] => []
  | c :: r => if is_js_space c then trim_start r else s
  end.

Definition trim (s : jstring) : jstring :=
  rev (trim_start (rev (trim_start s))).

(** ** Values produced by [JSON.parse] *)

(** A number literal is kept as the exact decimal [mantissa * 10^exponent]
    it denotes; the Number value is the IEEE-754 double nearest to it
    ([Infinity] beyond the range of doubles).  The two tests the server
    applies to numbers are decided on the decimal. *)
Inductive JSON : Type :=
| JNull
| JBool (b : bool)
| JNumber (mantissa exponent : Z)
| JString (s : jstring)
| JArray (elements : list JSON)
| JObject (members : list (jstring * JSON)).

(** A JavaScript value at hand: [None] is [undefined]. *)
Abbreviation value := (option JSON).

(** The double nearest to [m * 10^e] is [0]: the decimal is zero, or its
    magnitude is at most [2^-1075], half the least subnormal. *)
Definition number_is_zero (m e : Z) : bool :=
  (m =? 0)%Z || ((e <? 0)%Z && (Z.abs m * 2 ^ 1075 <=? 10 ^ (- e))%Z).

(** The double nearest to [m * 10^e] is greater than [500]: the decimal
    exceeds [500 + 2^-45], the midpoint between [500] and the next double
    (a tie rounds to [500], whose significand is even). *)
Definition number_gt_500 (m e : Z) : bool :=
  if (0 <=? e)%Z
  then (500 * 2 ^ 45 + 1 <? m * 10 ^ e * 2 ^ 45)%Z
  else ((500 * 2 ^ 45 + 1) * 10 ^ (- e) <? m * 2 ^ 45)%Z.

(** *** The parser *)

Definition is_json_space (c : N) : bool :=
  (c =? 32) || (c =? 9) || (c =? 10) || (c =? 13).

Fixpoint skip_ws (cs : jstring) : jstring :=
  match cs with
  | [] => []
  | c :: r => if is_json_space c then skip_ws r else cs
  end.

Definition digit_of (c : N) : option Z :=
  if (48 <=? c) && (c <=? 57) then Some (Z.of_N (c - 48)) else None.

Definition hex_of (c : N) : option N :=
  if (48 <=? c) && (c <=? 57) then Some (c - 48)
  else if (97 <=? c) && (c <=? 102) then Some (c - 87)
  else if (65 <=? c) && (c <=? 70) then Some (c - 55)
  else None.

(** Reads a maximal run of decimal digits: the number they spell on top of
    [acc], how many there were, and the rest. *)
Fixpoint take_digits (cs : jstring) (acc : Z) (n : Z) : Z * Z * jstring :=
  match cs with
  | [] => (acc, n, [])
  | c :: r =>
      match digit_of c with
      | Some d => take_digits r (10 * acc + d)%Z (n + 1)%Z
      | None => (acc, n, cs)
      end
  end.

(** The characters of a string literal after its opening quote. *)
Fixpoint parse_chars (cs : jstring) (acc : jstring) : option (jstring * jstring) :=
  match cs with
  | [] => None
  | 34 :: r => Some (rev acc, r)
  | 92 :: r =>
      match r with
      | 34 :: r' => parse_chars r' (34 :: acc)
      | 92 :: r' => parse_chars r' (92 :: acc)
      | 47 :: r' => parse_chars r' (47 :: acc)
      | 98 :: r' => parse_chars r' (8 :: acc)
      | 102 :: r' => parse_chars r' (12 :: acc)
      | 110 :: r' => parse_chars r' (10 :: acc)
      | 114 :: r' => parse_chars r' (13 :: acc)
      | 116 :: r' => parse_chars r' (9 :: acc)
      | 117 :: a :: b :: c :: d :: r' =>
          match hex_of a, hex_of b, hex_of c, hex_of d with
          | Some x, Some y, Some z, Some w =>
              parse_chars r' (((x * 16 + y) * 16 + z) * 16 + w :: acc)
          | _, _, _, _ => None
          end
      | _ => None
      end
  | c :: r => if c <? 32 then None else parse_chars r (c :: acc)
  end.

(** An optional exponent part [e], [e+] or [e-] followed by digits. *)
Definition parse_exponent (cs : jstring) : option (Z * jstring) :=
  match cs with
  | c :: r =>
      if (c =? 101) || (c =? 69) then
        let '(neg, r1) :=
          match r with
          | 45 :: r' => (true, r')
          | 43 :: r' => (false, r')
          | _ => (false, r)
          end in
        let '(x, n, r2) := take_digits r1 0%Z 0%Z in
        if (n =? 0)%Z then None else Some (if neg then (- x)%Z else x, r2)
      else Some (0%Z, cs)
  | [] => Some (0%Z, [])
  end.

(** A JSON number: an optional minus sign, an integer part without a
    superfluous leading zero, an optional fraction, an optional exponent. *)
Definition parse_number (cs : jstring) : option (JSON * jstring) :=
  let '(neg, r0) := match cs with 45 :: r => (true, r) | _ => (false, cs) end in
  let int_part :=
    match r0 with
    | 48 :: r => Some (0%Z, r)
    | _ => let '(x, n, r) := take_digits r0 0%Z 0%Z in
           if (n =? 0)%Z then None else Some (x, r)
    end in
  match int_part with
  | None => None
  | Some (i, r1) =>
      let frac :=
        match r1 with
        | 46 :: r =>
            let '(x, n, r') := take_digits r i 0%Z in
            if (n =? 0)%Z then None else Some (x, n, r')
        | _ => Some (i, 0%Z, r1)
        end in
      match frac with
      | None => None
      | Some (m, n, r2) =>
          match parse_exponent r2 with
          | None => None
          | Some (x, r3) =>
              Some (JNumber (if neg then (- m)%Z else m) (x - n)%Z, r3)
          end
      end
  end.

Fixpoint parse_value (fuel : nat) (cs : jstring) : option (JSON * jstring) :=
  match fuel with
  | O => None
  | S f =>
      match skip_ws cs with
      | 123 :: r =>
          match skip_ws r with
          | 125 :: r' => Some (JObject [], r')
          | r' => parse_members f r' []
          end
      | 91 :: r =>
          match skip_ws r with
          | 93 :: r' => Some (JArray [], r')
          | r' => parse_elements f r' []
          end
      | 34 :: r =>
          match parse_chars r [] with
          | Some (s, r') => Some (JString s, r')
          | None => None
          end
      | 116 :: 114 :: 117 :: 101 :: r => Some (JBool true, r)
      | 102 :: 97 :: 108 :: 115 :: 101 :: r => Some (JBool false, r)
      | 110 :: 117 :: 108 :: 108 :: r => Some (JNull, r)
      | cs' => parse_number cs'
      end
  end
with parse_elements (fuel : nat) (cs : jstring) (acc : list JSON)
  : option (JSON * jstring) :=
  match fuel with
  | O => None
  | S f =>
      match parse_value f cs with
      | Some (v, r) =>
          match skip_ws r with
          | 44 :: r' => parse_elements f r' (v :: acc)
          | 93 :: r' => Some (JArray (rev (v :: acc)), r')
          | _ => None
          end
      | None => None
      end
  end
with parse_members (fuel : nat) (cs : jstring) (acc : list (jstring * JSON))
  : option (JSON * jstring) :=
  match fuel with
  | O => None
  | S f =>
      match skip_ws cs with
      | 34 :: r =>
          match parse_chars r [] with
          | Some (k, r1) =>
              match skip_ws r1 with
              | 58 :: r2 =>
                  match parse_value f r2 with
                  | Some (v, r3) =>
                      match skip_ws r3 with
                      | 44 :: r4 => parse_members f r4 ((k, v) :: acc)
                      | 125 :: r4 => Some (JObject (rev ((k, v) :: acc)), r4)
                      | _ => None
                      end
                  | None => None
                  end
              | _ => None
              end
          | None => None
          end
      | _ => None
      end
  end.

(** [JSON.parse]: [None] when it throws a [SyntaxError].  Every recursive
    call of the parser follows a character of its own, so twice the length
    of the text is fuel enough. *)
Definition JSON_parse (s : jstring) : option JSON :=
  match parse_value (2 * length s + 2) s with
  | Some (v, r) => match skip_ws r with [] => Some v | _ => None end
  | None => None
  end.

(** ** The JavaScript operations applied to a parsed value *)

(** How an evaluation ends: with a result, or by throwing (a [TypeError]). *)
Inductive Completion (A : Type) : Type :=
| Normal (a : A)
| Throw.
Arguments Normal {A} a.
Arguments Throw {A}.

(** [ToBoolean], as applied by [if (v)]. *)
Definition ToBoolean (v : value) : bool :=
  match v with
  | None | Some JNull => false
  | Some (JBool b) => b
  | Some (JNumber m e) => negb (number_is_zero m e)
  | Some (JString s) => negb (bool_decide (s = []))
  | Some (JArray _) | Some (JObject _) => true
  end.

(** The own property [k] of an object built by [JSON.parse]: of two members
    with the same name the later one wins. *)
Definition own (ms : list (jstring * JSON)) (k : jstring) : value :=
  snd <$> List.find (fun kv => bool_decide (fst kv = k)) (rev ms).

(** [v.k] for the property names the handler reads ([type], [isTyping],
    [text], [length]), none of which is found on a builtin prototype:
    reading a property of [undefined] or [null] throws; strings and arrays
    have an own [length]; anything else not found is [undefined]. *)
Definition Get (v : value) (k : jstring) : Completion value :=
  match v with
  | None | Some JNull => Throw
  | Some (JObject ms) => Normal (own ms k)
  | Some (JString s) =>
      Normal (if bool_decide (k = js "length")
              then Some (JNumber (Z.of_nat (length s)) 0) else None)
  | Some (JArray l) =>
      Normal (if bool_decide (k = js "length")
              then Some (JNumber (Z.of_nat (length l)) 0) else None)
  | Some (JBool _) | Some (JNumber _ _) => Normal None
  end.

(** [v === s] for a string literal [s]. *)
Definition is_string (v : value) (s : jstring) : bool :=
  match v with
  | Some (JString t) => bool_decide (t = s)
  | _ => false
  end.

(** *** [v > 500] *)

Fixpoint radix_value (base : N) (cs : jstring) (acc : N) : option N :=
  match cs with
  | [] => Some acc
  | c :: r =>
      match hex_of c with
      | Some d => if d <? base then radix_value base r (acc * base + d) else None
      | None => None
      end
  end.

(** The digits after [0x], [0o] or [0b]: at least one, all of the radix. *)
Definition radix_gt_500 (base : N) (cs : jstring) : bool :=
  match cs with
  | [] => false
  | _ => match radix_value base cs 0 with Some n => 500 <? n | None => false end
  end.

(** An unsigned [StrDecimalLiteral]: [Infinity], or digits with an optional
    fraction and exponent, the integer part or the fraction present. *)
Definition decimal_gt_500 (cs : jstring) : bool :=
  if bool_decide (cs = js "Infinity") then true else
  let '(i, n1, r1) := take_digits cs 0%Z 0%Z in
  let '(m, n2, r2) :=
    match r1 with
    | 46 :: r => take_digits r i 0%Z
    | _ => (i, 0%Z, r1)
    end in
  if (n1 + n2 =? 0)%Z then false else
  match parse_exponent r2 with
  | Some (x, []) => number_gt_500 m (x - n2)
  | _ => false
  end.

(** [ToNumber(s) > 500] for a string [s] ([StringToNumber]; what is not a
    numeric literal is [NaN], an empty string is [0]). *)
Definition string_gt_500 (s : jstring) : bool :=
  match trim s with
  | [] => false
  | 48 :: c :: r =>
      if (c =? 120) || (c =? 88) then radix_gt_500 16 r
      else if (c =? 111) || (c =? 79) then radix_gt_500 8 r
      else if (c =? 98) || (c =? 66) then radix_gt_500 2 r
      else decimal_gt_500 (trim s)
  | 45 :: _ => false
  | 43 :: r => decimal_gt_500 r
  | t => decimal_gt_500 t
  end.

(** Converting [x] to a string throws: an object whose own [toString]
    (never callable in parsed JSON) hides the inherited one, or an array
    that has such an element. *)
Fixpoint to_string_throws (x : JSON) : bool :=
  match x with
  | JObject ms => bool_decide (is_Some (own ms (js "toString")))
  | JArray l => existsb to_string_throws l
  | _ => false
  end.

(** [ToNumber(x) > 500] when the conversion does not throw: an array
    converts through the join of its elements, so only an array of one
    element can be a number; an object converts to [NaN]. *)
Fixpoint numeric_gt_500 (x : JSON) : bool :=
  match x with
  | JNumber m e => number_gt_500 m e
  | JString s => string_gt_500 s
  | JArray [y] => numeric_gt_500 y
  | _ => false
  end.

Definition gt_500 (v : value) : Completion bool :=
  match v with
  | None => Normal false
  | Some x => if to_string_throws x then Throw else Normal (numeric_gt_500 x)
  end.

(** [`${v}`] inside a template literal: [v] is converted to a string, which
    throws where [ToString] does; the string itself is only logged. *)
Definition template (v : value) : Completion unit :=
  match v with
  | None => Normal tt
  | Some x => if to_string_throws x then Throw else Normal tt
  end.

(** ** The registries and what the server sends *)

Inductive ReadyState : Type := OPEN | CLOSING | CLOSED.

Definition is_open (s : ReadyState) : bool :=
  match s with OPEN => true | _ => false end.

(** [clientInfo = { ws, nick, roomId, joinedAt }]. *)
Record Client : Type := mkClient {
  ws : nat;
  nick : jstring;
  roomId : jstring;
  joinedAt : Z
}.

(** [message = { nick, text, timestamp }]. *)
Record Message : Type := mkMessage {
  m_nick : jstring;
  m_text : value;
  m_timestamp : Z
}.

(** The objects the server serialises and sends, by their [type]. *)
Inductive ServerMessage : Type :=
| connected (message : jstring)
| history (messages : list Message)
| userList (users : list jstring)
| typing (users : list jstring)
| system (text : jstring) (timestamp : Z)
| message (m : Message)
| error (message : jstring).

(** A call on a socket: [ws.send(JSON.stringify(m))] or
    [ws.close(code, reason)]. *)
Inductive Action : Type :=
| send (to : nat) (m : ServerMessage)
| close (to : nat) (code : Z) (reason : jstring).

(** [typingUsers[roomId]] is a [Set]: its elements in insertion order,
    without repetition. *)
Record Store : Type := mkStore {
  rooms : gmap jstring (list Client);
  messageBuffers : gmap jstring (list Message);
  typingUsers : gmap jstring (list jstring)
}.

Definition MAX_MESSAGES : nat := 50.

Definition empty_store : Store := mkStore ∅ ∅ ∅.

(** The property names a plain object inherits from [Object.prototype].
    For such a key [k] the read [rooms[k]] gives the inherited function (or,
    for [__proto__], the prototype object) when [rooms] has no own property
    [k]: a truthy value that is not an array. *)
Definition inherited (k : jstring) : bool :=
  bool_decide (k ∈ [js "constructor"; js "__proto__"; js "hasOwnProperty";
                    js "isPrototypeOf"; js "propertyIsEnumerable";
                    js "toLocaleString"; js "toString"; js "valueOf";
                    js "__defineGetter__"; js "__defineSetter__";
                    js "__lookupGetter__"; js "__lookupSetter__"]).

Definition Set_add (x : jstring) (l : list jstring) : list jstring :=
  if bool_decide (x ∈ l) then l else l ++ [x].

Definition Set_delete (x : jstring) (l : list jstring) : list jstring :=
  List.filter (fun y => negb (bool_decide (y = x))) l.

(** ** Handler runs: state, calls made, exceptions *)

Definition M (A : Type) : Type := Store -> Completion A * Store * list Action.

#[global] Instance M_ret : MRet M := fun A a s => (Normal a, s, []).

#[global] Instance M_bind : MBind M := fun A B f m s =>
  match m s with
  | (Normal a, s1, t1) => let '(r, s2, t2) := f a s1 in (r, s2, t1 ++ t2)
  | (Throw, s1, t1) => (Throw, s1, t1)
  end.

Definition throw {A : Type} : M A := fun s => (Throw, s, []).

Definition lift {A : Type} (c : Completion A) : M A := fun s => (c, s, []).

Definition gets {A : Type} (f : Store -> A) : M A := fun s => (Normal (f s), s, []).

Definition modify (f : Store -> Store) : M unit := fun s => (Normal tt, f s, []).

Definition emit (t : list Action) : M unit := fun s => (Normal tt, s, t).

(** [try { m } catch (error) { h }]. *)
Definition try_catch (m h : M unit) : M unit := fun s =>
  match m s with
  | (Normal a, s1, t1) => (Normal a, s1, t1)
  | (Throw, s1, t1) => let '(r, s2, t2) := h s1 in (r, s2, t1 ++ t2)
  end.

Definition store_of {A : Type} (r : Completion A * Store * list Action) : Store :=
  snd (fst r).

Definition trace_of {A : Type} (r : Completion A * Store * list Action) : list Action :=
  snd r.

Definition result_of {A : Type} (r : Completion A * Store * list Action) : Completion A :=
  fst (fst r).

Definition set_rooms (f : gmap jstring (list Client) -> gmap jstring (list Client)) : M unit :=
  modify (fun s => mkStore (f (rooms s)) (messageBuffers s) (typingUsers s)).

Definition set_messageBuffers
  (f : gmap jstring (list Message) -> gmap jstring (list Message)) : M unit :=
  modify (fun s => mkStore (rooms s) (f (messageBuffers s)) (typingUsers s)).

Definition set_typingUsers
  (f : gmap jstring (list jstring) -> gmap jstring (list jstring)) : M unit :=
  modify (fun s => mkStore (rooms s) (messageBuffers s) (f (typingUsers s))).

(** Reading [rooms[roomId]] where the code goes on to use it as an array:
    a property access on [undefined] throws. *)
Definition room_clients (roomId : jstring) : M (list Client) :=
  r ← gets (fun s => rooms s !! roomId);
  match r with Some cl => mret cl | None => throw end.

Definition room_messages (roomId : jstring) : M (list Message) :=
  r ← gets (fun s => messageBuffers s !! roomId);
  match r with Some b => mret b | None => throw end.

(** ** The helpers *)

Section Handlers.

(** The [readyState] of every socket and the clock reading during the run. *)
Variable readyState : nat -> ReadyState.
Variable now : Z.

Definition client_open (client : Client) : bool := is_open (readyState (ws client)).

(** [clients.forEach(client => { if (client.ws.readyState === OPEN)
    client.ws.send(m) })]. *)
Definition send_open (clients : list Client) (m : ServerMessage) : list Action :=
  List.map (fun client => send (ws client) m) (List.filter client_open clients).

(** [rooms[roomId]?.forEach(...)] with the guarded send. *)
Definition broadcast (roomId : jstring) (m : ServerMessage) : M unit :=
  r ← gets (fun s => rooms s !! roomId);
  match r with
  | Some clients => emit (send_open clients m)
  | None => mret tt
  end.

Definition cleanupUserConnections (roomId nick' : jstring) : M unit :=
  r ← gets (fun s => rooms s !! roomId);
  match r with
  | None =>
      (* [rooms[roomId]] is inherited: truthy, and has no [filter] *)
      if inherited roomId then throw else mret tt
  | Some clients =>
      set_rooms (insert roomId
        (List.filter
           (fun client =>
              if bool_decide (nick client = nick') && negb (client_open client)
              then false else true)
           clients))
  end.

Definition broadcastUserList (roomId : jstring) : M unit :=
  users ← gets (fun s => match rooms s !! roomId with
                         | Some clients => List.map nick clients
                         | None => []
                         end);
  broadcast roomId (userList users).

Definition broadcastTypingStatus (roomId typingUser : jstring) (isTyping : bool)
  : M unit :=
  t ← gets (fun s => typingUsers s !! roomId);
  _ ← match t with
      | None => set_typingUsers (insert roomId [])
      | Some _ => mret tt
      end;
  _ ← (if isTyping
       then set_typingUsers (alter (Set_add typingUser) roomId)
       else set_typingUsers (alter (Set_delete typingUser) roomId));
  users ← gets (fun s => default [] (typingUsers s !! roomId));
  broadcast roomId (typing users).

Definition broadcastSystemMessage (roomId text : jstring) : M unit :=
  broadcast roomId (system text now).

(** [typingUsers[roomId].delete(nick); broadcastTypingStatus(roomId, nick,
    false)] under [if (typingUsers[roomId])]. *)
Definition clear_typing (roomId nick' : jstring) : M unit :=
  t ← gets (fun s => typingUsers s !! roomId);
  match t with
  | Some _ =>
      _ ← set_typingUsers (alter (Set_delete nick') roomId);
      broadcastTypingStatus roomId nick' false
  | None => mret tt
  end.

(** ** The [connection] handler *)

(** [!v] for what [url.searchParams.get] returns: [null] or a string. *)
Definition missing (v : option jstring) : bool :=
  match v with
  | None | Some [] => true
  | Some _ => false
  end.

(** The handler from the test of [roomId] and [nick] on; [room] and [nick0]
    are what [url.searchParams.get] returned.  [joined] is the reading of
    [Date.now()] for [joinedAt]; the later reading, for the timestamp of
    the join notice, is [now]. *)
Definition on_connection (joined : Z) (w : nat) (room nick0 : option jstring) : M unit :=
  if missing room || missing nick0 then
    emit [close w 1008 (js "Room and nick are required")]
  else
    let roomId := default [] room in
    let nick' := default [] nick0 in
    r ← gets (fun s => rooms s !! roomId);
    _ ← match r with
        | None =>
            (* [!rooms[roomId]] is false for an inherited name *)
            if inherited roomId then mret tt else
            _ ← set_rooms (insert roomId []);
            _ ← set_messageBuffers (insert roomId []);
            set_typingUsers (insert roomId [])
        | Some _ => mret tt
        end;
    _ ← cleanupUserConnections roomId nick';
    clients ← room_clients roomId;
    match List.find (fun client =>
                       bool_decide (nick client = nick') && client_open client)
                    clients with
    | Some _ =>
        emit [send w (error (js "Nickname already taken in this room"));
              close w 1008 (js "Nickname already taken")]
    | None =>
        let clientInfo := mkClient w nick' roomId joined in
        _ ← set_rooms (insert roomId (clients ++ [clientInfo]));
        messages ← gets (fun s => default [] (messageBuffers s !! roomId));
        _ ← emit [send w (history messages)];
        _ ← broadcastUserList roomId;
        users ← gets (fun s => default [] (typingUsers s !! roomId));
        _ ← emit [send w (typing users)];
        _ ← broadcastSystemMessage roomId (nick' ++ js " joined the room");
        emit [send w (connected (js "Successfully connected to the room"))]
    end.

(** ** The [message] handler *)

(** The block under [if (messageObj.type === "message")]. *)
Definition on_chat (w : nat) (roomId nick' : jstring) (messageObj : JSON) : M unit :=
  text ← lift (Get (Some messageObj) (js "text"));
  len ← lift (Get text (js "length"));
  long ← lift (gt_500 len);
  if (long : bool) then
    emit [send w (error (js "Message too long (max 500 characters)"))]
  else
    (* the argument of [log]: a template literal over [text] *)
    _ ← lift (template text);
    _ ← clear_typing roomId nick';
    let message' := mkMessage nick' text now in
    buffer ← room_messages roomId;
    _ ← set_messageBuffers (insert roomId (buffer ++ [message']));
    _ ← (if (MAX_MESSAGES <? length (buffer ++ [message']))%nat
         then set_messageBuffers (insert roomId (tail (buffer ++ [message'])))
         else mret tt);
    clients ← room_clients roomId;
    emit (send_open clients (message message')).

(** The inner [try]: [messageObj = JSON.parse(rawData)], or the plain text
    wrapped as a chat message when that throws. *)
Definition parse_payload (rawData : jstring) : JSON :=
  match JSON_parse rawData with
  | Some v => v
  | None => JObject [(js "type", JString (js "message")); (js "text", JString rawData)]
  end.

(** The body of the outer [try]. *)
Definition on_message_body (w : nat) (roomId nick' data : jstring) : M unit :=
  let rawData := trim data in
  if bool_decide (rawData = []) then mret tt else
  let messageObj := parse_payload rawData in
  type ← lift (Get (Some messageObj) (js "type"));
  if is_string type (js "typing") then
    isTyping ← lift (Get (Some messageObj) (js "isTyping"));
    broadcastTypingStatus roomId nick' (ToBoolean isTyping)
  else if is_string type (js "message") then
    on_chat w roomId nick' messageObj
  else mret tt.

Definition on_message (w : nat) (roomId nick' data : jstring) : M unit :=
  try_catch (on_message_body w roomId nick' data)
            (emit [send w (error (js "Error processing message"))]).

(** ** The [close] handler *)

Definition delete_room (roomId : jstring) : M unit :=
  _ ← set_rooms (delete roomId);
  _ ← set_messageBuffers (delete roomId);
  set_typingUsers (delete roomId).

Definition on_close (w : nat) (roomId nick' : jstring) : M unit :=
  r ← gets (fun s => rooms s !! roomId);
  match r with
  | None => mret tt
  | Some clients =>
      _ ← set_rooms (insert roomId
             (List.filter (fun client => negb (bool_decide (ws client = w))) clients));
      _ ← clear_typing roomId nick';
      remaining ← room_clients roomId;
      _ ← (if (0 <? length remaining)%nat then
             _ ← broadcastSystemMessage roomId (nick' ++ js " left the room");
             broadcastUserList roomId
           else mret tt);
      remaining' ← room_clients roomId;
      if (length remaining' =? 0)%nat then delete_room roomId else mret tt
  end.

(** ** The periodic sweep *)

(** The callback of [Object.keys(rooms).forEach]. *)
Definition sweep_room (roomId : jstring) : M unit :=
  clients ← room_clients roomId;
  let beforeCleanup := length clients in
  let activeClients := List.filter client_open clients in
  if negb (length activeClients =? beforeCleanup)%nat then
    _ ← set_rooms (insert roomId activeClients);
    if (length activeClients =? 0)%nat then delete_room roomId
    else
      _ ← broadcastUserList roomId;
      t ← gets (fun s => typingUsers s !! roomId);
      match t with
      | Some _ =>
          let connectedUsers := List.map nick activeClients in
          set_typingUsers
            (alter (List.filter (fun user => bool_decide (user ∈ connectedUsers))) roomId)
      | None => mret tt
      end
  else mret tt.

Fixpoint forEach {A : Type} (l : list A) (f : A -> M unit) : M unit :=
  match l with
  | [] => mret tt
  | x :: r => _ ← f x; forEach r f
  end.

(** The rooms are visited in the order of the map's key list, which stands
    for the property order of [Object.keys]. *)
Definition sweep : M unit :=
  keys ← gets (fun s => fst <$> map_to_list (rooms s));
  forEach keys sweep_room.

End Handlers.

(** ** Runs of the server *)

(** What can happen: a connection arrives with its query parameters; a
    socket that joined as [nick] in [roomId] delivers a payload or closes;
    the sweep timer fires.  A run does not require the socket of a payload
    or of a close to have joined: what holds of all runs holds of those
    that do.  An exception that leaves a handler ends the run of that
    handler with the registries as they are at that point; what the
    runtime does with it is not modelled, and a run goes on with the next
    event. *)
Inductive Event : Type :=
| Connection (w : nat) (room nick0 : option jstring)
| Incoming (w : nat) (roomId nick' data : jstring)
| Closed (w : nat) (roomId nick' : jstring)
| Sweep.

(** An event with what the handler reads from outside: the [readyState] of
    the sockets, [Date.now()], and for a connection the earlier reading of
    [Date.now()] that becomes [joinedAt]. *)
Record Input : Type := mkInput {
  in_event : Event;
  in_readyState : nat -> ReadyState;
  in_now : Z;
  in_joined : Z
}.

Definition handle (i : Input) : M unit :=
  match in_event i with
  | Connection w room nick0 =>
      on_connection (in_readyState i) (in_now i) (in_joined i) w room nick0
  | Incoming w roomId nick' data => on_message (in_readyState i) (in_now i) w roomId nick' data
  | Closed w roomId nick' => on_close (in_readyState i) (in_now i) w roomId nick'
  | Sweep => sweep (in_readyState i)
  end.

Fixpoint run (inputs : list Input) (s : Store) : Store :=
  match inputs with
  | [] => s
  | i :: r => run r (store_of (handle i s))
  end.

(** The stores the server can be in: those some sequence of events leads to
    from the empty registries. *)
Definition reachable (s : Store) : Prop :=
  exists inputs, run inputs empty_store = s.

(** ** Names for what the handlers compute *)

#[global] Arguments Set_add : simpl never.
#[global] Arguments Set_delete : simpl never.
#[global] Arguments js : simpl never.
#[global] Arguments send_open : simpl never.
#[global] Arguments trim : simpl never.
#[global] Arguments JSON_parse : simpl never.
#[global] Arguments Get : simpl never.
#[global] Arguments gt_500 : simpl never.
#[global] Arguments ToBoolean : simpl never.
#[global] Arguments is_string : simpl never.
#[global] Arguments parse_payload : simpl never.
#[global] Arguments template : simpl never.
#[global] Arguments inherited : simpl never.

Ltac munfold :=
  unfold room_clients, room_messages, set_rooms, set_messageBuffers,
    set_typingUsers;
  unfold mbind, M_bind, mret, M_ret, gets, modify, emit, lift, throw.

Definition typing_after (r u : jstring) (b : bool) (s : Store) : list jstring :=
  (if b then Set_add u else Set_delete u) (default [] (typingUsers s !! r)).

Definition typing_cleared (r u : jstring) (s : Store) : gmap jstring (list jstring) :=
  match typingUsers s !! r with
  | Some l => <[r := Set_delete u l]> (typingUsers s)
  | None => typingUsers s
  end.

Definition init_room (r : jstring) (s : Store) : Store :=
  match rooms s !! r with
  | None => mkStore (<[r := []]> (rooms s)) (<[r := []]> (messageBuffers s))
                    (<[r := []]> (typingUsers s))
  | Some _ => s
  end.

Definition kept (rs : nat -> ReadyState) (n : jstring) (cl : list Client) : list Client :=
  List.filter
    (fun client =>
       if bool_decide (nick client = n) && negb (client_open rs client)
       then false else true) cl.

Definition holder (rs : nat -> ReadyState) (n : jstring) (cl : list Client) : option Client :=
  List.find (fun client => bool_decide (nick client = n) && client_open rs client) cl.

(** What a join emits; [now] is the timestamp of the join notice. *)
Definition join_trace (rs : nat -> ReadyState) (now : Z) (w : nat) (n : jstring)
  (cl : list Client) (h : list Message) (t : list jstring) : list Action :=
  [send w (history h)]
  ++ send_open rs cl (userList (List.map nick cl))
  ++ [send w (typing t)]
  ++ send_open rs cl (system (n ++ js " joined the room") now)
  ++ [send w (connected (js "Successfully connected to the room"))].

Definition push_message (b : list Message) (m : Message) : list Message :=
  if (MAX_MESSAGES <? length (b ++ [m]))%nat then tail (b ++ [m]) else b ++ [m].

Definition typing_notice (rs : nat -> ReadyState) (r u : jstring) (s : Store) : list Action :=
  match typingUsers s !! r, rooms s !! r with
  | Some l, Some cl => send_open rs cl (typing (Set_delete u l))
  | _, _ => []
  end.

Definition remaining (w : nat) (cl : list Client) : list Client :=
  List.filter (fun client => negb (bool_decide (ws client = w))) cl.

Definition typing_pruned (r : jstring) (act : list Client) (s : Store)
  : gmap jstring (list jstring) :=
  match typingUsers s !! r with
  | Some l =>
      <[r := List.filter (fun user => bool_decide (user ∈ List.map nick act)) l]>
        (typingUsers s)
  | None => typingUsers s
  end.

(** Invariants *)

Record store_ok (s : Store) : Prop := mk_store_ok {
  ok_nodup : forall r cl, rooms s !! r = Some cl -> NoDup (List.map nick cl);
  ok_names : forall r cl, rooms s !! r = Some cl ->
             r <> [] /\ Forall (fun c => nick c <> []) cl;
  ok_nonempty : forall r cl, rooms s !! r = Some cl -> cl <> [];
  ok_buffers : forall r, is_Some (rooms s !! r) ->
               is_Some (messageBuffers s !! r) /\ is_Some (typingUsers s !! r);
  ok_bound : forall r b, messageBuffers s !! r = Some b ->
             (length b <= MAX_MESSAGES)%nat
}.

(** How the handler reads a payload before it touches the registries: the
    payload is ignored, faults, is a typing indicator, is too long, or is a
    chat message with the given text. *)
Inductive Class : Type :=
| Ignored
| Fault
| TypingControl (isTyping : bool)
| TooLong
| Chat (text : value).

Definition classify (data : jstring) : Class :=
  let rawData := trim data in
  if bool_decide (rawData = []) then Ignored else
  let messageObj := parse_payload rawData in
  match Get (Some messageObj) (js "type") with
  | Throw => Fault
  | Normal type =>
      if is_string type (js "typing") then
        match Get (Some messageObj) (js "isTyping") with
        | Throw => Fault
        | Normal isTyping => TypingControl (ToBoolean isTyping)
        end
      else if is_string type (js "message") then
        match Get (Some messageObj) (js "text") with
        | Throw => Fault
        | Normal text =>
            match Get text (js "length") with
            | Throw => Fault
            | Normal len =>
                match gt_500 len with
                | Throw => Fault
                | Normal true => TooLong
                | Normal false =>
                    match template text with
                    | Throw => Fault
                    | Normal _ => Chat text
                    end
                end
            end
        end
      else Ignored
  end.

(** The typing set of a room, empty when there is none. *)
Definition typing_of (s : Store) (r : jstring) : list jstring :=
  default [] (typingUsers s !! r).

(** The connection of a registered client is open. *)
Definition readyState_open (rs : nat -> ReadyState) (c : Client) : Prop :=
  client_open rs c = true.

(** ** Sample runs *)

Definition all_open : nat -> ReadyState := fun _ => OPEN.

(** Every socket open but the first. *)
Definition first_gone : nat -> ReadyState :=
  fun w => match w with 1%nat => CLOSED | _ => OPEN end.

Definition lobby : jstring := js "lobby".
Definition alice : jstring := js "alice".
Definition bob : jstring := js "bob".

Definition joins (w : nat) (n : jstring) (t : Z) : Input :=
  mkInput (Connection w (Some lobby) (Some n)) all_open t t.

Definition says (w : nat) (n : jstring) (data : jstring) (t : Z) : Input :=
  mkInput (Incoming w lobby n data) all_open t t.

(** Alice alone in the lobby. *)
Definition alice_alone : Store := run [joins 1 alice 5] empty_store.

(** Alice and Bob in the lobby. *)
Definition alice_and_bob : Store := run [joins 1 alice 5; joins 2 bob 6] empty_store.

(** Alice has said [hi] fifty times: the buffer is full. *)
Definition fifty_inputs : list Input :=
  joins 1 alice 5 :: List.repeat (says 1 alice (js "hi") 7) 50.

Definition full_lobby : Store := run fifty_inputs empty_store.

Definition hi : Message := mkMessage alice (Some (JString (js "hi"))) 7.

(** ** Reading a trace *)

(** The [type] of a server message. *)
Inductive Kind : Type :=
| Kconnected | Khistory | KuserList | Ktyping | Ksystem | Kmessage | Kerror.

Definition kind (m : ServerMessage) : Kind :=
  match m with
  | connected _ => Kconnected
  | history _ => Khistory
  | userList _ => KuserList
  | typing _ => Ktyping
  | system _ _ => Ksystem
  | message _ => Kmessage
  | error _ => Kerror
  end.

(** The messages a trace sends to socket [w], in order. *)
Fixpoint sent_to (w : nat) (t : list Action) : list ServerMessage :=
  match t with
  | [] => []
  | send to m :: t' => if bool_decide (to = w) then m :: sent_to w t' else sent_to w t'
  | close _ _ _ :: t' => sent_to w t'
  end.

Definition is_close (a : Action) : bool :=
  match a with close _ _ _ => true | send _ _ => false end.

(** The order of the join-time messages as the specification states it. *)
Definition spec_join_order : list Kind :=
  [Kconnected; Khistory; KuserList; Ktyping; Ksystem].

(** The order in which the [connection] handler sends them. *)
Definition join_order : list Kind :=
  [Khistory; KuserList; Ktyping; Ksystem; Kconnected].

(** What a joiner of room [r] is shown: the buffer and the typing set of the
    room if it exists, nothing if the join creates it. *)
Definition history_shown (s : Store) (r : jstring) : list Message :=
  match rooms s !! r with
  | Some _ => default [] (messageBuffers s !! r)
  | None => []
  end.

Definition typing_shown (s : Store) (r : jstring) : list jstring :=
  match rooms s !! r with
  | Some _ => default [] (typingUsers s !! r)
  | None => []
  end.

(** Room [r] has left the registries: no client list, no buffer, no typing
    set. *)
Definition room_gone (s : Store) (r : jstring) : Prop :=
  rooms s !! r = None /\ messageBuffers s !! r = None /\ typingUsers s !! r = None.

(** The three registries agree with [s] at room [r]. *)
Definition same_room (s s' : Store) (r : jstring) : Prop :=
  rooms s' !! r = rooms s !! r
  /\ messageBuffers s' !! r = messageBuffers s !! r
  /\ typingUsers s' !! r = typingUsers s !! r.

(** Alice's socket is gone but no [close] event has been handled yet. *)
Definition nobody_open : nat -> ReadyState := fun _ => CLOSED.

(** ** Payload shapes *)

(** The value of [isTyping] when the payload is a typing indicator: text
    that parses as JSON to a value whose [type] is the string [typing]. *)
Definition typing_control (data : jstring) : option value :=
  if bool_decide (trim data = []) then None else
  match Get (Some (parse_payload (trim data))) (js "type") with
  | Normal type =>
      if is_string type (js "typing") then
        match Get (Some (parse_payload (trim data))) (js "isTyping") with
        | Normal isTyping => Some isTyping
        | Throw => None
        end
      else None
  | Throw => None
  end.

(** The chat path in the words of the specification: the payload is
    trimmed; an empty result is ignored; more than 500 characters are
    answered by an error; otherwise the sender leaves the typing set (with
    a typing broadcast), the message joins the history and is broadcast. *)
Definition spec_chat (rs : nat -> ReadyState) (now : Z) (w : nat) (r n payload : jstring)
  (s : Store) : Store * list Action :=
  let text := trim payload in
  if bool_decide (text = []) then (s, [])
  else if (500 <? length text)%nat then
    (s, [send w (error (js "Message too long (max 500 characters)"))])
  else
    let m := mkMessage n (Some (JString text)) now in
    (mkStore (rooms s)
             (<[r := push_message (default [] (messageBuffers s !! r)) m]> (messageBuffers s))
             (typing_cleared r n s),
     typing_notice rs r n s ++ send_open rs (default [] (rooms s !! r)) (message m)).

(** The two shapes of the specification: a typing indicator sets the typing
    state; any other payload is chat text verbatim. *)
Definition spec_on_message (rs : nat -> ReadyState) (now : Z) (w : nat)
  (r n data : jstring) (s : Store) : Store * list Action :=
  match typing_control data with
  | Some isTyping =>
      let out := broadcastTypingStatus rs r n (ToBoolean isTyping) s in
      (store_of out, trace_of out)
  | None => spec_chat rs now w r n data s
  end.

(** ** Sample payloads *)

Definition quoted (s : string) : jstring := 34 :: js s ++ [34].

(** [{"type":"typing","isTyping":true}] *)
Definition typing_on : jstring :=
  js "{" ++ quoted "type" ++ js ":" ++ quoted "typing" ++ js ","
  ++ quoted "isTyping" ++ js ":true}".

(** [{"type":"message","text":"hi"}] *)
Definition json_chat_hi : jstring :=
  js "{" ++ quoted "type" ++ js ":" ++ quoted "message" ++ js ","
  ++ quoted "text" ++ js ":" ++ quoted "hi" ++ js "}".

(** [{"type":"message","text":"   "}] *)
Definition json_chat_blank : jstring :=
  js "{" ++ quoted "type" ++ js ":" ++ quoted "message" ++ js ","
  ++ quoted "text" ++ js ":" ++ quoted "   " ++ js "}".

(** [{"type":"message"}] *)
Definition json_chat_no_text : jstring :=
  js "{" ++ quoted "type" ++ js ":" ++ quoted "message" ++ js "}".

(** Five hundred times the letter [a]. *)
Definition five_hundred_a : jstring := List.repeat 97 500.

(** The [type] of the message an action sends, if it sends one. *)
Definition kind_of_action (a : Action) : option Kind :=
  match a with
  | send _ m => Some (kind m)
  | close _ _ _ => None
  end.

(** ** Further invariants of the registries *)

Record store_shape (s : Store) : Prop := mk_store_shape {
  shape_roomId : forall r cl, rooms s !! r = Some cl -> Forall (fun c => roomId c = r) cl;
  shape_buffers : forall r, is_Some (messageBuffers s !! r) -> is_Some (rooms s !! r);
  shape_typing : forall r l, typingUsers s !! r = Some l -> NoDup l
}.

(** No registered room goes by a name that [rooms] inherits. *)
Definition rooms_own (s : Store) : Prop :=
  forall r, is_Some (rooms s !! r) -> inherited r = false.

(** An open connection of the list holds the name. *)
Definition name_taken (rs : nat -> ReadyState) (n : jstring) (cl : list Client) : bool :=
  existsb (fun c => bool_decide (nick c = n) && client_open rs c) cl.

(** How many error messages a trace sends. *)
Definition errors_sent (t : list Action) : nat :=
  length (List.filter (fun a => match kind_of_action a with
                                | Some Kerror => true
                                | _ => false
                                end) t).

(** The payloads [42], [[1,2]] and [null], and a chat object whose text is
    the number 5: [{"type":"message","text":5}]. *)
Definition payload_42 : jstring := js "42".
Definition payload_array : jstring := js "[1,2]".
Definition payload_null : jstring := js "null".
Definition json_chat_five : jstring :=
  js "{" ++ quoted "type" ++ js ":" ++ quoted "message" ++ js ","
  ++ quoted "text" ++ js ":5}".

(** [{"type":"message","text":{"toString":1}}]: a chat object whose text
    cannot be converted to a string. *)
Definition json_chat_unprintable : jstring :=
  js "{" ++ quoted "type" ++ js ":" ++ quoted "message" ++ js ","
  ++ quoted "text" ++ js ":{" ++ quoted "toString" ++ js ":1}}".

(** The read [rooms[r]] gives an inherited property: [r] is not registered
    and is an inherited name. *)
Definition reads_inherited (s : Store) (r : jstring) : bool :=
  match rooms s !! r with
  | None => inherited r
  | Some _ => false
  end.

(** A parsed value the handler has no branch for: anything but an object
    whose [type] is the string [typing] or [message]. *)
Definition other_shape (v : JSON) : bool :=
  match v with
  | JObject ms =>
      negb (is_string (own ms (js "type")) (js "typing")
            || is_string (own ms (js "type")) (js "message"))
  | _ => true
  end.

(** A value without a [length]: a number or a boolean. *)
Definition lacks_length (v : JSON) : bool :=
  match v with
  | JNumber _ _ | JBool _ => true
  | _ => false
  end.

(** What the sweep leaves of a client list: the open connections, or nothing
    at all when there were clients and none of them is open. *)
Definition swept (rs : nat -> ReadyState) (cl : list Client) : option (list Client) :=
  let activeClients := List.filter (client_open rs) cl in
  if (length activeClients =? 0)%nat && negb (length cl =? 0)%nat
  then None else Some activeClients.

(** Alice and Bob in the lobby, both typing. *)
Definition both_typing : Store :=
  run [joins 1 alice 5; joins 2 bob 6; says 1 alice typing_on 7; says 2 bob typing_on 8]
      empty_store.

(** ** Shutdown *)

(** [gracefulShutdown]: [wss.clients.forEach(ws => { if (ws.readyState === OPEN)
    ws.close(1001, "Server shutting down") })], over the sockets the server
    holds (a [Set], hence a list without repetition). *)
Definition gracefulShutdown (rs : nat -> ReadyState) (clients : list nat) : list Action :=
  List.map (fun w => close w 1001 (js "Server shutting down"))
           (List.filter (fun w => is_open (rs w)) clients).

(** The [close] calls a trace makes on socket [w]. *)
Fixpoint closes_of (w : nat) (t : list Action) : list (Z * jstring) :=
  match t with
  | [] => []
  | close to code reason :: t' =>
      if bool_decide (to = w) then (code, reason) :: closes_of w t' else closes_of w t'
  | send _ _ :: t' => closes_of w t'
  end.

(** ** The first variant of the message handler *)

(** The handler of the variant without typing indicators: every payload is
    text. *)
Definition on_message_text_body (rs : nat -> ReadyState) (now : Z) (w : nat)
  (roomId nick' data : jstring) : M unit :=
  let text := trim data in
  if bool_decide (text = []) then mret tt else
  if (500 <? length text)%nat then
    emit [send w (error (js "Message too long (max 500 characters)"))]
  else
    let message' := mkMessage nick' (Some (JString text)) now in
    buffer ← room_messages roomId;
    _ ← set_messageBuffers (insert roomId (buffer ++ [message']));
    _ ← (if (MAX_MESSAGES <? length (buffer ++ [message']))%nat
         then set_messageBuffers (insert roomId (tail (buffer ++ [message'])))
         else mret tt);
    clients ← room_clients roomId;
    emit (send_open rs clients (message message')).

Definition on_message_text (rs : nat -> ReadyState) (now : Z) (w : nat)
  (roomId nick' data : jstring) : M unit :=
  try_catch (on_message_text_body rs now w roomId nick' data)
            (emit [send w (error (js "Error processing message"))]).

(** ** The variant of the connection handler without the clean-up *)

(** The [connection] handler of the variant that has typing indicators but
    no [cleanupUserConnections]. *)
Definition on_connection_no_cleanup (rs : nat -> ReadyState) (now joined : Z)
  (w : nat) (room nick0 : option jstring) : M unit :=
  if missing room || missing nick0 then
    emit [close w 1008 (js "Room and nick are required")]
  else
    let roomId := default [] room in
    let nick' := default [] nick0 in
    r ← gets (fun s => rooms s !! roomId);
    _ ← match r with
        | None =>
            if inherited roomId then mret tt else
            _ ← set_rooms (insert roomId []);
            _ ← set_messageBuffers (insert roomId []);
            set_typingUsers (insert roomId [])
        | Some _ => mret tt
        end;
    clients ← room_clients roomId;
    match List.find (fun client =>
                       bool_decide (nick client = nick') && client_open rs client)
                    clients with
    | Some _ =>
        emit [send w (error (js "Nickname already taken in this room"));
              close w 1008 (js "Nickname already taken")]
    | None =>
        let clientInfo := mkClient w nick' roomId joined in
        _ ← set_rooms (insert roomId (clients ++ [clientInfo]));
        messages ← gets (fun s => default [] (messageBuffers s !! roomId));
        _ ← emit [send w (history messages)];
        _ ← broadcastUserList rs roomId;
        users ← gets (fun s => default [] (typingUsers s !! roomId));
        _ ← emit [send w (typing users)];
        _ ← broadcastSystemMessage rs now roomId (nick' ++ js " joined the room");
        emit [send w (connected (js "Successfully connected to the room"))]
    end.

(** ** What each helper and handler computes *)

Lemma store_eta s : mkStore (rooms s) (messageBuffers s) (typingUsers s) = s.
Proof. by destruct s. Qed.

Lemma broadcast_run rs r m s :
  broadcast rs r m s
  = (Normal tt, s, match rooms s !! r with Some cl => send_open rs cl m | None => [] end).
Proof. unfold broadcast. munfold. cbn. destruct (rooms s !! r); reflexivity. Qed.

Lemma broadcastUserList_run rs r s :
  broadcastUserList rs r s
  = (Normal tt, s,
     match rooms s !! r with
     | Some cl => send_open rs cl (userList (List.map nick cl))
     | None => []
     end).
Proof.
  unfold broadcastUserList. munfold. cbn. rewrite broadcast_run.
  destruct (rooms s !! r); reflexivity.
Qed.

Lemma alter_insert_same {V} (f : V -> V) (r : jstring) (x : V) (m : gmap jstring V) :
  alter f r (<[r := x]> m) = <[r := f x]> m.
Proof.
  apply map_eq. intros k. destruct (decide (k = r)) as [->|Hne].
  - rewrite lookup_alter_eq, !lookup_insert_eq. reflexivity.
  - rewrite lookup_alter_ne, !lookup_insert_ne by congruence. reflexivity.
Qed.

Lemma alter_as_insert {V} (f : V -> V) (r : jstring) (x : V) (m : gmap jstring V) :
  m !! r = Some x -> alter f r m = <[r := f x]> m.
Proof.
  intros H. rewrite <- (insert_id m r x H) at 1. apply alter_insert_same.
Qed.

Lemma broadcastTypingStatus_run rs r u b s :
  broadcastTypingStatus rs r u b s
  = (Normal tt,
     mkStore (rooms s) (messageBuffers s) (<[r := typing_after r u b s]> (typingUsers s)),
     match rooms s !! r with
     | Some cl => send_open rs cl (typing (typing_after r u b s))
     | None => []
     end).
Proof.
  unfold broadcastTypingStatus, typing_after. munfold. cbn.
  destruct (typingUsers s !! r) as [l|] eqn:Ht; cbn.
  - destruct b; cbn; rewrite broadcast_run; cbn;
      rewrite (alter_as_insert _ _ _ _ Ht), lookup_insert_eq; cbn;
      destruct (rooms s !! r); reflexivity.
  - destruct b; cbn; rewrite broadcast_run; cbn;
      rewrite alter_insert_same, lookup_insert_eq; cbn;
      destruct (rooms s !! r); reflexivity.
Qed.

Lemma Set_delete_idem u l : Set_delete u (Set_delete u l) = Set_delete u l.
Proof.
  unfold Set_delete. induction l as [|x l IH]; cbn; [done|].
  destruct (bool_decide (x = u)) eqn:E; cbn; [done|]. rewrite E. cbn. by rewrite IH.
Qed.

Lemma clear_typing_run rs r u s :
  clear_typing rs r u s
  = (Normal tt,
     mkStore (rooms s) (messageBuffers s) (typing_cleared r u s),
     match typingUsers s !! r, rooms s !! r with
     | Some l, Some cl => send_open rs cl (typing (Set_delete u l))
     | _, _ => []
     end).
Proof.
  unfold clear_typing, typing_cleared. munfold. cbn.
  destruct (typingUsers s !! r) as [l|] eqn:Ht; cbn.
  - rewrite broadcastTypingStatus_run. unfold typing_after. cbn.
    rewrite (alter_as_insert _ _ _ _ Ht), lookup_insert_eq. cbn.
    rewrite Set_delete_idem, insert_insert_eq.
    destruct (rooms s !! r); reflexivity.
  - by rewrite store_eta.
Qed.

Lemma on_connection_run rs now joined w r n s :
  r <> [] -> n <> [] ->
  (rooms s !! r = None -> inherited r = false) ->
  let s0 := init_room r s in
  let cl1 := kept rs n (default [] (rooms s !! r)) in
  on_connection rs now joined w (Some r) (Some n) s
  = match holder rs n cl1 with
    | Some _ =>
        (Normal tt,
         mkStore (<[r := cl1]> (rooms s0)) (messageBuffers s0) (typingUsers s0),
         [send w (error (js "Nickname already taken in this room"));
          close w 1008 (js "Nickname already taken")])
    | None =>
        let cl2 := cl1 ++ [mkClient w n r joined] in
        (Normal tt,
         mkStore (<[r := cl2]> (rooms s0)) (messageBuffers s0) (typingUsers s0),
         join_trace rs now w n cl2 (default [] (messageBuffers s0 !! r))
                    (default [] (typingUsers s0 !! r)))
    end.
Proof.
  intros Hr Hn Hown s0 cl1.
  unfold on_connection.
  destruct r as [|c r]; [done|]. destruct n as [|d n]; [done|].
  cbn [missing orb default].
  set (r' := c :: r) in *. set (n' := d :: n) in *.
  unfold cleanupUserConnections. munfold.
  subst s0 cl1. unfold init_room, holder, kept, join_trace, id.
  cbv beta.
  destruct (rooms s !! r') as [cl|] eqn:Hroom.
  - repeat (progress (rewrite ?Hroom, ?lookup_insert_eq, ?insert_insert_eq; cbn -[js])).
    destruct (List.find _ _) eqn:Hf; cbn -[js]; [reflexivity|].
    rewrite broadcastUserList_run. unfold broadcastSystemMessage. rewrite broadcast_run.
    repeat (progress (rewrite ?Hroom, ?lookup_insert_eq, ?insert_insert_eq; cbn -[js])).
    rewrite <- ?app_assoc. reflexivity.
  - rewrite (Hown eq_refl).
    repeat (progress (rewrite ?Hroom, ?lookup_insert_eq, ?insert_insert_eq; cbn -[js])).
    rewrite broadcastUserList_run. unfold broadcastSystemMessage. rewrite broadcast_run.
    repeat (progress (rewrite ?Hroom, ?lookup_insert_eq, ?insert_insert_eq; cbn -[js])).
    rewrite <- ?app_assoc. reflexivity.
Qed.

(** A join to an unregistered room whose identifier is inherited: nothing
    is initialised and the clean-up throws. *)
Lemma on_connection_inherited rs now joined w r n s :
  n <> [] -> rooms s !! r = None -> inherited r = true ->
  on_connection rs now joined w (Some r) (Some n) s = (Throw, s, []).
Proof.
  intros Hn Hroom Hin.
  assert (Hr : r <> []) by (intros ->; vm_compute in Hin; discriminate).
  unfold on_connection.
  destruct r as [|c r]; [done|]. destruct n as [|d n]; [done|].
  cbn [missing orb default].
  unfold cleanupUserConnections. munfold. unfold id.
  rewrite Hroom, Hin. cbn. rewrite Hroom. reflexivity.
Qed.

Lemma clear_typing_run' rs r u s :
  clear_typing rs r u s
  = (Normal tt, mkStore (rooms s) (messageBuffers s) (typing_cleared r u s),
     typing_notice rs r u s).
Proof. apply clear_typing_run. Qed.

Lemma on_chat_run rs now w r n o s :
  on_chat rs now w r n o s =
  match Get (Some o) (js "text") with
  | Throw => (Throw, s, [])
  | Normal text =>
    match Get text (js "length") with
    | Throw => (Throw, s, [])
    | Normal len =>
      match gt_500 len with
      | Throw => (Throw, s, [])
      | Normal true =>
          (Normal tt, s, [send w (error (js "Message too long (max 500 characters)"))])
      | Normal false =>
          let m := mkMessage n text now in
          let s1 := mkStore (rooms s) (messageBuffers s) (typing_cleared r n s) in
          let s2 := mkStore (rooms s) (<[r := push_message (default [] (messageBuffers s !! r)) m]> (messageBuffers s))
                            (typing_cleared r n s) in
          match template text with
          | Throw => (Throw, s, [])
          | Normal _ =>
            match messageBuffers s !! r, rooms s !! r with
            | None, _ => (Throw, s1, typing_notice rs r n s)
            | Some b, None => (Throw, s2, typing_notice rs r n s)
            | Some b, Some cl =>
                (Normal tt, s2, typing_notice rs r n s ++ send_open rs cl (message m))
            end
          end
      end
    end
  end.
Proof.
  unfold on_chat. munfold.
  destruct (Get (Some o) (js "text")) as [text|]; [|reflexivity].
  destruct (Get text (js "length")) as [len|]; [|reflexivity].
  destruct (gt_500 len) as [[|]|]; [reflexivity| |reflexivity].
  destruct (template text) as [[]|]; [|reflexivity].
  rewrite clear_typing_run'. unfold push_message.
  cbn -[js Nat.ltb MAX_MESSAGES].
  destruct (messageBuffers s !! r) as [b|] eqn:Hb; [|by rewrite app_nil_r].
  cbn -[js Nat.ltb MAX_MESSAGES].
  destruct (MAX_MESSAGES <? length (b ++ [_]))%nat eqn:Hlen;
    cbn -[js Nat.ltb MAX_MESSAGES]; rewrite ?insert_insert_eq;
    destruct (rooms s !! r) as [cl|] eqn:Hcl; cbn -[js];
    rewrite ?app_nil_r; reflexivity.
Qed.

Lemma on_message_body_run rs now w r n data s :
  on_message_body rs now w r n data s =
  if bool_decide (trim data = []) then (Normal tt, s, []) else
  let o := parse_payload (trim data) in
  match Get (Some o) (js "type") with
  | Throw => (Throw, s, [])
  | Normal ty =>
      if is_string ty (js "typing") then
        match Get (Some o) (js "isTyping") with
        | Throw => (Throw, s, [])
        | Normal v => broadcastTypingStatus rs r n (ToBoolean v) s
        end
      else if is_string ty (js "message") then on_chat rs now w r n o s
      else (Normal tt, s, [])
  end.
Proof.
  unfold on_message_body. munfold.
  destruct (bool_decide (trim data = [])); [reflexivity|].
  cbv zeta.
  destruct (Get (Some (parse_payload (trim data))) (js "type")) as [ty|]; [|reflexivity].
  cbn -[js].
  destruct (is_string ty (js "typing")).
  - destruct (Get (Some (parse_payload (trim data))) (js "isTyping")) as [v|];
      [|reflexivity]. cbn -[js].
    destruct (broadcastTypingStatus rs r n (ToBoolean v) s) as [[? ?] ?]. reflexivity.
  - destruct (is_string ty (js "message")); [|reflexivity].
    destruct (on_chat rs now w r n (parse_payload (trim data)) s) as [[? ?] ?].
    reflexivity.
Qed.

Lemma typing_cleared_delete r u s :
  delete r (typing_cleared r u s) = delete r (typingUsers s).
Proof.
  unfold typing_cleared. destruct (typingUsers s !! r); [|done].
  by rewrite delete_insert_eq.
Qed.

Lemma on_close_run rs now w r n s :
  on_close rs now w r n s =
  match rooms s !! r with
  | None => (Normal tt, s, [])
  | Some cl =>
      let rem := remaining w cl in
      let tn := match typingUsers s !! r with
                | Some l => send_open rs rem (typing (Set_delete n l))
                | None => []
                end in
      if (0 <? length rem)%nat then
        (Normal tt,
         mkStore (<[r := rem]> (rooms s)) (messageBuffers s) (typing_cleared r n s),
         tn ++ send_open rs rem (system (n ++ js " left the room") now)
            ++ send_open rs rem (userList (List.map nick rem)))
      else
        (Normal tt,
         mkStore (delete r (rooms s)) (delete r (messageBuffers s))
                 (delete r (typingUsers s)),
         tn)
  end.
Proof.
  unfold on_close, delete_room, remaining. munfold.
  cbn -[js Nat.ltb Nat.eqb].
  destruct (rooms s !! r) as [cl|] eqn:Hroom; [|reflexivity].
  set (rem := List.filter _ cl).
  cbn -[js Nat.ltb Nat.eqb].
  rewrite clear_typing_run'. unfold typing_notice, broadcastSystemMessage.
  cbn -[js Nat.ltb Nat.eqb]. rewrite !lookup_insert_eq.
  cbn -[js Nat.ltb Nat.eqb].
  change (typing_cleared r n
      {| rooms := <[r:=rem]> (rooms s); messageBuffers := messageBuffers s;
         typingUsers := typingUsers s |})
      with (typing_cleared r n s).
  destruct rem as [|c rem].
  - cbn -[js]. rewrite !lookup_insert_eq. cbn -[js].
    rewrite delete_insert_eq, typing_cleared_delete.
    destruct (typingUsers s !! r); reflexivity.
  - cbn -[js]. rewrite broadcast_run, broadcastUserList_run.
    cbn -[js]. rewrite !lookup_insert_eq. cbn -[js].
    destruct (typingUsers s !! r); cbn -[js]; rewrite ?app_nil_r; reflexivity.
Qed.

Lemma sweep_room_run rs r s :
  sweep_room rs r s =
  match rooms s !! r with
  | None => (Throw, s, [])
  | Some cl =>
      let act := List.filter (client_open rs) cl in
      if (length act =? length cl)%nat then (Normal tt, s, [])
      else if (length act =? 0)%nat then
        (Normal tt,
         mkStore (delete r (rooms s)) (delete r (messageBuffers s))
                 (delete r (typingUsers s)), [])
      else
        (Normal tt,
         mkStore (<[r := act]> (rooms s)) (messageBuffers s) (typing_pruned r act s),
         send_open rs act (userList (List.map nick act)))
  end.
Proof.
  unfold sweep_room, delete_room, typing_pruned. munfold.
  cbn -[js Nat.eqb].
  destruct (rooms s !! r) as [cl|] eqn:Hroom; [|reflexivity].
  cbn -[js Nat.eqb].
  destruct (length (List.filter (client_open rs) cl) =? length cl)%nat; [reflexivity|].
  cbn -[js Nat.eqb].
  destruct (length (List.filter (client_open rs) cl) =? 0)%nat.
  - cbn -[js]. by rewrite delete_insert_eq.
  - cbn -[js]. rewrite broadcastUserList_run. cbn -[js]. rewrite lookup_insert_eq.
    destruct (typingUsers s !! r) as [l|] eqn:Ht; cbn -[js].
    + rewrite (alter_as_insert _ _ _ _ Ht), app_nil_r. reflexivity.
    + rewrite app_nil_r. reflexivity.
Qed.

Lemma empty_store_ok : store_ok empty_store.
Proof.
  split; cbn; intros r; intros; try rewrite lookup_empty in *; try done.
  by destruct H.
Qed.

Lemma NoDup_map_filter {A B} (f : A -> B) (p : A -> bool) (l : list A) :
  NoDup (List.map f l) -> NoDup (List.map f (List.filter p l)).
Proof.
  induction l as [|x l IH]; cbn; [done|].
  intros Hnd. apply NoDup_cons in Hnd as [Hx Hl].
  destruct (p x); cbn; [|by apply IH].
  apply NoDup_cons. split; [|by apply IH].
  intros Hin. apply Hx.
  apply list_elem_of_In, in_map_iff in Hin as (y & Hy & Hin).
  apply list_elem_of_In, in_map_iff. exists y. split; [done|].
  apply filter_In in Hin. tauto.
Qed.

Lemma Forall_filter' {A} (P : A -> Prop) (p : A -> bool) (l : list A) :
  Forall P l -> Forall P (List.filter p l).
Proof.
  rewrite !List.Forall_forall. intros H x Hx. apply H.
  apply filter_In in Hx. tauto.
Qed.

Lemma push_message_bound b m :
  (length b <= MAX_MESSAGES)%nat -> (length (push_message b m) <= MAX_MESSAGES)%nat.
Proof.
  unfold push_message. intros Hb.
  destruct (MAX_MESSAGES <? length (b ++ [m]))%nat eqn:E.
  - destruct b as [|x b]; cbn in *; [lia|]. rewrite length_app in *. cbn in *.
    unfold MAX_MESSAGES in *. lia.
  - apply Nat.ltb_ge in E. done.
Qed.

(** Replacing the client list of one room. *)
Lemma store_ok_set_room s r X :
  store_ok s -> is_Some (rooms s !! r) ->
  NoDup (List.map nick X) -> Forall (fun c => nick c <> []) X -> X <> [] ->
  store_ok (mkStore (<[r := X]> (rooms s)) (messageBuffers s) (typingUsers s)).
Proof.
  intros Hok Hr Hnd Hnames Hne. split; cbn.
  - intros r' cl. destruct (decide (r' = r)) as [->|Hd].
    + rewrite lookup_insert_eq. by intros [= <-].
    + rewrite lookup_insert_ne by done. apply Hok.
  - intros r' cl. destruct (decide (r' = r)) as [->|Hd].
    + rewrite lookup_insert_eq. intros [= <-]. split; [|done].
      destruct Hr as [cl Hcl]. by apply (ok_names s Hok r cl).
    + rewrite lookup_insert_ne by done. apply Hok.
  - intros r' cl. destruct (decide (r' = r)) as [->|Hd].
    + rewrite lookup_insert_eq. by intros [= <-].
    + rewrite lookup_insert_ne by done. apply Hok.
  - intros r'. destruct (decide (r' = r)) as [->|Hd].
    + intros _. by apply Hok.
    + rewrite lookup_insert_ne by done. apply Hok.
  - apply Hok.
Qed.

(** Creating a room with its first client list. *)
Lemma store_ok_new_room s r X :
  store_ok s -> r <> [] ->
  NoDup (List.map nick X) -> Forall (fun c => nick c <> []) X -> X <> [] ->
  store_ok (mkStore (<[r := X]> (rooms s)) (<[r := []]> (messageBuffers s))
                    (<[r := []]> (typingUsers s))).
Proof.
  intros Hok Hr Hnd Hnames Hne. split; cbn.
  - intros r' cl. destruct (decide (r' = r)) as [->|Hd].
    + rewrite lookup_insert_eq. by intros [= <-].
    + rewrite lookup_insert_ne by done. apply Hok.
  - intros r' cl. destruct (decide (r' = r)) as [->|Hd].
    + rewrite lookup_insert_eq. by intros [= <-].
    + rewrite lookup_insert_ne by done. apply Hok.
  - intros r' cl. destruct (decide (r' = r)) as [->|Hd].
    + rewrite lookup_insert_eq. by intros [= <-].
    + rewrite lookup_insert_ne by done. apply Hok.
  - intros r'. destruct (decide (r' = r)) as [->|Hd].
    + intros _. rewrite !lookup_insert_eq. eauto.
    + rewrite !lookup_insert_ne by done. apply Hok.
  - intros r' b. destruct (decide (r' = r)) as [->|Hd].
    + rewrite lookup_insert_eq. intros [= <-]. cbn. lia.
    + rewrite lookup_insert_ne by done. apply Hok.
Qed.

(** Dropping a room with its buffer and typing set. *)
Lemma store_ok_delete_room s r :
  store_ok s ->
  store_ok (mkStore (delete r (rooms s)) (delete r (messageBuffers s))
                    (delete r (typingUsers s))).
Proof.
  intros Hok. split; cbn.
  - intros r' cl. destruct (decide (r' = r)) as [->|Hd].
    + by rewrite lookup_delete_eq.
    + rewrite lookup_delete_ne by done. apply Hok.
  - intros r' cl. destruct (decide (r' = r)) as [->|Hd].
    + by rewrite lookup_delete_eq.
    + rewrite lookup_delete_ne by done. apply Hok.
  - intros r' cl. destruct (decide (r' = r)) as [->|Hd].
    + by rewrite lookup_delete_eq.
    + rewrite lookup_delete_ne by done. apply Hok.
  - intros r'. destruct (decide (r' = r)) as [->|Hd].
    + rewrite lookup_delete_eq. by intros [? ?].
    + rewrite !lookup_delete_ne by done. apply Hok.
  - intros r' b. destruct (decide (r' = r)) as [->|Hd].
    + by rewrite lookup_delete_eq.
    + rewrite lookup_delete_ne by done. apply Hok.
Qed.

(** Changing typing sets without dropping any. *)
Lemma store_ok_set_typing s t :
  store_ok s -> (forall r, is_Some (typingUsers s !! r) -> is_Some (t !! r)) ->
  store_ok (mkStore (rooms s) (messageBuffers s) t).
Proof.
  intros Hok Ht. split; cbn; try apply Hok.
  intros r Hr. split; [by apply Hok|]. apply Ht. by apply Hok.
Qed.

Lemma typing_cleared_is_Some r u s r' :
  is_Some (typingUsers s !! r') -> is_Some (typing_cleared r u s !! r').
Proof.
  unfold typing_cleared. destruct (typingUsers s !! r) eqn:E; [|done].
  destruct (decide (r' = r)) as [->|Hd].
  - rewrite lookup_insert_eq. eauto.
  - by rewrite lookup_insert_ne.
Qed.

Lemma insert_is_Some {V} (m : gmap jstring V) r x r' :
  is_Some (m !! r') -> is_Some (<[r := x]> m !! r').
Proof.
  destruct (decide (r' = r)) as [->|Hd].
  - rewrite lookup_insert_eq. eauto.
  - by rewrite lookup_insert_ne.
Qed.

Lemma missing_false v : missing v = false -> exists x, v = Some x /\ x <> [].
Proof. destruct v as [[|c x]|]; cbn; try done. intros _. by eexists. Qed.

Lemma holder_Some rs n cl c :
  holder rs n cl = Some c -> c ∈ cl /\ nick c = n /\ client_open rs c = true.
Proof.
  unfold holder. intros H. apply find_some in H as [Hin Hc].
  apply andb_true_iff in Hc as [Hn Ho]. apply bool_decide_eq_true in Hn.
  split; [by apply list_elem_of_In|done].
Qed.

Lemma holder_None rs n cl c :
  holder rs n cl = None -> c ∈ cl -> nick c = n -> client_open rs c = false.
Proof.
  unfold holder. intros H Hin Hn.
  pose proof (find_none _ _ H c (proj1 (list_elem_of_In _ _) Hin)) as Hc.
  cbn in Hc. rewrite (bool_decide_eq_true_2 _ Hn) in Hc. cbn in Hc. done.
Qed.

Lemma elem_of_kept rs n cl c :
  c ∈ kept rs n cl <-> c ∈ cl /\ (nick c = n -> client_open rs c = true).
Proof.
  unfold kept. rewrite !list_elem_of_In, filter_In.
  split; intros [Hin Hc]; (split; [done|]).
  - intros Hn. rewrite (bool_decide_eq_true_2 _ Hn) in Hc. cbn in Hc.
    by destruct (client_open rs c).
  - destruct (bool_decide (nick c = n)) eqn:E; [|done].
    apply bool_decide_eq_true in E. by rewrite (Hc E).
Qed.

(** After the stale holders of [n] are dropped and no open one is found,
    nobody in the room is called [n]. *)
Lemma nick_free rs n cl :
  holder rs n (kept rs n cl) = None -> n ∉ List.map nick (kept rs n cl).
Proof.
  intros Hh Hin. apply list_elem_of_In, in_map_iff in Hin as (c & Hn & Hin).
  apply list_elem_of_In in Hin.
  pose proof (holder_None _ _ _ _ Hh Hin Hn) as Hclosed.
  apply elem_of_kept in Hin as [_ Hopen]. rewrite (Hopen Hn) in Hclosed. done.
Qed.

Lemma on_connection_ok rs now joined w room nick0 s :
  store_ok s -> store_ok (store_of (on_connection rs now joined w room nick0 s)).
Proof.
  intros Hok.
  destruct (missing room || missing nick0) eqn:Hm.
  { unfold on_connection. rewrite Hm. done. }
  apply orb_false_iff in Hm as [Hr Hn].
  apply missing_false in Hr as (r & -> & Hr). apply missing_false in Hn as (n & -> & Hn).
  destruct (rooms s !! r) as [cl|] eqn:Hroom; cycle 1.
  { destruct (inherited r) eqn:Hin.
    - by rewrite on_connection_inherited.
    - rewrite on_connection_run by done. cbv zeta. unfold init_room. rewrite Hroom.
      cbn [from_option id kept List.filter holder List.find store_of fst snd rooms
           messageBuffers typingUsers app].
      rewrite insert_insert_eq.
      apply store_ok_new_room; [done|done| | |done].
      + cbn. apply NoDup_singleton.
      + by constructor. }
  rewrite on_connection_run by (done || by rewrite Hroom).
  cbv zeta. unfold init_room.
  rewrite Hroom; cbn [from_option id].
  - assert (NoDup (List.map nick (kept rs n cl))) as Hnd
      by (apply NoDup_map_filter, (ok_nodup s Hok r cl Hroom)).
    assert (Forall (fun c => nick c <> []) (kept rs n cl)) as Hnames
      by (apply Forall_filter', (ok_names s Hok r cl Hroom)).
    destruct (holder rs n (kept rs n cl)) as [c|] eqn:Hh; cbn [store_of fst snd].
    + apply store_ok_set_room; eauto.
      apply holder_Some in Hh as [Hin _]. intros E. rewrite E in Hin. by inversion Hin.
    + apply store_ok_set_room; eauto.
      * rewrite map_app. cbn. apply NoDup_app. split; [done|]. split.
        -- intros x Hx Hx'. apply list_elem_of_singleton in Hx'. subst x.
           by apply (nick_free rs n cl Hh).
        -- apply NoDup_singleton.
      * apply Forall_app. split; [done|]. by constructor.
      * by destruct (kept rs n cl).
Qed.

Lemma store_of_try_catch m t s :
  store_of (try_catch m (emit t) s) = store_of (m s).
Proof. unfold try_catch, emit. by destruct (m s) as [[[a|] s1] t1]. Qed.

Lemma broadcastTypingStatus_ok rs r u b s :
  store_ok s -> store_ok (store_of (broadcastTypingStatus rs r u b s)).
Proof.
  intros Hok. rewrite broadcastTypingStatus_run. cbn.
  apply store_ok_set_typing; [done|]. intros r'. apply insert_is_Some.
Qed.

Lemma on_chat_ok rs now w r n o s :
  store_ok s -> store_ok (store_of (on_chat rs now w r n o s)).
Proof.
  intros Hok. rewrite on_chat_run.
  destruct (Get (Some o) (js "text")) as [text|]; [|done].
  destruct (Get text (js "length")) as [len|]; [|done].
  destruct (gt_500 len) as [[|]|]; [done| |done].
  cbv zeta.
  destruct (template text) as [[]|]; [|done].
  assert (store_ok (mkStore (rooms s) (messageBuffers s) (typing_cleared r n s))) as Hok1.
  { apply store_ok_set_typing; [done|]. intros r'. apply typing_cleared_is_Some. }
  destruct (messageBuffers s !! r) as [b|] eqn:Hb; [|done].
  assert (store_ok (mkStore (rooms s)
            (<[r := push_message b (mkMessage n text now)]> (messageBuffers s))
            (typing_cleared r n s))) as Hok2.
  { split; cbn; try apply Hok1.
    - intros r' Hr'. destruct (ok_buffers _ Hok1 r' Hr') as [H1 H2]. cbn in *.
      split; [by apply insert_is_Some|done].
    - intros r' b'. destruct (decide (r' = r)) as [->|Hd].
      + rewrite lookup_insert_eq. intros [= <-].
        apply push_message_bound, (ok_bound s Hok r b Hb).
      + rewrite lookup_insert_ne by done. apply Hok. }
  cbn [from_option id]. by destruct (rooms s !! r).
Qed.

Lemma on_message_ok rs now w r n data s :
  store_ok s -> store_ok (store_of (on_message rs now w r n data s)).
Proof.
  intros Hok. unfold on_message. rewrite store_of_try_catch, on_message_body_run.
  destruct (bool_decide (trim data = [])); [done|]. cbv zeta.
  destruct (Get _ (js "type")) as [ty|]; [|done].
  destruct (is_string ty (js "typing")).
  - destruct (Get _ (js "isTyping")); [|done]. by apply broadcastTypingStatus_ok.
  - destruct (is_string ty (js "message")); [|done]. by apply on_chat_ok.
Qed.

Lemma on_close_ok rs now w r n s :
  store_ok s -> store_ok (store_of (on_close rs now w r n s)).
Proof.
  intros Hok. rewrite on_close_run.
  destruct (rooms s !! r) as [cl|] eqn:Hroom; [|done]. cbv zeta.
  destruct (0 <? length (remaining w cl))%nat eqn:Hlen; cbn [store_of fst snd].
  - assert (store_ok (mkStore (<[r := remaining w cl]> (rooms s)) (messageBuffers s)
                              (typingUsers s))) as Hok1.
    { apply store_ok_set_room; eauto.
      - apply NoDup_map_filter, (ok_nodup s Hok r cl Hroom).
      - apply Forall_filter', (ok_names s Hok r cl Hroom).
      - apply Nat.ltb_lt in Hlen. destruct (remaining w cl); cbn in *; [lia|done]. }
    apply (store_ok_set_typing _ (typing_cleared r n s)) in Hok1; [done|].
    intros r'. cbn. apply typing_cleared_is_Some.
  - by apply store_ok_delete_room.
Qed.

Lemma sweep_room_ok rs r s :
  store_ok s -> store_ok (store_of (sweep_room rs r s)).
Proof.
  intros Hok. rewrite sweep_room_run.
  destruct (rooms s !! r) as [cl|] eqn:Hroom; [|done]. cbv zeta.
  destruct (length (List.filter (client_open rs) cl) =? length cl)%nat; [done|].
  destruct (length (List.filter (client_open rs) cl) =? 0)%nat eqn:Hlen;
    cbn [store_of fst snd].
  - by apply store_ok_delete_room.
  - assert (store_ok (mkStore (<[r := List.filter (client_open rs) cl]> (rooms s))
                              (messageBuffers s) (typingUsers s))) as Hok1.
    { apply store_ok_set_room; eauto.
      - apply NoDup_map_filter, (ok_nodup s Hok r cl Hroom).
      - apply Forall_filter', (ok_names s Hok r cl Hroom).
      - apply Nat.eqb_neq in Hlen. by destruct (List.filter (client_open rs) cl). }
    apply (store_ok_set_typing _ (typing_pruned r (List.filter (client_open rs) cl) s))
      in Hok1; [done|].
    intros r'. unfold typing_pruned. cbn.
    destruct (typingUsers s !! r) eqn:E; [|done]. apply insert_is_Some.
Qed.

Lemma forEach_ok {A} (f : A -> M unit) (l : list A) s :
  (forall x s', store_ok s' -> store_ok (store_of (f x s'))) ->
  store_ok s -> store_ok (store_of (forEach l f s)).
Proof.
  intros Hf. revert s. induction l as [|x l IH]; intros s Hok; [done|].
  cbn [forEach]. unfold mbind, M_bind.
  pose proof (Hf x s Hok) as Hx.
  destruct (f x s) as [[[[]|] s1] t1]; cbn in Hx; [|done].
  pose proof (IH s1 Hx) as Hl.
  destruct (forEach l f s1) as [[c s2] t2]. done.
Qed.

Lemma sweep_ok rs s : store_ok s -> store_ok (store_of (sweep rs s)).
Proof.
  intros Hok. unfold sweep. munfold. cbn.
  pose proof (forEach_ok (sweep_room rs) (map_to_list (rooms s)).*1 s
                (sweep_room_ok rs) Hok) as H.
  destruct (forEach _ _ s) as [[c s2] t2]. done.
Qed.

Lemma handle_ok i s : store_ok s -> store_ok (store_of (handle i s)).
Proof.
  intros Hok. unfold handle. destruct (in_event i).
  - by apply on_connection_ok.
  - by apply on_message_ok.
  - by apply on_close_ok.
  - by apply sweep_ok.
Qed.

Lemma run_ok inputs s : store_ok s -> store_ok (run inputs s).
Proof.
  revert s. induction inputs as [|i l IH]; intros s Hok; [done|].
  cbn. apply IH. by apply handle_ok.
Qed.

Lemma reachable_ok s : reachable s -> store_ok s.
Proof. intros [inputs <-]. apply run_ok, empty_store_ok. Qed.

(** ** The message handler by class of payload *)

Lemma on_message_classify rs now w r n data s :
  on_message rs now w r n data s =
  match classify data with
  | Ignored => (Normal tt, s, [])
  | Fault => (Normal tt, s, [send w (error (js "Error processing message"))])
  | TypingControl b => broadcastTypingStatus rs r n b s
  | TooLong =>
      (Normal tt, s, [send w (error (js "Message too long (max 500 characters)"))])
  | Chat text =>
      let m := mkMessage n text now in
      match messageBuffers s !! r, rooms s !! r with
      | Some b, Some cl =>
          (Normal tt,
           mkStore (rooms s) (<[r := push_message b m]> (messageBuffers s))
                   (typing_cleared r n s),
           typing_notice rs r n s ++ send_open rs cl (message m))
      | Some b, None =>
          (Normal tt,
           mkStore (rooms s) (<[r := push_message b m]> (messageBuffers s))
                   (typing_cleared r n s),
           typing_notice rs r n s ++ [send w (error (js "Error processing message"))])
      | None, _ =>
          (Normal tt,
           mkStore (rooms s) (messageBuffers s) (typing_cleared r n s),
           typing_notice rs r n s ++ [send w (error (js "Error processing message"))])
      end
  end.
Proof.
  unfold on_message, try_catch, classify. rewrite on_message_body_run.
  destruct (bool_decide (trim data = [])); [reflexivity|]. cbv zeta.
  destruct (Get (Some (parse_payload (trim data))) (js "type")) as [ty|]; [|reflexivity].
  destruct (is_string ty (js "typing")).
  { destruct (Get (Some (parse_payload (trim data))) (js "isTyping")) as [v|];
      [|reflexivity].
    by rewrite broadcastTypingStatus_run. }
  destruct (is_string ty (js "message")); [|reflexivity].
  rewrite on_chat_run.
  destruct (Get (Some (parse_payload (trim data))) (js "text")) as [text|]; [|reflexivity].
  destruct (Get text (js "length")) as [len|]; [|reflexivity].
  destruct (gt_500 len) as [[|]|]; [reflexivity| |reflexivity].
  cbv zeta. destruct (template text) as [[]|]; [|reflexivity].
  destruct (messageBuffers s !! r) as [b|]; [|reflexivity].
  destruct (rooms s !! r) as [cl|]; reflexivity.
Qed.

(** ** History *)

Lemma push_message_fifo b m :
  (length b <= MAX_MESSAGES)%nat ->
  push_message b m
  = if (length b =? MAX_MESSAGES)%nat then tail b ++ [m] else b ++ [m].
Proof.
  unfold push_message, MAX_MESSAGES. intros Hb. rewrite length_app. cbn [length].
  destruct (length b =? 50)%nat eqn:E.
  - apply Nat.eqb_eq in E.
    replace (50 <? length b + 1)%nat with true by (symmetry; apply Nat.ltb_lt; lia).
    destruct b; [done|reflexivity].
  - apply Nat.eqb_neq in E.
    replace (50 <? length b + 1)%nat with false by (symmetry; apply Nat.ltb_ge; lia).
    reflexivity.
Qed.

(** C3. In every store the server can reach, the history of a room holds at
    most [MAX_MESSAGES = 50] messages, and an accepted chat message is
    appended at the back: when the buffer is full the message at the front
    is dropped, so that the former second message is first and the order of
    the others is kept; the new buffer again holds at most 50 messages. *)
Theorem history_bounded_fifo rs now w r n data text s b :
  reachable s ->
  messageBuffers s !! r = Some b ->
  classify data = Chat text ->
  let m := mkMessage n text now in
  let b' := if (length b =? MAX_MESSAGES)%nat then tail b ++ [m] else b ++ [m] in
  (length b <= MAX_MESSAGES)%nat
  /\ messageBuffers (store_of (on_message rs now w r n data s)) !! r = Some b'
  /\ (length b' <= MAX_MESSAGES)%nat.
Proof.
  intros Hreach Hb Hclass m b'.
  pose proof (ok_bound s (reachable_ok s Hreach) r b Hb) as Hlen.
  assert (push_message b m = b') as Hpush by (by apply push_message_fifo).
  split; [done|]. split.
  - rewrite on_message_classify, Hclass, Hb. cbv zeta. fold m. rewrite Hpush.
    destruct (rooms s !! r); cbn; by rewrite lookup_insert_eq.
  - rewrite <- Hpush. by apply push_message_bound.
Qed.

Lemma history_bounded_fifo_witness :
  messageBuffers
    (store_of (on_message all_open 99 1 lobby alice (js "  bye ") full_lobby)) !! lobby
  = Some (List.repeat hi 49 ++ [mkMessage alice (Some (JString (js "bye"))) 99]).
Proof.
  refine (proj1 (proj2 (history_bounded_fifo all_open 99 1%nat lobby alice
            (js "  bye ") (Some (JString (js "bye"))) full_lobby (List.repeat hi 50)
            _ _ _))).
  - exists fifty_inputs. vm_compute. reflexivity.
  - vm_compute. reflexivity.
  - vm_compute. reflexivity.
Defined.

(** ** Joining *)

Lemma NoDup_map_eq {A B} (f : A -> B) (l : list A) x y :
  NoDup (List.map f l) -> x ∈ l -> y ∈ l -> f x = f y -> x = y.
Proof.
  induction l as [|a l IH]; cbn; intros Hnd Hx Hy Hf; [by inversion Hx|].
  apply NoDup_cons in Hnd as [Ha Hl].
  apply elem_of_cons in Hx as [->|Hx]; apply elem_of_cons in Hy as [->|Hy]; try done.
  - exfalso. apply Ha. rewrite Hf. apply list_elem_of_In, in_map, list_elem_of_In, Hy.
  - exfalso. apply Ha. rewrite <- Hf. apply list_elem_of_In, in_map, list_elem_of_In, Hx.
  - by apply IH.
Qed.

Lemma filter_all {A} (p : A -> bool) (l : list A) :
  (forall x, x ∈ l -> p x = true) -> List.filter p l = l.
Proof.
  induction l as [|a l IH]; cbn; intros H; [done|].
  rewrite (H a) by apply list_elem_of_here.
  f_equal. apply IH. intros x Hx. apply H. by apply list_elem_of_further.
Qed.

(** Where the holder of a name is open, nothing of the room is stale under
    that name. *)
Lemma kept_all rs n cl c :
  NoDup (List.map nick cl) -> c ∈ cl -> nick c = n -> client_open rs c = true ->
  kept rs n cl = cl.
Proof.
  intros Hnd Hc Hn Ho. apply filter_all. intros x Hx.
  destruct (bool_decide (nick x = n)) eqn:E; [|done].
  apply bool_decide_eq_true in E.
  assert (x = c) as -> by (apply (NoDup_map_eq nick cl); congruence).
  by rewrite Ho.
Qed.

(** C4. In a store the server can reach, a join under a name that an open
    connection of the room already holds is answered by the error message
    and closed with code 1008; the registries are left exactly as they
    were, so the socket is not registered and the holder is untouched; and
    whatever happens afterwards, no name occurs twice in a room's list. *)
Theorem duplicate_nick_rejected rs now joined w r n s cl c :
  reachable s ->
  rooms s !! r = Some cl ->
  c ∈ cl -> nick c = n -> readyState_open rs c ->
  on_connection rs now joined w (Some r) (Some n) s
  = (Normal tt, s,
     [send w (error (js "Nickname already taken in this room"));
      close w 1008 (js "Nickname already taken")])
  /\ forall inputs r' cl',
       rooms (run inputs s) !! r' = Some cl' -> NoDup (List.map nick cl').
Proof.
  intros Hreach Hroom Hc Hn Ho.
  pose proof (reachable_ok s Hreach) as Hok.
  split.
  - destruct (ok_names s Hok r cl Hroom) as [Hr Hnames].
    assert (n <> []) as Hn'.
    { rewrite List.Forall_forall in Hnames. rewrite <- Hn.
      by apply Hnames, list_elem_of_In. }
    rewrite on_connection_run by (done || by rewrite Hroom). cbv zeta.
    unfold init_room. rewrite Hroom. cbn [from_option id].
    rewrite (kept_all rs n cl c (ok_nodup s Hok r cl Hroom) Hc Hn Ho).
    destruct (holder rs n cl) as [c'|] eqn:Hh.
    + by rewrite (insert_id _ _ _ Hroom), store_eta.
    + pose proof (holder_None rs n cl c Hh Hc Hn) as Hclosed.
      unfold readyState_open in Ho. congruence.
  - intros inputs r' cl'. apply (ok_nodup _ (run_ok inputs s Hok)).
Qed.

Lemma duplicate_nick_rejected_witness :
  on_connection all_open 9 8 3 (Some lobby) (Some alice) alice_and_bob
  = (Normal tt, alice_and_bob,
     [send 3 (error (js "Nickname already taken in this room"));
      close 3 1008 (js "Nickname already taken")]).
Proof.
  refine (proj1 (duplicate_nick_rejected all_open 9 8 3%nat lobby alice alice_and_bob
            [mkClient 1 alice lobby 5; mkClient 2 bob lobby 6]
            (mkClient 1 alice lobby 5) _ _ _ _ _)).
  - exists [joins 1 alice 5; joins 2 bob 6]. vm_compute. reflexivity.
  - vm_compute. reflexivity.
  - apply list_elem_of_here.
  - reflexivity.
  - vm_compute. reflexivity.
Defined.

Lemma holder_none_intro rs n cl :
  (forall c, c ∈ cl -> nick c = n -> client_open rs c = false) ->
  holder rs n cl = None.
Proof.
  intros H. unfold holder. destruct (List.find _ cl) as [c|] eqn:E; [|done].
  apply find_some in E as [Hin Hc]. apply andb_true_iff in Hc as [Hn Ho].
  apply bool_decide_eq_true in Hn. apply list_elem_of_In in Hin.
  rewrite (H c Hin Hn) in Ho. done.
Qed.

(** Where every holder of the name is stale, cleaning up drops exactly the
    clients of that name. *)
Lemma kept_stale rs n cl :
  (forall c, c ∈ cl -> nick c = n -> client_open rs c = false) ->
  kept rs n cl = List.filter (fun c => negb (bool_decide (nick c = n))) cl.
Proof.
  intros H. unfold kept. apply filter_ext_in. intros c Hin.
  apply list_elem_of_In in Hin.
  destruct (bool_decide (nick c = n)) eqn:E; [|done].
  apply bool_decide_eq_true in E. by rewrite (H c Hin E).
Qed.

Lemma existsb_close_send_open rs cl m : existsb is_close (send_open rs cl m) = false.
Proof.
  unfold send_open. induction (List.filter (client_open rs) cl); [done|]. cbn. done.
Qed.

Lemma join_trace_no_close rs now w n cl h t :
  existsb is_close (join_trace rs now w n cl h t) = false.
Proof.
  unfold join_trace. rewrite !existsb_app, !existsb_close_send_open. reflexivity.
Qed.

Lemma join_trace_last rs now w n cl h t :
  last (join_trace rs now w n cl h t)
  = Some (send w (connected (js "Successfully connected to the room"))).
Proof.
  unfold join_trace. rewrite !app_assoc. apply last_snoc.
Qed.

(** C5 (where the code departs from it). The room [constructor] has no
    client, so no client of it holds the name [alice], yet the join of
    [alice] to it does not succeed: the room identifier names a property
    that [rooms] inherits from [Object.prototype], the room is not
    initialised, and the clean-up throws out of the handler.  Nothing is
    registered and nothing is sent. *)
Theorem join_to_constructor_room_throws :
  rooms empty_store !! js "constructor" = None
  /\ on_connection all_open 5 5 1 (Some (js "constructor")) (Some alice) empty_store
     = (Throw, empty_store, []).
Proof. split; vm_compute; reflexivity. Qed.

(** X18. For a room that is registered, or whose identifier is not a name
    inherited from [Object.prototype]: a join under a name whose holders in
    the room all have a connection that is not open succeeds: the handler
    completes, the stale entries of that name are gone from the room's list
    and the new client is appended to it, no socket is closed, and the last
    thing sent is the acknowledgment to the joiner. *)
Theorem stale_nick_reusable rs now joined w r n s :
  r <> [] -> n <> [] ->
  (rooms s !! r = None -> inherited r = false) ->
  (forall cl c, rooms s !! r = Some cl -> c ∈ cl -> nick c = n ->
                client_open rs c = false) ->
  let old := default [] (rooms s !! r) in
  let others := List.filter (fun c => negb (bool_decide (nick c = n))) old in
  let out := on_connection rs now joined w (Some r) (Some n) s in
  result_of out = Normal tt
  /\ rooms (store_of out) !! r = Some (others ++ [mkClient w n r joined])
  /\ existsb is_close (trace_of out) = false
  /\ last (trace_of out)
     = Some (send w (connected (js "Successfully connected to the room"))).
Proof.
  intros Hr Hn Hown Hstale old others out. subst out.
  rewrite on_connection_run by done. cbv zeta. fold old.
  assert (forall c, c ∈ old -> nick c = n -> client_open rs c = false) as Hold.
  { subst old. destruct (rooms s !! r) as [cl|] eqn:Hroom; cbn.
    - intros c. by apply Hstale.
    - intros c Hc. by inversion Hc. }
  rewrite (kept_stale rs n old Hold). fold others.
  rewrite holder_none_intro.
  - cbn [result_of store_of trace_of fst snd rooms].
    rewrite lookup_insert_eq, join_trace_no_close, join_trace_last. done.
  - intros c Hc Hnc. subst others.
    apply list_elem_of_In, filter_In in Hc as [_ Hc].
    rewrite (bool_decide_eq_true_2 _ Hnc) in Hc. done.
Qed.

Lemma stale_nick_reusable_witness :
  rooms (store_of (on_connection first_gone 9 8 3 (Some lobby) (Some alice) alice_and_bob))
    !! lobby
  = Some [mkClient 2 bob lobby 6; mkClient 3 alice lobby 8].
Proof.
  refine (proj1 (proj2 (stale_nick_reusable first_gone 9 8 3%nat lobby alice
                          alice_and_bob _ _ _ _))).
  - vm_compute. discriminate.
  - vm_compute. discriminate.
  - intros _. vm_compute. reflexivity.
  - intros cl c Hroom Hc Hn.
    assert (rooms alice_and_bob !! lobby
            = Some [mkClient 1 alice lobby 5; mkClient 2 bob lobby 6]) as E
      by (vm_compute; reflexivity).
    rewrite E in Hroom. injection Hroom as <-.
    apply elem_of_cons in Hc as [->|Hc]; [reflexivity|].
    apply elem_of_cons in Hc as [->|Hc]; [vm_compute in Hn; discriminate|].
    by inversion Hc.
Defined.

(** ** The order of the join-time messages *)

Lemma sent_to_app w t1 t2 : sent_to w (t1 ++ t2) = sent_to w t1 ++ sent_to w t2.
Proof.
  induction t1 as [|[to m|to c rsn] t1 IH]; cbn; [done| |done].
  destruct (bool_decide (to = w)); cbn; by rewrite IH.
Qed.

(** A broadcast reaches a socket that is on the list once, if it is open. *)
Lemma sent_to_send_open_others rs w cl m :
  (forall c, c ∈ cl -> ws c <> w) -> sent_to w (send_open rs cl m) = [].
Proof.
  unfold send_open. induction cl as [|c cl IH]; cbn; intros H; [done|].
  assert (sent_to w (List.map (fun client => send (ws client) m)
                       (List.filter (client_open rs) cl)) = []) as IH'.
  { apply IH. intros x Hx. apply H. by apply list_elem_of_further. }
  destruct (client_open rs c); cbn; [|done].
  rewrite bool_decide_eq_false_2; [done|]. apply H, list_elem_of_here.
Qed.

Lemma sent_to_send_open_joined rs w cl c m :
  (forall x, x ∈ cl -> ws x <> w) -> ws c = w ->
  sent_to w (send_open rs (cl ++ [c]) m) = if client_open rs c then [m] else [].
Proof.
  intros Hcl Hc.
  pose proof (sent_to_send_open_others rs w cl m Hcl) as H0.
  unfold send_open in *. rewrite List.filter_app, List.map_app, sent_to_app, H0.
  cbn. destruct (client_open rs c); cbn; [|done].
  by rewrite bool_decide_eq_true_2.
Qed.

Lemma init_room_shown r s :
  default [] (messageBuffers (init_room r s) !! r) = history_shown s r
  /\ default [] (typingUsers (init_room r s) !! r) = typing_shown s r.
Proof.
  unfold init_room, history_shown, typing_shown.
  destruct (rooms s !! r); [done|]. cbn. by rewrite !lookup_insert_eq.
Qed.

(** C6 (as the code has it). A join succeeds when room and name are given,
    the room is registered or its identifier is not a name inherited from
    [Object.prototype] (for an inherited one the handler throws), and no
    open connection of the room holds the name.  The joining socket is then
    sent, in this order: the history, the user list, the typing snapshot,
    the join notice and, last, the [connected] acknowledgment; the user
    list and the join notice are broadcasts, which reach the joiner only if
    its socket is open. *)
Theorem join_messages_order rs now joined w r n s :
  r <> [] -> n <> [] ->
  (rooms s !! r = None -> inherited r = false) ->
  holder rs n (kept rs n (default [] (rooms s !! r))) = None ->
  (forall cl c, rooms s !! r = Some cl -> c ∈ cl -> ws c <> w) ->
  let out := on_connection rs now joined w (Some r) (Some n) s in
  let users := List.map nick (kept rs n (default [] (rooms s !! r))) ++ [n] in
  sent_to w (trace_of out)
  = [history (history_shown s r)]
    ++ (if is_open (rs w) then [userList users] else [])
    ++ [typing (typing_shown s r)]
    ++ (if is_open (rs w) then [system (n ++ js " joined the room") now] else [])
    ++ [connected (js "Successfully connected to the room")]
  /\ (is_open (rs w) = true ->
      List.map kind (sent_to w (trace_of out)) = join_order).
Proof.
  intros Hr Hn Hown Hh Hfresh out users. subst out users.
  rewrite on_connection_run by done. cbv zeta. rewrite Hh.
  cbn [trace_of snd]. unfold join_trace.
  set (cl1 := kept rs n (default [] (rooms s !! r))) in *.
  assert (forall x, x ∈ cl1 -> ws x <> w) as Hcl1.
  { subst cl1. intros x Hx. apply elem_of_kept in Hx as [Hx _].
    destruct (rooms s !! r) as [cl|] eqn:Hroom; cbn in Hx.
    - by apply (Hfresh cl).
    - by inversion Hx. }
  destruct (init_room_shown r s) as [-> ->].
  rewrite !sent_to_app.
  rewrite !(sent_to_send_open_joined rs w cl1 _ _ Hcl1) by done.
  unfold client_open. cbn [ws sent_to]. rewrite !bool_decide_eq_true_2 by done.
  rewrite List.map_app. cbn [List.map nick].
  split; [done|]. intros ->. reflexivity.
Qed.

Lemma join_messages_order_witness :
  List.map kind
    (sent_to 2 (trace_of (on_connection all_open 7 6 2 (Some lobby) (Some bob) alice_alone)))
  = join_order.
Proof.
  refine (proj2 (join_messages_order all_open 7 6 2%nat lobby bob alice_alone
                   _ _ _ _ _) _).
  - vm_compute. discriminate.
  - vm_compute. discriminate.
  - intros _. vm_compute. reflexivity.
  - vm_compute. reflexivity.
  - intros cl c Hroom Hc.
    assert (rooms alice_alone !! lobby = Some [mkClient 1 alice lobby 5]) as E
      by (vm_compute; reflexivity).
    rewrite E in Hroom. injection Hroom as <-.
    apply list_elem_of_singleton in Hc as ->. cbn. lia.
  - reflexivity.
Defined.

(** C6 (as stated) fails: the first message a joiner receives is the history,
    and the [connected] acknowledgment comes last, not first. *)
Lemma connected_is_not_first :
  List.map kind
    (sent_to 1 (trace_of (on_connection all_open 5 5 1 (Some lobby) (Some alice)
                            empty_store)))
  = [Khistory; KuserList; Ktyping; Ksystem; Kconnected]
  /\ List.map kind
       (sent_to 1 (trace_of (on_connection all_open 5 5 1 (Some lobby) (Some alice)
                               empty_store)))
     <> spec_join_order.
Proof. split; [vm_compute; reflexivity | vm_compute; discriminate]. Qed.

(** ** Empty rooms *)

Lemma store_of_bind {A B} (m : M A) (f : A -> M B) s :
  store_of ((m ≫= f) s)
  = match m s with
    | (Normal a, s1, _) => store_of (f a s1)
    | (Throw, s1, _) => s1
    end.
Proof.
  unfold mbind, M_bind. destruct (m s) as [[[a|] s1] t1]; [|done].
  by destruct (f a s1) as [[c s2] t2].
Qed.

Lemma same_room_refl s r : same_room s s r.
Proof. done. Qed.

Lemma same_room_trans s1 s2 s3 r :
  same_room s1 s2 r -> same_room s2 s3 r -> same_room s1 s3 r.
Proof. intros (?&?&?) (?&?&?). repeat split; congruence. Qed.

(** Sweeping one room leaves every other room as it was. *)
Lemma sweep_room_frame rs r' r s :
  r' <> r -> same_room s (store_of (sweep_room rs r' s)) r.
Proof.
  intros Hne. rewrite sweep_room_run.
  destruct (rooms s !! r') as [cl|]; [|done]. cbv zeta.
  destruct (_ =? length cl)%nat; [done|].
  destruct (_ =? 0)%nat; cbn [store_of fst snd]; unfold same_room; cbn.
  - by rewrite !lookup_delete_ne.
  - rewrite lookup_insert_ne by done. unfold typing_pruned.
    destruct (typingUsers s !! r'); [|done]. by rewrite lookup_insert_ne.
Qed.

Lemma sweep_room_normal rs r s :
  is_Some (rooms s !! r) -> result_of (sweep_room rs r s) = Normal tt.
Proof.
  intros [cl Hcl]. rewrite sweep_room_run, Hcl. cbv zeta.
  destruct (_ =? length cl)%nat; [done|]. by destruct (_ =? 0)%nat.
Qed.

(** A room whose clients are all gone is dropped by its sweep. *)
Lemma sweep_room_dead rs r s cl :
  rooms s !! r = Some cl -> cl <> [] -> List.filter (client_open rs) cl = [] ->
  room_gone (store_of (sweep_room rs r s)) r.
Proof.
  intros Hcl Hne Hdead. rewrite sweep_room_run, Hcl. cbv zeta. rewrite Hdead.
  destruct cl as [|c cl]; [done|]. cbn.
  unfold room_gone. cbn. by rewrite !lookup_delete_eq.
Qed.

Lemma forEach_sweep_frame rs ks r s :
  r ∉ ks -> same_room s (store_of (forEach ks (sweep_room rs) s)) r.
Proof.
  revert s. induction ks as [|k ks IH]; intros s Hr; [done|].
  apply not_elem_of_cons in Hr as [Hk Hks].
  cbn [forEach]. rewrite store_of_bind.
  pose proof (sweep_room_frame rs k r s (not_eq_sym Hk)) as Hstep.
  destruct (sweep_room rs k s) as [[[[]|] s1] t1]; cbn in Hstep; [|done].
  eapply same_room_trans; [exact Hstep|]. by apply IH.
Qed.

Lemma forEach_sweep_dead rs ks r s cl :
  NoDup ks -> (forall k, k ∈ ks -> is_Some (rooms s !! k)) -> r ∈ ks ->
  rooms s !! r = Some cl -> cl <> [] -> List.filter (client_open rs) cl = [] ->
  room_gone (store_of (forEach ks (sweep_room rs) s)) r.
Proof.
  revert s. induction ks as [|k ks IH]; intros s Hnd Hks Hr Hcl Hne Hdead.
  { by inversion Hr. }
  apply NoDup_cons in Hnd as [Hk Hnd].
  cbn [forEach]. rewrite store_of_bind.
  pose proof (sweep_room_normal rs k s (Hks k (list_elem_of_here _ _))) as Hnormal.
  destruct (decide (k = r)) as [->|Hkr].
  - pose proof (sweep_room_dead rs r s cl Hcl Hne Hdead) as Hgone.
    destruct (sweep_room rs r s) as [[[[]|] s1] t1]; cbn in Hgone, Hnormal; [|done].
    destruct (forEach_sweep_frame rs ks r s1 Hk) as (H1 & H2 & H3).
    destruct Hgone as (G1 & G2 & G3). unfold room_gone. by rewrite H1, H2, H3.
  - apply elem_of_cons in Hr as [->|Hr]; [done|].
    pose proof (sweep_room_frame rs k r s Hkr) as (F1 & _ & _).
    assert (forall k', k' ∈ ks ->
              is_Some (rooms (store_of (sweep_room rs k s)) !! k')) as Hks'.
    { intros k' Hk'. assert (k <> k') as Hne' by (intros ->; done).
      destruct (sweep_room_frame rs k k' s Hne') as (F & _ & _). rewrite F.
      by apply Hks, list_elem_of_further. }
    destruct (sweep_room rs k s) as [[[[]|] s1] t1]; cbn in *; [|done].
    apply (IH s1); try done. by rewrite F1.
Qed.

Lemma sweep_dead rs r s cl :
  rooms s !! r = Some cl -> cl <> [] -> List.filter (client_open rs) cl = [] ->
  room_gone (store_of (sweep rs s)) r.
Proof.
  intros Hcl Hne Hdead. unfold sweep. rewrite store_of_bind. cbn.
  apply (forEach_sweep_dead rs _ r s cl); try done.
  - apply NoDup_fst_map_to_list.
  - intros k Hk. apply list_elem_of_fmap in Hk as ([k' v] & -> & Hk).
    apply elem_of_map_to_list in Hk. cbn. eauto.
  - apply list_elem_of_fmap. exists (r, cl). split; [done|].
    by apply elem_of_map_to_list.
Qed.

Lemma forEach_preserves {A} (P : Store -> Prop) (f : A -> M unit) (l : list A) s :
  (forall x s', P s' -> P (store_of (f x s'))) ->
  P s -> P (store_of (forEach l f s)).
Proof.
  intros Hf. revert s. induction l as [|x l IH]; intros s Hok; [done|].
  cbn [forEach]. rewrite store_of_bind.
  pose proof (Hf x s Hok) as Hx.
  destruct (f x s) as [[[[]|] s1] t1]; cbn in Hx; [|done]. by apply IH.
Qed.

(** The identifiers of the registered rooms are own properties of [rooms]
    that no inherited name shadows: a join registers a room only under an
    identifier that is not inherited, and no other handler adds a room. *)
Lemma rooms_own_subset s s' :
  (forall r, is_Some (rooms s' !! r) -> is_Some (rooms s !! r)) ->
  rooms_own s -> rooms_own s'.
Proof. intros Hsub Hs r Hr. by apply Hs, Hsub. Qed.

Lemma on_connection_own rs now joined w room nick0 s :
  rooms_own s -> rooms_own (store_of (on_connection rs now joined w room nick0 s)).
Proof.
  intros Hs.
  destruct (missing room || missing nick0) eqn:Hm.
  { unfold on_connection. rewrite Hm. done. }
  apply orb_false_iff in Hm as [Hr Hn].
  apply missing_false in Hr as (r & -> & Hr). apply missing_false in Hn as (n & -> & Hn).
  assert (inherited r = false ->
          rooms_own (store_of (on_connection rs now joined w (Some r) (Some n) s))) as Hjoin.
  { intros Hin. rewrite on_connection_run by done. cbv zeta.
    assert (forall r', is_Some (rooms (init_room r s) !! r') -> inherited r' = false) as H0.
    { intros r'. unfold init_room. destruct (rooms s !! r) eqn:Hroom; [apply Hs|].
      cbn. destruct (decide (r' = r)) as [->|Hd]; [done|].
      rewrite lookup_insert_ne by done. apply Hs. }
    destruct (holder rs n _); cbn [store_of fst snd]; intros r'; cbn;
      (destruct (decide (r' = r)) as [->|Hd];
       [done|rewrite lookup_insert_ne by done; apply H0]). }
  destruct (rooms s !! r) as [cl|] eqn:Hroom.
  - apply Hjoin, Hs. rewrite Hroom. eauto.
  - destruct (inherited r) eqn:Hin; [|by apply Hjoin].
    by rewrite on_connection_inherited.
Qed.

Lemma on_message_rooms rs now w r n data s :
  rooms (store_of (on_message rs now w r n data s)) = rooms s.
Proof.
  rewrite on_message_classify.
  destruct (classify data) as [| |b| |text]; try done.
  - by rewrite broadcastTypingStatus_run.
  - cbv zeta. destruct (messageBuffers s !! r); [|done]. by destruct (rooms s !! r).
Qed.

Lemma on_close_own rs now w r n s :
  rooms_own s -> rooms_own (store_of (on_close rs now w r n s)).
Proof.
  apply rooms_own_subset. intros r'. rewrite on_close_run.
  destruct (rooms s !! r) as [cl|] eqn:Hroom; [|done]. cbv zeta.
  destruct (0 <? length (remaining w cl))%nat; cbn [store_of fst snd rooms].
  - destruct (decide (r' = r)) as [->|Hd]; [by rewrite Hroom; eauto|].
    by rewrite lookup_insert_ne.
  - destruct (decide (r' = r)) as [->|Hd]; [by rewrite Hroom; eauto|].
    by rewrite lookup_delete_ne.
Qed.

Lemma sweep_room_own rs r s :
  rooms_own s -> rooms_own (store_of (sweep_room rs r s)).
Proof.
  apply rooms_own_subset. intros r'. rewrite sweep_room_run.
  destruct (rooms s !! r) as [cl|] eqn:Hroom; [|done]. cbv zeta.
  destruct (_ =? length cl)%nat; [done|].
  destruct (_ =? 0)%nat; cbn [store_of fst snd rooms].
  - destruct (decide (r' = r)) as [->|Hd]; [by rewrite Hroom; eauto|].
    by rewrite lookup_delete_ne.
  - destruct (decide (r' = r)) as [->|Hd]; [by rewrite Hroom; eauto|].
    by rewrite lookup_insert_ne.
Qed.

Lemma handle_own i s : rooms_own s -> rooms_own (store_of (handle i s)).
Proof.
  intros Hs. unfold handle. destruct (in_event i).
  - by apply on_connection_own.
  - unfold rooms_own. by rewrite on_message_rooms.
  - by apply on_close_own.
  - unfold sweep. rewrite store_of_bind. cbn.
    apply forEach_preserves; [|done]. intros x s'. apply sweep_room_own.
Qed.

Lemma registered_own s r : reachable s -> is_Some (rooms s !! r) -> inherited r = false.
Proof.
  intros [inputs <-].
  assert (rooms_own empty_store) as H0.
  { intros k. cbn. rewrite lookup_empty. by intros [? ?]. }
  revert H0. generalize empty_store.
  induction inputs as [|i l IH]; intros s Hs; [apply Hs|].
  cbn. apply IH. by apply handle_own.
Qed.

(** C8. A room is dropped with its history and its typing set as soon as its
    client list is empty: by the [close] handler when the socket that
    closes was the last one on the list, and by the sweep when none of the
    listed sockets is open any more.  A later join under the identifier of
    a room that was registered at some point of a run, and is not in the
    registries any more, creates the room afresh: the joiner is sent an
    empty history and an empty typing list, and the new room holds the
    joiner alone, with the earlier clock reading as [joinedAt] and the later
    one in the join notice. *)
Theorem empty_room_destroyed :
  (forall rs now w r n s cl,
     rooms s !! r = Some cl -> remaining w cl = [] ->
     room_gone (store_of (on_close rs now w r n s)) r)
  /\ (forall rs r s cl,
        rooms s !! r = Some cl -> cl <> [] -> List.filter (client_open rs) cl = [] ->
        room_gone (store_of (sweep rs s)) r)
  /\ (forall rs now joined w r n s0 s,
        reachable s0 -> is_Some (rooms s0 !! r) ->
        n <> [] -> rooms s !! r = None ->
        let me := mkClient w n r joined in
        on_connection rs now joined w (Some r) (Some n) s
        = (Normal tt,
           mkStore (<[r := [me]]> (rooms s)) (<[r := []]> (messageBuffers s))
                   (<[r := []]> (typingUsers s)),
           [send w (history [])]
           ++ send_open rs [me] (userList [n])
           ++ [send w (typing [])]
           ++ send_open rs [me] (system (n ++ js " joined the room") now)
           ++ [send w (connected (js "Successfully connected to the room"))])).
Proof.
  split; [|split].
  - intros rs now w r n s cl Hcl Hrem. rewrite on_close_run, Hcl. cbv zeta.
    rewrite Hrem. cbn. unfold room_gone. cbn. by rewrite !lookup_delete_eq.
  - apply sweep_dead.
  - intros rs now joined w r n s0 s Hreach [cl0 Hcl0] Hn Hroom me.
    destruct (ok_names s0 (reachable_ok s0 Hreach) r cl0 Hcl0) as [Hr _].
    pose proof (registered_own s0 r Hreach (ex_intro _ cl0 Hcl0)) as Hown.
    rewrite on_connection_run by done. cbv zeta.
    unfold init_room. rewrite Hroom.
    cbn [from_option id kept List.filter holder List.find app
         rooms messageBuffers typingUsers].
    rewrite !lookup_insert_eq, insert_insert_eq. reflexivity.
Qed.

Lemma empty_room_destroyed_witness :
  room_gone (store_of (on_close all_open 9 1 lobby alice alice_alone)) lobby
  /\ room_gone (store_of (sweep nobody_open alice_and_bob)) lobby
  /\ trace_of (on_connection all_open 9 8 3 (Some lobby) (Some bob)
                (store_of (on_close all_open 8 1 lobby alice full_lobby)))
     = [send 3 (history []); send 3 (userList [bob]); send 3 (typing []);
        send 3 (system (bob ++ js " joined the room") 9);
        send 3 (connected (js "Successfully connected to the room"))].
Proof.
  destruct empty_room_destroyed as (Hclose & Hsweep & Hjoin).
  split; [|split].
  - apply (Hclose all_open 9%Z 1%nat lobby alice alice_alone [mkClient 1 alice lobby 5]).
    + vm_compute. reflexivity.
    + vm_compute. reflexivity.
  - apply (Hsweep nobody_open lobby alice_and_bob
             [mkClient 1 alice lobby 5; mkClient 2 bob lobby 6]).
    + vm_compute. reflexivity.
    + discriminate.
    + vm_compute. reflexivity.
  - rewrite (Hjoin all_open 9%Z 8%Z 3%nat lobby bob full_lobby).
    + vm_compute. reflexivity.
    + exists fifty_inputs. vm_compute. reflexivity.
    + vm_compute. eauto.
    + vm_compute. discriminate.
    + vm_compute. reflexivity.
Defined.

(** ** Typing state *)

Lemma elem_of_Set_add m u l : m ∈ Set_add u l <-> m = u \/ m ∈ l.
Proof.
  unfold Set_add. destruct (bool_decide (u ∈ l)) eqn:E.
  - apply bool_decide_eq_true in E. split; [by right|]. by intros [->|?].
  - rewrite elem_of_app, list_elem_of_singleton. tauto.
Qed.

Lemma elem_of_Set_delete m u l : m ∈ Set_delete u l <-> m <> u /\ m ∈ l.
Proof.
  unfold Set_delete. rewrite !list_elem_of_In, filter_In.
  rewrite negb_true_iff, bool_decide_eq_false. tauto.
Qed.

Lemma classify_typing_control data v :
  typing_control data = Some v -> classify data = TypingControl (ToBoolean v).
Proof.
  unfold typing_control, classify.
  destruct (bool_decide (trim data = [])); [done|]. cbv zeta.
  destruct (Get (Some (parse_payload (trim data))) (js "type")) as [ty|]; [|done].
  destruct (is_string ty (js "typing")); [|done].
  destruct (Get (Some (parse_payload (trim data))) (js "isTyping")); [|done].
  by intros [= ->].
Qed.

(** C10. A typing indicator received on a connection registered as [n]
    changes the typing set of its room at [n] only: afterwards [n] is in
    the set exactly when the payload's [isTyping] is truthy, every other
    name is in it exactly if it was before, and the typing sets of the
    other rooms, the client lists and the histories are as they were. *)
Theorem typing_changes_own_name_only rs now w r n data isTyping s :
  typing_control data = Some isTyping ->
  let s' := store_of (on_message rs now w r n data s) in
  (n ∈ typing_of s' r <-> ToBoolean isTyping = true)
  /\ (forall m, m <> n -> (m ∈ typing_of s' r <-> m ∈ typing_of s r))
  /\ (forall r', r' <> r -> typingUsers s' !! r' = typingUsers s !! r')
  /\ rooms s' = rooms s
  /\ messageBuffers s' = messageBuffers s.
Proof.
  intros Hshape s'. subst s'.
  rewrite on_message_classify, (classify_typing_control data isTyping Hshape).
  rewrite broadcastTypingStatus_run. unfold typing_of. cbn [store_of fst snd typingUsers
    rooms messageBuffers]. rewrite lookup_insert_eq. cbn [from_option id].
  unfold typing_after. fold (typing_of s r).
  split; [|split; [|split; [|done]]].
  - destruct (ToBoolean isTyping).
    + rewrite elem_of_Set_add. split; [done|]. by left.
    + rewrite elem_of_Set_delete. split; [by intros [? _]|done].
  - intros m Hm. destruct (ToBoolean isTyping).
    + rewrite elem_of_Set_add. split; [by intros [?|?]|by right].
    + rewrite elem_of_Set_delete. tauto.
  - intros r' Hr'. by rewrite lookup_insert_ne.
Qed.

Lemma typing_changes_own_name_only_witness :
  alice ∈ typing_of (store_of (on_message all_open 7 1 lobby alice typing_on alice_and_bob))
            lobby
  <-> ToBoolean (Some (JBool true)) = true.
Proof.
  refine (proj1 (typing_changes_own_name_only all_open 7 1%nat lobby alice typing_on
                   (Some (JBool true)) alice_and_bob _)).
  vm_compute. reflexivity.
Defined.

Lemma typing_cleared_not_in r n s :
  n ∉ default [] (typing_cleared r n s !! r).
Proof.
  unfold typing_cleared. destruct (typingUsers s !! r) as [l|] eqn:E.
  - rewrite lookup_insert_eq. cbn. rewrite elem_of_Set_delete. tauto.
  - rewrite E. cbn. intros H. by inversion H.
Qed.

Lemma typing_notice_without rs r n s a :
  a ∈ typing_notice rs r n s -> exists to l, a = send to (typing l) /\ n ∉ l.
Proof.
  unfold typing_notice. destruct (typingUsers s !! r) as [l|]; [|intros H; by inversion H].
  destruct (rooms s !! r) as [cl|]; [|intros H; by inversion H].
  unfold send_open. intros Ha.
  apply list_elem_of_In, in_map_iff in Ha as (c & <- & _).
  exists (ws c), (Set_delete n l). split; [done|]. rewrite elem_of_Set_delete. tauto.
Qed.

(** C7. When a chat message of [n] is accepted in a room, [n] is taken out
    of the room's typing set first: what the handler sends is the typing
    broadcasts, whose lists do not contain [n], followed by the broadcast of
    the message; afterwards [n] is not in the typing set and the message is
    at the back of the history.  The [close] handler also leaves [n] out of
    the typing set of its room.  Hence a typing indicator followed by a chat
    message leaves the sender not typing, the last typing list sent lacks
    the sender, and the history gains the chat message only. *)
Theorem typing_cleared_on_chat_and_close :
  (forall rs now w r n data text s b cl,
     classify data = Chat text ->
     messageBuffers s !! r = Some b -> rooms s !! r = Some cl ->
     let out := on_message rs now w r n data s in
     let m := mkMessage n text now in
     trace_of out = typing_notice rs r n s ++ send_open rs cl (message m)
     /\ (forall a, a ∈ typing_notice rs r n s ->
                   exists to l, a = send to (typing l) /\ n ∉ l)
     /\ (n ∉ typing_of (store_of out) r)
     /\ messageBuffers (store_of out) !! r = Some (push_message b m))
  /\ (forall rs now w r n s,
        is_Some (rooms s !! r) ->
        n ∉ typing_of (store_of (on_close rs now w r n s)) r)
  /\ (forall rs now1 now2 w r n data1 data2 text s b cl,
        classify data1 = TypingControl true -> classify data2 = Chat text ->
        messageBuffers s !! r = Some b -> rooms s !! r = Some cl ->
        let s1 := store_of (on_message rs now1 w r n data1 s) in
        let out := on_message rs now2 w r n data2 s1 in
        let m := mkMessage n text now2 in
        n ∈ typing_of s1 r
        /\ messageBuffers s1 = messageBuffers s
        /\ trace_of out
           = send_open rs cl (typing (Set_delete n (typing_of s1 r)))
             ++ send_open rs cl (message m)
        /\ (n ∉ typing_of (store_of out) r)
        /\ messageBuffers (store_of out) !! r = Some (push_message b m)).
Proof.
  assert (forall rs now w r n data text s b cl,
     classify data = Chat text ->
     messageBuffers s !! r = Some b -> rooms s !! r = Some cl ->
     let out := on_message rs now w r n data s in
     let m := mkMessage n text now in
     trace_of out = typing_notice rs r n s ++ send_open rs cl (message m)
     /\ (forall a, a ∈ typing_notice rs r n s ->
                   exists to l, a = send to (typing l) /\ n ∉ l)
     /\ (n ∉ typing_of (store_of out) r)
     /\ messageBuffers (store_of out) !! r = Some (push_message b m)) as Hchat.
  { intros rs now w r n data text s b cl Hclass Hb Hcl out m. subst out m.
    rewrite on_message_classify, Hclass. cbv zeta. rewrite Hb, Hcl.
    cbn [trace_of store_of fst snd]. unfold typing_of. cbn [typingUsers messageBuffers].
    rewrite lookup_insert_eq.
    split; [done|]. split; [apply typing_notice_without|].
    split; [apply typing_cleared_not_in|done]. }
  split; [exact Hchat|]. split.
  - intros rs now w r n s [cl Hcl]. rewrite on_close_run, Hcl. cbv zeta.
    unfold typing_of.
    destruct (0 <? length (remaining w cl))%nat; cbn [store_of fst snd typingUsers].
    + apply typing_cleared_not_in.
    + rewrite lookup_delete_eq. cbn. intros H. by inversion H.
  - intros rs now1 now2 w r n data1 data2 text s b cl Hc1 Hc2 Hb Hcl s1 out m.
    assert (s1 = mkStore (rooms s) (messageBuffers s)
                   (<[r := typing_after r n true s]> (typingUsers s))) as Hs1.
    { subst s1. by rewrite on_message_classify, Hc1, broadcastTypingStatus_run. }
    assert (typing_of s1 r = typing_after r n true s) as Ht1.
    { rewrite Hs1. unfold typing_of. cbn. by rewrite lookup_insert_eq. }
    split; [|split].
    + rewrite Ht1. unfold typing_after. rewrite elem_of_Set_add. by left.
    + by rewrite Hs1.
    + assert (messageBuffers s1 !! r = Some b) as Hb1 by (by rewrite Hs1).
      assert (rooms s1 !! r = Some cl) as Hcl1 by (by rewrite Hs1).
      destruct (Hchat rs now2 w r n data2 text s1 b cl Hc2 Hb1 Hcl1)
        as (Htr & _ & Hn & Hm).
      split; [|done]. fold out in Htr. rewrite Htr. f_equal.
      unfold typing_notice. rewrite Hcl1.
      assert (typingUsers s1 !! r = Some (typing_of s1 r)) as ->; [|done].
      rewrite Ht1, Hs1. cbn. by rewrite lookup_insert_eq.
Qed.

Lemma typing_cleared_on_chat_and_close_witness :
  let s1 := store_of (on_message all_open 7 1 lobby alice typing_on alice_and_bob) in
  let out := on_message all_open 8 1 lobby alice (js "hello") s1 in
  typing_of s1 lobby = [alice]
  /\ typing_of (store_of out) lobby = []
  /\ messageBuffers (store_of out) !! lobby
     = Some [mkMessage alice (Some (JString (js "hello"))) 8]
  /\ (alice ∉ typing_of (store_of (on_close all_open 9 1 lobby alice s1)) lobby).
Proof.
  destruct typing_cleared_on_chat_and_close as (_ & Hclose & Hboth).
  destruct (Hboth all_open 7%Z 8%Z 1%nat lobby alice typing_on (js "hello")
              (Some (JString (js "hello"))) alice_and_bob []
              [mkClient 1 alice lobby 5; mkClient 2 bob lobby 6])
    as (_ & _ & _ & _ & Hhist).
  - vm_compute. reflexivity.
  - vm_compute. reflexivity.
  - vm_compute. reflexivity.
  - vm_compute. reflexivity.
  - intros s1 out. split; [vm_compute; reflexivity|].
    split; [vm_compute; reflexivity|]. split; [exact Hhist|].
    apply Hclose. vm_compute. eauto.
Defined.

(** ** Faults *)

(** In a room that has its buffer and its client list, the body of the
    handler throws only while it reads the payload. *)
Lemma body_throws_on_fault rs now w r n data s :
  is_Some (messageBuffers s !! r) -> is_Some (rooms s !! r) ->
  result_of (on_message_body rs now w r n data s) = Throw ->
  classify data = Fault.
Proof.
  intros [b Hb] [cl Hcl]. unfold classify. rewrite on_message_body_run.
  destruct (bool_decide (trim data = [])); [done|]. cbv zeta.
  destruct (Get (Some (parse_payload (trim data))) (js "type")) as [ty|]; [|done].
  destruct (is_string ty (js "typing")).
  { destruct (Get (Some (parse_payload (trim data))) (js "isTyping")); [|done].
    by rewrite broadcastTypingStatus_run. }
  destruct (is_string ty (js "message")); [|done].
  rewrite on_chat_run.
  destruct (Get (Some (parse_payload (trim data))) (js "text")) as [text|]; [|done].
  destruct (Get text (js "length")) as [len|]; [|done].
  destruct (gt_500 len) as [[|]|]; [done| |done].
  cbv zeta. destruct (template text) as [[]|]; [|done]. by rewrite Hb, Hcl.
Qed.

(** C9. In a store the server can reach, when the handling of a payload
    received for a room that is on the registries throws (while the payload
    is read, or when its text is converted to a string for the log), the
    exception is caught: the handler completes, the one thing it does is to send the
    error message [Error processing message] to the sender (no socket is
    closed), and the client lists, histories and typing sets are all as
    they were. *)
Theorem processing_fault_contained rs now w r n data s :
  reachable s ->
  is_Some (rooms s !! r) ->
  result_of (on_message_body rs now w r n data s) = Throw ->
  on_message rs now w r n data s
  = (Normal tt, s, [send w (error (js "Error processing message"))]).
Proof.
  intros Hreach Hroom Hthrow.
  destruct (ok_buffers s (reachable_ok s Hreach) r Hroom) as [Hb _].
  rewrite on_message_classify.
  by rewrite (body_throws_on_fault rs now w r n data s Hb Hroom Hthrow).
Qed.

Lemma processing_fault_contained_witness :
  on_message all_open 7 1 lobby alice json_chat_no_text alice_and_bob
  = (Normal tt, alice_and_bob, [send 1 (error (js "Error processing message"))])
  /\ on_message all_open 7 1 lobby alice json_chat_unprintable alice_and_bob
     = (Normal tt, alice_and_bob, [send 1 (error (js "Error processing message"))]).
Proof.
  split.
  - refine (processing_fault_contained all_open 7 1%nat lobby alice json_chat_no_text
              alice_and_bob _ _ _).
    + exists [joins 1 alice 5; joins 2 bob 6]. vm_compute. reflexivity.
    + vm_compute. eauto.
    + vm_compute. reflexivity.
  - refine (processing_fault_contained all_open 7 1%nat lobby alice json_chat_unprintable
              alice_and_bob _ _ _).
    + exists [joins 1 alice 5; joins 2 bob 6]. vm_compute. reflexivity.
    + vm_compute. eauto.
    + vm_compute. reflexivity.
Defined.

(** ** Payload shapes *)

Lemma number_gt_500_length k :
  number_gt_500 (Z.of_nat k) 0 = (500 <? k)%nat.
Proof.
  unfold number_gt_500. cbn [Z.leb Z.compare].
  change (10 ^ 0)%Z with 1%Z. change (2 ^ 45)%Z with 35184372088832%Z.
  destruct (Nat.ltb_spec 500 k); [apply Z.ltb_lt|apply Z.ltb_ge]; lia.
Qed.

(** A payload that is not JSON is wrapped as a chat message of its text. *)
Lemma classify_plain data :
  JSON_parse (trim data) = None ->
  classify data
  = if bool_decide (trim data = []) then Ignored
    else if (500 <? length (trim data))%nat then TooLong
    else Chat (Some (JString (trim data))).
Proof.
  intros Hparse. unfold classify, parse_payload. rewrite Hparse.
  destruct (bool_decide (trim data = [])); [done|]. cbv zeta.
  change (Get (Some (JObject [(js "type", JString (js "message"));
                              (js "text", JString (trim data))])) (js "type"))
    with (Normal (Some (JString (js "message")))).
  change (is_string (Some (JString (js "message"))) (js "typing")) with false.
  change (is_string (Some (JString (js "message"))) (js "message")) with true.
  change (Get (Some (JObject [(js "type", JString (js "message"));
                              (js "text", JString (trim data))])) (js "text"))
    with (Normal (Some (JString (trim data)))).
  cbv iota.
  change (Get (Some (JString (trim data))) (js "length"))
    with (Normal (Some (JNumber (Z.of_nat (length (trim data))) 0))).
  cbv iota. unfold gt_500, template. cbn [to_string_throws numeric_gt_500].
  rewrite number_gt_500_length. by destruct (500 <? length (trim data))%nat.
Qed.

Lemma typing_control_plain data :
  JSON_parse (trim data) = None -> typing_control data = None.
Proof.
  intros Hparse. unfold typing_control, parse_payload. rewrite Hparse.
  destruct (bool_decide (trim data = [])); [done|].
  change (Get (Some (JObject [(js "type", JString (js "message"));
                              (js "text", JString (trim data))])) (js "type"))
    with (Normal (Some (JString (js "message")))).
  reflexivity.
Qed.

(** A JSON object of type [message] with a string as its text. *)
Lemma classify_json_chat data ms t :
  JSON_parse (trim data) = Some (JObject ms) ->
  own ms (js "type") = Some (JString (js "message")) ->
  own ms (js "text") = Some (JString t) ->
  classify data = if (500 <? length t)%nat then TooLong else Chat (Some (JString t)).
Proof.
  intros Hparse Hty Htext. unfold classify, parse_payload. rewrite Hparse.
  destruct (bool_decide (trim data = [])) eqn:E.
  { apply bool_decide_eq_true in E. rewrite E in Hparse. discriminate Hparse. }
  cbv zeta. unfold Get at 1. rewrite Hty.
  change (is_string (Some (JString (js "message"))) (js "typing")) with false.
  change (is_string (Some (JString (js "message"))) (js "message")) with true.
  cbv iota. unfold Get at 1. rewrite Htext.
  change (Get (Some (JString t)) (js "length"))
    with (Normal (Some (JNumber (Z.of_nat (length t)) 0))).
  cbv iota. unfold gt_500, template. cbn [to_string_throws numeric_gt_500].
  rewrite number_gt_500_length. by destruct (500 <? length t)%nat.
Qed.

(** C2 (as the code has it). For a payload that is not JSON text, received
    for a room that has its buffer and client list: if the trimmed text is
    empty nothing happens; if it is longer than 500 the sender is sent the
    one error message and nothing else happens; otherwise (1 to 500
    characters) the message with the trimmed text is appended to the
    history and broadcast to the open connections of the room, after the
    sender has left the typing set. *)
Theorem plain_text_validation rs now w r n data s b cl :
  JSON_parse (trim data) = None ->
  messageBuffers s !! r = Some b -> rooms s !! r = Some cl ->
  on_message rs now w r n data s
  = if bool_decide (trim data = []) then (Normal tt, s, [])
    else if (500 <? length (trim data))%nat then
      (Normal tt, s, [send w (error (js "Message too long (max 500 characters)"))])
    else
      let m := mkMessage n (Some (JString (trim data))) now in
      (Normal tt,
       mkStore (rooms s) (<[r := push_message b m]> (messageBuffers s))
               (typing_cleared r n s),
       typing_notice rs r n s ++ send_open rs cl (message m)).
Proof.
  intros Hparse Hb Hcl. rewrite on_message_classify, (classify_plain data Hparse).
  destruct (bool_decide (trim data = [])); [done|].
  destruct (500 <? length (trim data))%nat; [done|].
  cbv zeta. by rewrite Hb, Hcl.
Qed.

Lemma plain_text_validation_witness :
  on_message all_open 7 1 lobby alice five_hundred_a alice_alone
  = (Normal tt,
     mkStore (rooms alice_alone)
       (<[lobby := [mkMessage alice (Some (JString five_hundred_a)) 7]]>
          (messageBuffers alice_alone))
       (typing_cleared lobby alice alice_alone),
     [send 1 (typing []);
      send 1 (message (mkMessage alice (Some (JString five_hundred_a)) 7))]).
Proof.
  rewrite (plain_text_validation all_open 7 1%nat lobby alice five_hundred_a alice_alone
             [] [mkClient 1 alice lobby 5]).
  - vm_compute. reflexivity.
  - vm_compute. reflexivity.
  - vm_compute. reflexivity.
  - vm_compute. reflexivity.
Defined.

(** C2 (as stated) fails: a chat message whose text is blank is stored and
    broadcast when it arrives as a JSON object, and its text is stored
    untrimmed. *)
Lemma blank_json_text_is_stored :
  let out := on_message all_open 7 1 lobby alice json_chat_blank alice_alone in
  let m := mkMessage alice (Some (JString (js "   "))) 7 in
  typing_control json_chat_blank = None
  /\ trim (js "   ") = []
  /\ messageBuffers (store_of out) !! lobby = Some [m]
  /\ trace_of out = [send 1 (typing []); send 1 (message m)].
Proof. repeat split; vm_compute; reflexivity. Qed.

Lemma broadcast_sends_only rs cl l a :
  a ∈ send_open rs cl (typing l) -> kind_of_action a = Some Ktyping.
Proof.
  unfold send_open. intros Ha.
  by apply list_elem_of_In, in_map_iff in Ha as (c & <- & _).
Qed.

(** C1 (as the code has it). For a payload received for a room that has its
    buffer and client list: a typing indicator is handled as the
    specification says, by typing broadcasts only, the histories and client
    lists untouched; a payload that is not JSON text is handled as the
    specification says, as chat text verbatim; a JSON object of type
    [message] with a string as [text] goes through the chat path with that
    string, as it stands, for its text. *)
Theorem payload_dispatch rs now w r n data s b cl :
  messageBuffers s !! r = Some b -> rooms s !! r = Some cl ->
  let out := on_message rs now w r n data s in
  (forall isTyping,
     typing_control data = Some isTyping ->
     (store_of out, trace_of out) = spec_on_message rs now w r n data s
     /\ rooms (store_of out) = rooms s
     /\ messageBuffers (store_of out) = messageBuffers s
     /\ forall a, a ∈ trace_of out -> kind_of_action a = Some Ktyping)
  /\ (JSON_parse (trim data) = None ->
      (store_of out, trace_of out) = spec_on_message rs now w r n data s)
  /\ (forall ms t,
        JSON_parse (trim data) = Some (JObject ms) ->
        own ms (js "type") = Some (JString (js "message")) ->
        own ms (js "text") = Some (JString t) ->
        out
        = if (500 <? length t)%nat then
            (Normal tt, s, [send w (error (js "Message too long (max 500 characters)"))])
          else
            let m := mkMessage n (Some (JString t)) now in
            (Normal tt,
             mkStore (rooms s) (<[r := push_message b m]> (messageBuffers s))
                     (typing_cleared r n s),
             typing_notice rs r n s ++ send_open rs cl (message m))).
Proof.
  intros Hb Hcl out. subst out. split; [|split].
  - intros isTyping Hshape. unfold spec_on_message. rewrite Hshape.
    rewrite on_message_classify, (classify_typing_control data isTyping Hshape).
    rewrite broadcastTypingStatus_run, Hcl. cbn [store_of trace_of fst snd rooms
      messageBuffers].
    repeat split. intros a. apply broadcast_sends_only.
  - intros Hparse. unfold spec_on_message, spec_chat.
    rewrite (typing_control_plain data Hparse).
    rewrite on_message_classify, (classify_plain data Hparse).
    destruct (bool_decide (trim data = [])); [done|].
    destruct (500 <? length (trim data))%nat; [done|].
    cbv zeta. by rewrite Hb, Hcl.
  - intros ms t Hparse Hty Htext.
    rewrite on_message_classify, (classify_json_chat data ms t Hparse Hty Htext).
    destruct (500 <? length t)%nat; [done|]. cbv zeta. by rewrite Hb, Hcl.
Qed.

Lemma payload_dispatch_witness :
  (store_of (on_message all_open 7 1 lobby alice typing_on alice_alone),
   trace_of (on_message all_open 7 1 lobby alice typing_on alice_alone))
  = spec_on_message all_open 7 1 lobby alice typing_on alice_alone
  /\ (store_of (on_message all_open 7 1 lobby alice (js " hello ") alice_alone),
      trace_of (on_message all_open 7 1 lobby alice (js " hello ") alice_alone))
     = spec_on_message all_open 7 1 lobby alice (js " hello ") alice_alone
  /\ messageBuffers
       (store_of (on_message all_open 7 1 lobby alice json_chat_hi alice_alone)) !! lobby
     = Some [mkMessage alice (Some (JString (js "hi"))) 7].
Proof.
  assert (messageBuffers alice_alone !! lobby = Some []) as Hb
    by (vm_compute; reflexivity).
  assert (rooms alice_alone !! lobby = Some [mkClient 1 alice lobby 5]) as Hcl
    by (vm_compute; reflexivity).
  split; [|split].
  - refine (proj1 (proj1 (payload_dispatch all_open 7 1%nat lobby alice typing_on
                            alice_alone _ _ Hb Hcl) (Some (JBool true)) _)).
    vm_compute. reflexivity.
  - refine (proj1 (proj2 (payload_dispatch all_open 7 1%nat lobby alice (js " hello ")
                            alice_alone _ _ Hb Hcl)) _).
    vm_compute. reflexivity.
  - rewrite (proj2 (proj2 (payload_dispatch all_open 7 1%nat lobby alice json_chat_hi
                             alice_alone _ _ Hb Hcl))
               [(js "type", JString (js "message")); (js "text", JString (js "hi"))]
               (js "hi")).
    + vm_compute. reflexivity.
    + vm_compute. reflexivity.
    + vm_compute. reflexivity.
    + vm_compute. reflexivity.
Defined.

(** C1 (as stated) fails: a JSON object of type [message] is not a typing
    indicator, yet its payload is not taken verbatim as the chat text: the
    message stored is its [text] field, where the two shapes of the
    specification store the payload itself. *)
Lemma json_chat_is_not_verbatim :
  let out := on_message all_open 7 1 lobby alice json_chat_hi alice_alone in
  let spec := spec_on_message all_open 7 1 lobby alice json_chat_hi alice_alone in
  typing_control json_chat_hi = None
  /\ messageBuffers (store_of out) !! lobby
     = Some [mkMessage alice (Some (JString (js "hi"))) 7]
  /\ messageBuffers (fst spec) !! lobby
     = Some [mkMessage alice (Some (JString json_chat_hi)) 7]
  /\ (store_of out, trace_of out) <> spec.
Proof.
  repeat split; try (vm_compute; reflexivity).
  intros E.
  apply (f_equal (fun p => messageBuffers (fst p) !! lobby)) in E.
  vm_compute in E. discriminate E.
Qed.

(** ** Further invariants *)

Lemma NoDup_Set_add u l : NoDup l -> NoDup (Set_add u l).
Proof.
  unfold Set_add. intros Hl. destruct (bool_decide (u ∈ l)) eqn:E; [done|].
  apply bool_decide_eq_false in E. apply NoDup_app. split; [done|]. split.
  - intros x Hx Hx'. apply list_elem_of_singleton in Hx'. by subst.
  - apply NoDup_singleton.
Qed.

Lemma NoDup_filter' {A} (p : A -> bool) (l : list A) : NoDup l -> NoDup (List.filter p l).
Proof.
  intros H. rewrite <- (List.map_id (List.filter p l)).
  apply NoDup_map_filter. by rewrite List.map_id.
Qed.

Lemma NoDup_Set_delete u l : NoDup l -> NoDup (Set_delete u l).
Proof. apply NoDup_filter'. Qed.

Lemma empty_store_shape : store_shape empty_store.
Proof.
  split; cbn; intros r; intros; try rewrite lookup_empty in *; try done.
  by destruct H.
Qed.

(** Changing one typing set into a list without repetition. *)
Lemma store_shape_set_typing s r l :
  store_shape s -> NoDup l ->
  store_shape (mkStore (rooms s) (messageBuffers s) (<[r := l]> (typingUsers s))).
Proof.
  intros Hs Hl. split; cbn; try apply Hs.
  intros r' l'. destruct (decide (r' = r)) as [->|Hd].
  - rewrite lookup_insert_eq. by intros [= <-].
  - rewrite lookup_insert_ne by done. apply Hs.
Qed.

Lemma store_shape_typing_cleared s r n :
  store_shape s -> store_shape (mkStore (rooms s) (messageBuffers s) (typing_cleared r n s)).
Proof.
  intros Hs. unfold typing_cleared. destruct (typingUsers s !! r) as [l|] eqn:E.
  - apply store_shape_set_typing; [done|]. apply NoDup_Set_delete, (shape_typing s Hs r l E).
  - by rewrite store_eta.
Qed.

Lemma store_shape_set_room s r X :
  store_shape s -> Forall (fun c => roomId c = r) X ->
  store_shape (mkStore (<[r := X]> (rooms s)) (messageBuffers s) (typingUsers s)).
Proof.
  intros Hs HX. split; cbn; try apply Hs.
  - intros r' cl. destruct (decide (r' = r)) as [->|Hd].
    + rewrite lookup_insert_eq. by intros [= <-].
    + rewrite lookup_insert_ne by done. apply Hs.
  - intros r' Hr'. apply insert_is_Some. by apply Hs.
Qed.

Lemma store_shape_delete_room s r :
  store_shape s ->
  store_shape (mkStore (delete r (rooms s)) (delete r (messageBuffers s))
                       (delete r (typingUsers s))).
Proof.
  intros Hs. split; cbn.
  - intros r' cl. destruct (decide (r' = r)) as [->|Hd].
    + by rewrite lookup_delete_eq.
    + rewrite lookup_delete_ne by done. apply Hs.
  - intros r'. destruct (decide (r' = r)) as [->|Hd].
    + rewrite lookup_delete_eq. by intros [? ?].
    + rewrite !lookup_delete_ne by done. apply Hs.
  - intros r' l. destruct (decide (r' = r)) as [->|Hd].
    + by rewrite lookup_delete_eq.
    + rewrite lookup_delete_ne by done. apply Hs.
Qed.

Lemma store_shape_init_room s r : store_shape s -> store_shape (init_room r s).
Proof.
  intros Hs. unfold init_room. destruct (rooms s !! r) eqn:Hroom; [done|].
  split; cbn.
  - intros r' cl. destruct (decide (r' = r)) as [->|Hd].
    + rewrite lookup_insert_eq. by intros [= <-].
    + rewrite lookup_insert_ne by done. apply Hs.
  - intros r'. destruct (decide (r' = r)) as [->|Hd].
    + rewrite !lookup_insert_eq. eauto.
    + rewrite !lookup_insert_ne by done. apply Hs.
  - intros r' l. destruct (decide (r' = r)) as [->|Hd].
    + rewrite lookup_insert_eq. intros [= <-]. apply NoDup_nil_2.
    + rewrite lookup_insert_ne by done. apply Hs.
Qed.

Lemma init_room_clients r s :
  default [] (rooms (init_room r s) !! r) = default [] (rooms s !! r).
Proof.
  unfold init_room. destruct (rooms s !! r) eqn:E; [by rewrite E|].
  cbn. by rewrite lookup_insert_eq.
Qed.

Lemma on_connection_shape rs now joined w room nick0 s :
  store_shape s -> store_shape (store_of (on_connection rs now joined w room nick0 s)).
Proof.
  intros Hs.
  destruct (missing room || missing nick0) eqn:Hm.
  { unfold on_connection. rewrite Hm. done. }
  apply orb_false_iff in Hm as [Hr Hn].
  apply missing_false in Hr as (r & -> & Hr). apply missing_false in Hn as (n & -> & Hn).
  destruct (reads_inherited s r) eqn:Hin.
  { unfold reads_inherited in Hin. destruct (rooms s !! r) eqn:Hroom; [done|].
    by rewrite on_connection_inherited. }
  rewrite on_connection_run
    by (try done; intros Hroom; unfold reads_inherited in Hin; by rewrite Hroom in Hin).
  cbv zeta.
  pose proof (store_shape_init_room s r Hs) as Hs0.
  assert (Forall (fun c => roomId c = r) (kept rs n (default [] (rooms s !! r)))) as Hk.
  { apply Forall_filter'. destruct (rooms s !! r) as [cl|] eqn:E; cbn; [|done].
    apply (shape_roomId s Hs r cl E). }
  destruct (holder rs n _); cbn [store_of fst snd].
  - by apply store_shape_set_room.
  - apply store_shape_set_room; [done|]. apply Forall_app. split; [done|].
    by constructor.
Qed.

Lemma on_message_shape rs now w r n data s :
  store_shape s -> store_shape (store_of (on_message rs now w r n data s)).
Proof.
  intros Hs. rewrite on_message_classify.
  destruct (classify data) as [| |b| |text]; try done.
  - rewrite broadcastTypingStatus_run. cbn [store_of fst snd].
    apply store_shape_set_typing; [done|]. unfold typing_after.
    assert (NoDup (default [] (typingUsers s !! r))) as Hnd.
    { destruct (typingUsers s !! r) as [l|] eqn:E; cbn; [|apply NoDup_nil_2].
      apply (shape_typing s Hs r l E). }
    destruct b; [by apply NoDup_Set_add|by apply NoDup_Set_delete].
  - cbv zeta. pose proof (store_shape_typing_cleared s r n Hs) as Hs1.
    destruct (messageBuffers s !! r) as [b|] eqn:Hb; [|done].
    assert (store_shape (mkStore (rooms s)
              (<[r := push_message b (mkMessage n text now)]> (messageBuffers s))
              (typing_cleared r n s))) as Hs2.
    { split; cbn; try apply Hs1.
      intros r' Hr'. destruct (decide (r' = r)) as [->|Hd].
      - apply Hs. rewrite Hb. eauto.
      - rewrite lookup_insert_ne in Hr' by done. by apply Hs. }
    by destruct (rooms s !! r).
Qed.

Lemma on_close_shape rs now w r n s :
  store_shape s -> store_shape (store_of (on_close rs now w r n s)).
Proof.
  intros Hs. rewrite on_close_run.
  destruct (rooms s !! r) as [cl|] eqn:Hroom; [|done]. cbv zeta.
  destruct (0 <? length (remaining w cl))%nat; cbn [store_of fst snd].
  - pose proof (store_shape_typing_cleared s r n Hs) as Hs1.
    apply (store_shape_set_room _ r (remaining w cl)) in Hs1; [done|].
    apply Forall_filter', (shape_roomId s Hs r cl Hroom).
  - by apply store_shape_delete_room.
Qed.

Lemma sweep_room_shape rs r s :
  store_shape s -> store_shape (store_of (sweep_room rs r s)).
Proof.
  intros Hs. rewrite sweep_room_run.
  destruct (rooms s !! r) as [cl|] eqn:Hroom; [|done]. cbv zeta.
  destruct (_ =? length cl)%nat; [done|].
  destruct (_ =? 0)%nat; cbn [store_of fst snd].
  - by apply store_shape_delete_room.
  - assert (store_shape (mkStore (rooms s) (messageBuffers s)
              (typing_pruned r (List.filter (client_open rs) cl) s))) as Hs1.
    { unfold typing_pruned. destruct (typingUsers s !! r) as [l|] eqn:E.
      - apply store_shape_set_typing; [done|].
        apply NoDup_filter', (shape_typing s Hs r l E).
      - by rewrite store_eta. }
    apply (store_shape_set_room _ r (List.filter (client_open rs) cl)) in Hs1; [done|].
    apply Forall_filter', (shape_roomId s Hs r cl Hroom).
Qed.

Lemma handle_shape i s : store_shape s -> store_shape (store_of (handle i s)).
Proof.
  intros Hs. unfold handle. destruct (in_event i).
  - by apply on_connection_shape.
  - by apply on_message_shape.
  - by apply on_close_shape.
  - unfold sweep. rewrite store_of_bind. cbn.
    apply forEach_preserves; [|done]. intros x s'. apply sweep_room_shape.
Qed.

Lemma reachable_shape s : reachable s -> store_shape s.
Proof.
  intros [inputs <-]. generalize empty_store_shape. generalize empty_store.
  induction inputs as [|i l IH]; intros s Hs; [done|].
  cbn. apply IH. by apply handle_shape.
Qed.

(** X1. In every store the server can reach, the three registries fit
    together: a room is registered exactly when it has a history buffer,
    every registered room has a typing set and at least one client, and no
    history holds more than 50 messages. *)
Theorem registries_fit_together s r :
  reachable s ->
  (is_Some (rooms s !! r) <-> is_Some (messageBuffers s !! r))
  /\ (is_Some (rooms s !! r) -> is_Some (typingUsers s !! r))
  /\ rooms s !! r <> Some []
  /\ (forall b, messageBuffers s !! r = Some b -> (length b <= MAX_MESSAGES)%nat).
Proof.
  intros Hreach.
  pose proof (reachable_ok s Hreach) as Hok. pose proof (reachable_shape s Hreach) as Hs.
  split; [split|split; [|split]].
  - intros H. by apply (ok_buffers s Hok r H).
  - apply (shape_buffers s Hs).
  - intros H. by apply (ok_buffers s Hok r H).
  - intros H. by apply (ok_nonempty s Hok r [] H).
  - apply (ok_bound s Hok).
Qed.

Lemma registries_fit_together_witness :
  (is_Some (rooms full_lobby !! lobby) <-> is_Some (messageBuffers full_lobby !! lobby))
  /\ (is_Some (rooms full_lobby !! lobby) -> is_Some (typingUsers full_lobby !! lobby))
  /\ rooms full_lobby !! lobby <> Some []
  /\ (forall b, messageBuffers full_lobby !! lobby = Some b ->
                (length b <= MAX_MESSAGES)%nat).
Proof.
  apply (registries_fit_together full_lobby lobby).
  exists fifty_inputs. vm_compute. reflexivity.
Defined.

(** X2. In every store the server can reach, the names are in order: room
    identifiers and nicknames are non-empty, no two clients of a room bear
    the same nickname, every client record carries the identifier of the
    room it is listed in, and no typing set lists a name twice. *)
Theorem names_in_order s r cl :
  reachable s ->
  rooms s !! r = Some cl ->
  r <> []
  /\ NoDup (List.map nick cl)
  /\ Forall (fun c => nick c <> [] /\ roomId c = r) cl
  /\ NoDup (typing_of s r).
Proof.
  intros Hreach Hroom.
  pose proof (reachable_ok s Hreach) as Hok. pose proof (reachable_shape s Hreach) as Hs.
  destruct (ok_names s Hok r cl Hroom) as [Hr Hnames].
  split; [done|]. split; [apply (ok_nodup s Hok r cl Hroom)|]. split.
  - pose proof (shape_roomId s Hs r cl Hroom) as Hid.
    rewrite List.Forall_forall in *. intros c Hc. split; [by apply Hnames|by apply Hid].
  - unfold typing_of. destruct (typingUsers s !! r) as [l|] eqn:E; cbn.
    + apply (shape_typing s Hs r l E).
    + apply NoDup_nil_2.
Qed.

Lemma names_in_order_witness :
  lobby <> []
  /\ NoDup (List.map nick [mkClient 1 alice lobby 5; mkClient 2 bob lobby 6])
  /\ Forall (fun c => nick c <> [] /\ roomId c = lobby)
       [mkClient 1 alice lobby 5; mkClient 2 bob lobby 6]
  /\ NoDup (typing_of alice_and_bob lobby).
Proof.
  apply (names_in_order alice_and_bob lobby).
  - exists [joins 1 alice 5; joins 2 bob 6]. vm_compute. reflexivity.
  - vm_compute. reflexivity.
Defined.

(** ** What the handlers never do *)

Lemma elem_of_send_open rs cl m a :
  a ∈ send_open rs cl m <->
  exists c, c ∈ cl /\ client_open rs c = true /\ a = send (ws c) m.
Proof.
  unfold send_open. rewrite list_elem_of_In, in_map_iff. split.
  - intros (c & <- & Hc). apply filter_In in Hc as [Hin Ho].
    exists c. by rewrite list_elem_of_In.
  - intros (c & Hin & Ho & ->). exists c. split; [done|].
    apply filter_In. by rewrite <- list_elem_of_In.
Qed.

(** After the clean-up of a name, an open holder of it is found exactly when
    an open connection of the list held it before. *)
Lemma name_taken_holder rs n cl :
  name_taken rs n cl
  = match holder rs n (kept rs n cl) with Some _ => true | None => false end.
Proof.
  unfold name_taken, holder, kept. induction cl as [|c cl IH]; [done|].
  cbn [existsb List.filter].
  destruct (bool_decide (nick c = n)) eqn:E; destruct (client_open rs c) eqn:Ho;
    cbn [andb negb orb List.find]; rewrite ?E, ?Ho; cbn [andb]; done.
Qed.

(** X3. From its test of [room] and [nick] on, the connection handler has
    one of four outcomes, and which one is decided by the parameters, the
    registries and the states of the sockets.  A parameter is missing: the
    socket is closed with 1008 and the registries are not touched.  The
    room is not registered and its identifier is a name inherited from
    [Object.prototype]: the handler throws, and has sent, closed and
    registered nothing.  Otherwise, an open connection of the room holds
    the name: the handler completes, the socket is told so and closed with
    1008, and the room's list is what the clean-up of the name has kept.
    Otherwise: the handler completes, no socket is closed, and the client
    is appended to what the clean-up has kept. *)
Theorem connection_outcomes rs now joined w room nick0 s :
  let out := on_connection rs now joined w room nick0 s in
  let r := default [] room in
  let n := default [] nick0 in
  let cl := default [] (rooms s !! r) in
  if missing room || missing nick0 then
    out = (Normal tt, s, [close w 1008 (js "Room and nick are required")])
  else if reads_inherited s r then
    out = (Throw, s, [])
  else if name_taken rs n cl then
    result_of out = Normal tt
    /\ trace_of out = [send w (error (js "Nickname already taken in this room"));
                       close w 1008 (js "Nickname already taken")]
    /\ rooms (store_of out) !! r = Some (kept rs n cl)
  else
    result_of out = Normal tt
    /\ existsb is_close (trace_of out) = false
    /\ rooms (store_of out) !! r = Some (kept rs n cl ++ [mkClient w n r joined]).
Proof.
  intros out r n cl. subst out r n cl.
  destruct (missing room || missing nick0) eqn:Hm.
  { unfold on_connection. by rewrite Hm. }
  apply orb_false_iff in Hm as [Hr Hn].
  apply missing_false in Hr as (r & -> & Hr). apply missing_false in Hn as (n & -> & Hn).
  cbn [from_option id].
  destruct (reads_inherited s r) eqn:Hin.
  { unfold reads_inherited in Hin. destruct (rooms s !! r) eqn:Hroom; [done|].
    by rewrite on_connection_inherited. }
  rewrite on_connection_run
    by (try done; intros Hroom; unfold reads_inherited in Hin; by rewrite Hroom in Hin).
  cbv zeta. rewrite name_taken_holder.
  destruct (holder rs n (kept rs n (default [] (rooms s !! r)))) as [c|] eqn:Hh.
  - cbn [result_of trace_of store_of fst snd rooms]. by rewrite lookup_insert_eq.
  - cbn [result_of trace_of store_of fst snd rooms].
    by rewrite lookup_insert_eq, join_trace_no_close.
Qed.

Lemma typing_notice_kinds rs r n s a :
  a ∈ typing_notice rs r n s -> kind_of_action a = Some Ktyping.
Proof.
  intros Ha. by apply typing_notice_without in Ha as (to & l & -> & _).
Qed.

Lemma errors_sent_app t1 t2 : errors_sent (t1 ++ t2) = (errors_sent t1 + errors_sent t2)%nat.
Proof. unfold errors_sent. by rewrite List.filter_app, length_app. Qed.

Lemma errors_sent_none t :
  (forall a, a ∈ t -> kind_of_action a <> Some Kerror) -> errors_sent t = 0%nat.
Proof.
  unfold errors_sent. induction t as [|a t IH]; cbn; intros H; [done|].
  pose proof (H a (list_elem_of_here _ _)) as Ha.
  assert (length (List.filter (fun a => match kind_of_action a with
            | Some Kerror => true | _ => false end) t) = 0%nat) as IH'.
  { apply IH. intros x Hx. apply H. by apply list_elem_of_further. }
  destruct (kind_of_action a) as [[]|]; try done.
Qed.

Lemma errors_sent_typing_notice rs r n s : errors_sent (typing_notice rs r n s) = 0%nat.
Proof.
  apply errors_sent_none. intros a Ha. by rewrite (typing_notice_kinds rs r n s a Ha).
Qed.

Lemma errors_sent_send_open rs cl m :
  kind m <> Kerror -> errors_sent (send_open rs cl m) = 0%nat.
Proof.
  intros Hm. apply errors_sent_none. intros a Ha.
  apply elem_of_send_open in Ha as (c & _ & _ & ->). cbn. congruence.
Qed.

Lemma typing_notice_recipients rs r n s to m :
  send to m ∈ typing_notice rs r n s ->
  exists c, c ∈ default [] (rooms s !! r) /\ ws c = to /\ client_open rs c = true.
Proof.
  unfold typing_notice. destruct (typingUsers s !! r); [|intros H; by inversion H].
  destruct (rooms s !! r) as [cl|]; [|intros H; by inversion H].
  intros Ha. apply elem_of_send_open in Ha as (c & Hc & Ho & [= -> _]). by exists c.
Qed.

(** X4. Whatever the payload and whatever the store, the message handler
    completes without an exception escaping, closes no socket, leaves every
    client list as it was, leaves the other rooms' histories and typing
    sets as they were, sends at most one error message, and sends only to
    the sender or to open connections of the sender's room. *)
Theorem message_handler_contained rs now w r n data s :
  let out := on_message rs now w r n data s in
  result_of out = Normal tt
  /\ existsb is_close (trace_of out) = false
  /\ rooms (store_of out) = rooms s
  /\ (forall r', r' <> r -> same_room s (store_of out) r')
  /\ (errors_sent (trace_of out) <= 1)%nat
  /\ (forall to m, send to m ∈ trace_of out ->
        to = w \/ exists c, c ∈ default [] (rooms s !! r) /\ ws c = to
                            /\ client_open rs c = true).
Proof.
  intros out. subst out. rewrite on_message_classify.
  assert (forall r', r' <> r ->
            same_room s (mkStore (rooms s) (messageBuffers s) (typing_cleared r n s)) r')
    as Hframe.
  { intros r' Hr'. unfold same_room, typing_cleared. cbn.
    destruct (typingUsers s !! r); [|done]. by rewrite lookup_insert_ne. }
  assert (forall t : list Action, existsb is_close t = false <->
            forall a, a ∈ t -> is_close a = false) as Hclose.
  { intros t. induction t as [|a t IH]; cbn.
    - split; [|done]. intros _ a Ha. by inversion Ha.
    - rewrite orb_false_iff, IH. split.
      + intros [Ha Ht] x Hx. apply elem_of_cons in Hx as [->|Hx]; eauto.
      + intros H. split; [apply H, list_elem_of_here|].
        intros x Hx. by apply H, list_elem_of_further. }
  assert (existsb is_close (typing_notice rs r n s) = false) as Htn.
  { apply Hclose. intros a Ha. by apply typing_notice_without in Ha as (? & ? & -> & _). }
  destruct (classify data) as [| |b| |text].
  - split_and!; [done|done|done|intros; apply same_room_refl|cbn; lia|].
    intros to m H. by inversion H.
  - split_and!; [done|done|done|intros; apply same_room_refl|cbn; lia|].
    cbn. intros to m H. apply list_elem_of_singleton in H as [= -> _]. by left.
  - rewrite broadcastTypingStatus_run. cbn [result_of store_of trace_of fst snd rooms].
    split_and!; [done| |done| | |].
    + destruct (rooms s !! r); [apply existsb_close_send_open|done].
    + intros r' Hr'. unfold same_room. cbn. by rewrite lookup_insert_ne.
    + destruct (rooms s !! r); [|cbn; lia].
      rewrite errors_sent_send_open; [lia|done].
    + intros to m H. right. destruct (rooms s !! r) as [cl|]; [|by inversion H].
      apply elem_of_send_open in H as (c & Hc & Ho & [= -> _]). by exists c.
  - split_and!; [done|done|done|intros; apply same_room_refl|cbn; lia|].
    cbn. intros to m H. apply list_elem_of_singleton in H as [= -> _]. by left.
  - cbv zeta.
    destruct (messageBuffers s !! r) as [b|] eqn:Hb.
    + assert (forall r' X, r' <> r ->
                same_room s (mkStore (rooms s) (<[r := X]> (messageBuffers s))
                                     (typing_cleared r n s)) r') as Hframe2.
      { intros r' X Hr'. destruct (Hframe r' Hr') as (F1 & F2 & F3).
        unfold same_room. cbn in *. by rewrite lookup_insert_ne. }
      destruct (rooms s !! r) as [cl|] eqn:Hcl;
        cbn [result_of store_of trace_of fst snd rooms].
      * split_and!; [done| |done| | |].
        -- by rewrite existsb_app, Htn, existsb_close_send_open.
        -- intros r'. apply Hframe2.
        -- rewrite errors_sent_app, errors_sent_typing_notice.
           rewrite errors_sent_send_open; [lia|done].
        -- intros to m H. right. apply elem_of_app in H as [H|H].
           ++ apply typing_notice_recipients in H. by rewrite Hcl in H.
           ++ apply elem_of_send_open in H as (c & Hc & Ho & [= -> _]). by exists c.
      * split_and!; [done| |done| | |].
        -- by rewrite existsb_app, Htn.
        -- intros r'. apply Hframe2.
        -- rewrite errors_sent_app, errors_sent_typing_notice. cbn. lia.
        -- intros to m H. apply elem_of_app in H as [H|H].
           ++ right. apply typing_notice_recipients in H. by rewrite Hcl in H.
           ++ apply list_elem_of_singleton in H as [= -> _]. by left.
    + cbn [result_of store_of trace_of fst snd rooms].
      split_and!; [done| |done|apply Hframe| |].
      * by rewrite existsb_app, Htn.
      * rewrite errors_sent_app, errors_sent_typing_notice. cbn. lia.
      * intros to m H. apply elem_of_app in H as [H|H].
        -- right. by apply typing_notice_recipients in H.
        -- apply list_elem_of_singleton in H as [= -> _]. by left.
Qed.

(** ** Broadcasts *)

(** X5. A broadcast to a list of clients with distinct sockets reaches every
    socket on the list that is open exactly once, and no other socket. *)
Theorem broadcast_reaches_open_members_once rs cl m w :
  NoDup (List.map ws cl) ->
  sent_to w (send_open rs cl m)
  = if bool_decide (w ∈ List.map ws cl) && is_open (rs w) then [m] else [].
Proof.
  unfold send_open. induction cl as [|c cl IH]; cbn [List.map List.filter]; intros Hnd.
  { rewrite bool_decide_eq_false_2; [done|]. apply not_elem_of_nil. }
  apply NoDup_cons in Hnd as [Hc Hnd]. specialize (IH Hnd).
  destruct (decide (ws c = w)) as [<-|Hne].
  - rewrite (bool_decide_eq_true_2 (ws c ∈ ws c :: List.map ws cl))
      by apply list_elem_of_here.
    rewrite (bool_decide_eq_false_2 _ Hc) in IH. cbn [andb] in *.
    unfold client_open at 1. destruct (is_open (rs (ws c))); [|done].
    cbn [List.map sent_to]. by rewrite bool_decide_eq_true_2, IH.
  - assert (bool_decide (w ∈ ws c :: List.map ws cl) = bool_decide (w ∈ List.map ws cl))
      as ->.
    { apply bool_decide_ext. rewrite elem_of_cons. split; [|by right].
      intros [E|E]; [congruence|done]. }
    destruct (client_open rs c); [|done].
    cbn [List.map sent_to]. by rewrite bool_decide_eq_false_2.
Qed.

Lemma broadcast_reaches_open_members_once_witness :
  sent_to 2 (send_open first_gone [mkClient 1 alice lobby 5; mkClient 2 bob lobby 6]
               (userList [alice; bob]))
  = [userList [alice; bob]]
  /\ sent_to 1 (send_open first_gone [mkClient 1 alice lobby 5; mkClient 2 bob lobby 6]
                  (userList [alice; bob]))
     = [].
Proof.
  assert (NoDup (List.map ws [mkClient 1 alice lobby 5; mkClient 2 bob lobby 6])) as Hnd.
  { cbn. apply NoDup_cons. split.
    - intros H. apply list_elem_of_singleton in H. discriminate H.
    - apply NoDup_singleton. }
  split.
  - rewrite (broadcast_reaches_open_members_once first_gone _ _ 2%nat Hnd).
    vm_compute. reflexivity.
  - rewrite (broadcast_reaches_open_members_once first_gone _ _ 1%nat Hnd).
    vm_compute. reflexivity.
Defined.

(** ** Payloads that are JSON but not objects of a known type *)

Lemma classify_json data v :
  JSON_parse (trim data) = Some v ->
  classify data
  = match Get (Some v) (js "type") with
    | Throw => Fault
    | Normal type =>
        if is_string type (js "typing") then
          match Get (Some v) (js "isTyping") with
          | Throw => Fault
          | Normal isTyping => TypingControl (ToBoolean isTyping)
          end
        else if is_string type (js "message") then
          match Get (Some v) (js "text") with
          | Throw => Fault
          | Normal text =>
              match Get text (js "length") with
              | Throw => Fault
              | Normal len =>
                  match gt_500 len with
                  | Throw => Fault
                  | Normal true => TooLong
                  | Normal false =>
                      match template text with
                      | Throw => Fault
                      | Normal _ => Chat text
                      end
                  end
              end
          end
        else Ignored
    end.
Proof.
  intros Hparse. unfold classify, parse_payload. rewrite Hparse.
  destruct (bool_decide (trim data = [])) eqn:E; [|done].
  apply bool_decide_eq_true in E. rewrite E in Hparse. discriminate Hparse.
Qed.

(** X6. A payload that is JSON text but not an object of type [typing] or
    [message] is not treated as chat: a number, a boolean, a string literal,
    an array, or an object with another [type] or none is dropped without
    any message and without any change; the text [null] is answered by the
    error [Error processing message], again without any change. *)
Theorem other_json_payloads_dropped rs now w r n data v s :
  JSON_parse (trim data) = Some v ->
  other_shape v = true ->
  on_message rs now w r n data s
  = (Normal tt, s,
     match v with
     | JNull => [send w (error (js "Error processing message"))]
     | _ => []
     end).
Proof.
  intros Hparse Hshape.
  rewrite on_message_classify, (classify_json data _ Hparse).
  destruct v as [|b|m e|t|l|ms]; try reflexivity.
  cbn in Hshape. apply negb_true_iff, orb_false_iff in Hshape as [E1 E2].
  unfold Get at 1. by rewrite E1, E2.
Qed.

Lemma other_json_payloads_dropped_witness :
  on_message all_open 7 1 lobby alice payload_42 alice_alone = (Normal tt, alice_alone, [])
  /\ on_message all_open 7 1 lobby alice payload_array alice_alone
     = (Normal tt, alice_alone, [])
  /\ on_message all_open 7 1 lobby alice payload_null alice_alone
     = (Normal tt, alice_alone, [send 1 (error (js "Error processing message"))]).
Proof.
  split; [|split].
  - refine (other_json_payloads_dropped all_open 7 1%nat lobby alice payload_42
              (JNumber 42 0) alice_alone _ _).
    + vm_compute. reflexivity.
    + reflexivity.
  - refine (other_json_payloads_dropped all_open 7 1%nat lobby alice payload_array
              (JArray [JNumber 1 0; JNumber 2 0]) alice_alone _ _).
    + vm_compute. reflexivity.
    + reflexivity.
  - refine (other_json_payloads_dropped all_open 7 1%nat lobby alice payload_null
              JNull alice_alone _ _).
    + vm_compute. reflexivity.
    + reflexivity.
Defined.

(** X7. In a chat object the length limit bears on strings (and on arrays, by
    their number of elements) only.  A [text] that is a number or a boolean
    has no [length] and passes the test: the value that [JSON.parse] made
    of it is stored in the history, and the message object handed to
    [JSON.stringify] for the broadcast carries it.  A [text] that is absent
    or [null] makes the handler fault, so that the sender gets the error
    [Error processing message] and nothing changes.  An array of more than
    500 elements is too long; a shorter one faults at the log line if its
    conversion to a string throws, and is stored and broadcast otherwise.
    An object without [length] faults at the log line if it has a
    [toString] of its own, and is stored and broadcast otherwise. *)
Theorem chat_text_of_other_types rs now w r n data ms s b cl :
  JSON_parse (trim data) = Some (JObject ms) ->
  own ms (js "type") = Some (JString (js "message")) ->
  messageBuffers s !! r = Some b -> rooms s !! r = Some cl ->
  let accepted text :=
    (Normal tt,
     mkStore (rooms s)
             (<[r := push_message b (mkMessage n (Some text) now)]> (messageBuffers s))
             (typing_cleared r n s),
     typing_notice rs r n s
     ++ send_open rs cl (message (mkMessage n (Some text) now))) in
  (own ms (js "text") = None \/ own ms (js "text") = Some JNull ->
   on_message rs now w r n data s
   = (Normal tt, s, [send w (error (js "Error processing message"))]))
  /\ (forall text, own ms (js "text") = Some text -> lacks_length text = true ->
      on_message rs now w r n data s = accepted text)
  /\ (forall l, own ms (js "text") = Some (JArray l) ->
      on_message rs now w r n data s
      = if (500 <? length l)%nat then
          (Normal tt, s, [send w (error (js "Message too long (max 500 characters)"))])
        else if existsb to_string_throws l then
          (Normal tt, s, [send w (error (js "Error processing message"))])
        else accepted (JArray l))
  /\ (forall ps, own ms (js "text") = Some (JObject ps) ->
      own ps (js "length") = None ->
      on_message rs now w r n data s
      = match own ps (js "toString") with
        | Some _ => (Normal tt, s, [send w (error (js "Error processing message"))])
        | None => accepted (JObject ps)
        end).
Proof.
  intros Hparse Hty Hb Hcl accepted. subst accepted.
  assert (classify data
          = match Get (own ms (js "text")) (js "length") with
            | Throw => Fault
            | Normal len =>
                match gt_500 len with
                | Throw => Fault
                | Normal true => TooLong
                | Normal false =>
                    match template (own ms (js "text")) with
                    | Throw => Fault
                    | Normal _ => Chat (own ms (js "text"))
                    end
                end
            end) as Hclass.
  { rewrite (classify_json data _ Hparse). unfold Get at 1. rewrite Hty.
    change (is_string (Some (JString (js "message"))) (js "typing")) with false.
    change (is_string (Some (JString (js "message"))) (js "message")) with true.
    cbv iota. unfold Get at 1. reflexivity. }
  rewrite on_message_classify, Hclass. split; [|split; [|split]].
  - by intros [-> | ->].
  - intros text -> Hlack. destruct text; try discriminate Hlack.
    + change (Get (Some (JBool b0)) (js "length")) with (@Normal value None).
      cbv iota. change (gt_500 None) with (Normal false).
      change (template (Some (JBool b0))) with (Normal tt). cbv iota zeta.
      by rewrite Hb, Hcl.
    + change (Get (Some (JNumber mantissa exponent)) (js "length"))
        with (@Normal value None).
      cbv iota. change (gt_500 None) with (Normal false).
      change (template (Some (JNumber mantissa exponent))) with (Normal tt).
      cbv iota zeta. by rewrite Hb, Hcl.
  - intros l ->.
    change (Get (Some (JArray l)) (js "length"))
      with (Normal (Some (JNumber (Z.of_nat (length l)) 0))).
    cbv iota. unfold gt_500. cbn [to_string_throws numeric_gt_500].
    rewrite number_gt_500_length. destruct (500 <? length l)%nat; [done|].
    unfold template. cbn [to_string_throws].
    destruct (existsb to_string_throws l); [done|].
    cbv zeta. by rewrite Hb, Hcl.
  - intros ps -> Hlen. unfold Get. rewrite Hlen.
    change (gt_500 None) with (Normal false). cbv iota.
    unfold template. cbn [to_string_throws].
    destruct (own ps (js "toString")) as [f|].
    + by rewrite bool_decide_eq_true_2 by eauto.
    + rewrite bool_decide_eq_false_2 by (by intros [? ?]).
      cbv zeta. by rewrite Hb, Hcl.
Qed.

Lemma chat_text_of_other_types_witness :
  messageBuffers
    (store_of (on_message all_open 7 1 lobby alice json_chat_five alice_alone)) !! lobby
  = Some [mkMessage alice (Some (JNumber 5 0)) 7]
  /\ on_message all_open 7 1 lobby alice json_chat_no_text alice_alone
     = (Normal tt, alice_alone, [send 1 (error (js "Error processing message"))])
  /\ on_message all_open 7 1 lobby alice json_chat_unprintable alice_alone
     = (Normal tt, alice_alone, [send 1 (error (js "Error processing message"))]).
Proof.
  assert (messageBuffers alice_alone !! lobby = Some []) as Hb
    by (vm_compute; reflexivity).
  assert (rooms alice_alone !! lobby = Some [mkClient 1 alice lobby 5]) as Hcl
    by (vm_compute; reflexivity).
  split; [|split].
  - assert (JSON_parse (trim json_chat_five)
            = Some (JObject [(js "type", JString (js "message"));
                             (js "text", JNumber 5 0)])) as Hparse
      by (vm_compute; reflexivity).
    assert (own [(js "type", JString (js "message")); (js "text", JNumber 5 0)]
              (js "type") = Some (JString (js "message"))) as Hty
      by (vm_compute; reflexivity).
    rewrite (proj1 (proj2 (chat_text_of_other_types all_open 7 1%nat lobby alice
                             json_chat_five _ alice_alone _ _ Hparse Hty Hb Hcl))
               (JNumber 5 0)).
    + vm_compute. reflexivity.
    + vm_compute. reflexivity.
    + reflexivity.
  - assert (JSON_parse (trim json_chat_no_text)
            = Some (JObject [(js "type", JString (js "message"))])) as Hparse
      by (vm_compute; reflexivity).
    assert (own [(js "type", JString (js "message"))]
              (js "type") = Some (JString (js "message"))) as Hty
      by (vm_compute; reflexivity).
    apply (proj1 (chat_text_of_other_types all_open 7 1%nat lobby alice
                    json_chat_no_text _ alice_alone _ _ Hparse Hty Hb Hcl)).
    left. vm_compute. reflexivity.
  - assert (JSON_parse (trim json_chat_unprintable)
            = Some (JObject [(js "type", JString (js "message"));
                             (js "text", JObject [(js "toString", JNumber 1 0)])]))
      as Hparse by (vm_compute; reflexivity).
    assert (own [(js "type", JString (js "message"));
                 (js "text", JObject [(js "toString", JNumber 1 0)])]
              (js "type") = Some (JString (js "message"))) as Hty
      by (vm_compute; reflexivity).
    rewrite (proj2 (proj2 (proj2 (chat_text_of_other_types all_open 7 1%nat lobby alice
                             json_chat_unprintable _ alice_alone _ _ Hparse Hty Hb Hcl)))
               [(js "toString", JNumber 1 0)]).
    + vm_compute. reflexivity.
    + vm_compute. reflexivity.
    + vm_compute. reflexivity.
Defined.

(** ** History replay *)

Lemma push_message_last b m : last (push_message b m) = Some m.
Proof.
  unfold push_message. destruct (MAX_MESSAGES <? length (b ++ [m]))%nat eqn:E.
  - destruct b as [|x b]; cbn in *; [done|]. apply last_snoc.
  - apply last_snoc.
Qed.

(** X8. A chat message accepted in a room is what the next newcomer to that
    room is shown last: the first thing a client that then joins is sent is
    the history, whose list of messages is the buffer with that message
    appended (the oldest message dropped if the buffer was full) and so
    ends with it. *)
Theorem accepted_message_is_replayed rs now w r n data text s b cl rs' now' joined' w' n' :
  classify data = Chat text ->
  messageBuffers s !! r = Some b -> rooms s !! r = Some cl ->
  r <> [] -> n' <> [] -> holder rs' n' (kept rs' n' cl) = None ->
  let s1 := store_of (on_message rs now w r n data s) in
  let m := mkMessage n text now in
  head (trace_of (on_connection rs' now' joined' w' (Some r) (Some n') s1))
  = Some (send w' (history (push_message b m)))
  /\ last (push_message b m) = Some m.
Proof.
  intros Hclass Hb Hcl Hr Hn' Hh s1 m.
  assert (s1 = mkStore (rooms s) (<[r := push_message b m]> (messageBuffers s))
                       (typing_cleared r n s)) as Hs1.
  { subst s1. by rewrite on_message_classify, Hclass, Hb, Hcl. }
  split; [|apply push_message_last].
  assert (rooms s1 !! r = Some cl) as Hcl1 by (by rewrite Hs1).
  rewrite on_connection_run by (done || by rewrite Hcl1). cbv zeta.
  rewrite Hcl1. cbn [from_option id]. rewrite Hh.
  unfold init_room. rewrite Hcl1. cbn [trace_of snd]. unfold join_trace. cbn [app head].
  rewrite Hs1. cbn [messageBuffers]. by rewrite lookup_insert_eq.
Qed.

Lemma accepted_message_is_replayed_witness :
  head (trace_of (on_connection all_open 9 9 2 (Some lobby) (Some bob)
                    (store_of (on_message all_open 8 1 lobby alice (js "bye") full_lobby))))
  = Some (send 2 (history (List.repeat hi 49
                             ++ [mkMessage alice (Some (JString (js "bye"))) 8]))).
Proof.
  refine (proj1 (accepted_message_is_replayed all_open 8 1%nat lobby alice (js "bye")
                   (Some (JString (js "bye"))) full_lobby (List.repeat hi 50)
                   [mkClient 1 alice lobby 5] all_open 9 9 2%nat bob _ _ _ _ _ _)).
  - vm_compute. reflexivity.
  - vm_compute. reflexivity.
  - vm_compute. reflexivity.
  - vm_compute. discriminate.
  - vm_compute. discriminate.
  - vm_compute. reflexivity.
Defined.

(** ** The sweep, room by room *)

Lemma filter_length_all {A} (p : A -> bool) (l : list A) :
  length (List.filter p l) = length l -> List.filter p l = l.
Proof.
  induction l as [|a l IH]; cbn; [done|].
  pose proof (List.filter_length_le p l) as Hle.
  destruct (p a); cbn; intros H.
  - f_equal. apply IH. lia.
  - lia.
Qed.

Lemma same_room_sym s s' r : same_room s s' r -> same_room s' s r.
Proof. intros (?&?&?). by repeat split. Qed.

(** The sweep of a room looks at that room's entries only. *)
Lemma sweep_room_local rs r s s1 :
  same_room s s1 r ->
  same_room (store_of (sweep_room rs r s)) (store_of (sweep_room rs r s1)) r.
Proof.
  intros (H1 & H2 & H3). rewrite !sweep_room_run, H1.
  destruct (rooms s !! r) as [cl|] eqn:Hroom; [|by rewrite <- Hroom in H1].
  cbv zeta.
  destruct (_ =? length cl)%nat; [by rewrite <- Hroom in H1|].
  destruct (_ =? 0)%nat; cbn [store_of fst snd]; unfold same_room; cbn.
  - by rewrite !lookup_delete_eq.
  - rewrite !lookup_insert_eq. unfold typing_pruned. rewrite H3.
    destruct (typingUsers s !! r) eqn:Ht; [by rewrite !lookup_insert_eq|].
    by rewrite Ht.
Qed.

Lemma forEach_sweep_at rs ks r s :
  NoDup ks -> (forall k, k ∈ ks -> is_Some (rooms s !! k)) ->
  result_of (forEach ks (sweep_room rs) s) = Normal tt
  /\ same_room (if bool_decide (r ∈ ks) then store_of (sweep_room rs r s) else s)
               (store_of (forEach ks (sweep_room rs) s)) r.
Proof.
  revert s. induction ks as [|k ks IH]; intros s Hnd Hks.
  { split; [done|]. rewrite bool_decide_eq_false_2 by apply not_elem_of_nil. done. }
  apply NoDup_cons in Hnd as [Hk Hnd].
  pose proof (sweep_room_normal rs k s (Hks k (list_elem_of_here _ _))) as Hnormal.
  assert (forall k', k' ∈ ks ->
            is_Some (rooms (store_of (sweep_room rs k s)) !! k')) as Hks'.
  { intros k' Hk'. assert (k <> k') as Hne' by (intros ->; done).
    destruct (sweep_room_frame rs k k' s Hne') as (F & _ & _). rewrite F.
    by apply Hks, list_elem_of_further. }
  cbn [forEach]. rewrite store_of_bind. unfold result_of, mbind, M_bind.
  destruct (decide (k = r)) as [->|Hkr].
  - rewrite bool_decide_eq_true_2 by apply list_elem_of_here.
    destruct (sweep_room rs r s) as [[[[]|] s1] t1] eqn:Hstep; cbn in Hnormal, Hks';
      [|done].
    destruct (IH s1 Hnd Hks') as [Hres _]. unfold result_of in Hres.
    pose proof (forEach_sweep_frame rs ks r s1 Hk) as Hframe.
    destruct (forEach ks (sweep_room rs) s1) as [[c s2] t2]. cbn in *.
    split; [done|]. exact Hframe.
  - assert (bool_decide (r ∈ k :: ks) = bool_decide (r ∈ ks)) as ->.
    { apply bool_decide_ext. rewrite elem_of_cons. split; [|by right].
      intros [E|E]; [congruence|done]. }
    pose proof (sweep_room_frame rs k r s Hkr) as Hframe.
    destruct (sweep_room rs k s) as [[[[]|] s1] t1] eqn:Hstep; cbn in Hnormal, Hks', Hframe;
      [|done].
    destruct (IH s1 Hnd Hks') as [Hres Hat]. unfold result_of in Hres.
    destruct (forEach ks (sweep_room rs) s1) as [[c s2] t2] eqn:Hrest. cbn in *.
    split; [done|].
    destruct (bool_decide (r ∈ ks)).
    + eapply same_room_trans; [|exact Hat]. by apply sweep_room_local.
    + eapply same_room_trans; [exact Hframe|exact Hat].
Qed.

(** The sweep does to each room what the sweep of that room alone does. *)
Lemma sweep_at rs r s :
  result_of (sweep rs s) = Normal tt
  /\ same_room (match rooms s !! r with
                | Some _ => store_of (sweep_room rs r s)
                | None => s
                end)
               (store_of (sweep rs s)) r.
Proof.
  assert (NoDup (map_to_list (rooms s)).*1) as Hnd by apply NoDup_fst_map_to_list.
  assert (forall k, k ∈ (map_to_list (rooms s)).*1 -> is_Some (rooms s !! k)) as Hks.
  { intros k Hk. apply list_elem_of_fmap in Hk as ([k' v] & -> & Hk).
    apply elem_of_map_to_list in Hk. cbn. eauto. }
  destruct (forEach_sweep_at rs _ r s Hnd Hks) as [Hres Hat].
  unfold sweep. rewrite store_of_bind. unfold result_of, mbind, M_bind in *. cbn.
  destruct (forEach _ _ s) as [[c s2] t2]. cbn in *. split; [done|].
  destruct (rooms s !! r) as [cl|] eqn:Hroom.
  - rewrite bool_decide_eq_true_2 in Hat; [done|].
    apply list_elem_of_fmap. exists (r, cl). split; [done|]. by apply elem_of_map_to_list.
  - rewrite bool_decide_eq_false_2 in Hat; [done|].
    intros Hin. apply list_elem_of_fmap in Hin as ([k' v] & -> & Hk).
    apply elem_of_map_to_list in Hk. cbn in Hroom. congruence.
Qed.

Lemma sweep_rooms rs s r :
  let s' := store_of (sweep rs s) in
  rooms s' !! r = rooms s !! r ≫= swept rs
  /\ messageBuffers s' !! r
     = match rooms s' !! r, rooms s !! r with
       | None, Some _ => None
       | _, _ => messageBuffers s !! r
       end.
Proof.
  intros s'. destruct (sweep_at rs r s) as [_ (H1 & H2 & _)]. fold s' in H1, H2.
  rewrite H1, H2. destruct (rooms s !! r) as [cl|] eqn:Hroom; [|by rewrite Hroom].
  rewrite sweep_room_run, Hroom. cbv zeta. cbn [mbind option_bind]. unfold swept.
  destruct (length (List.filter (client_open rs) cl) =? length cl)%nat eqn:E1.
  - apply Nat.eqb_eq in E1. cbn [store_of fst snd]. rewrite Hroom.
    rewrite (filter_length_all _ _ E1).
    destruct cl; cbn; [done|done].
  - destruct (length (List.filter (client_open rs) cl) =? 0)%nat eqn:E2;
      cbn [store_of fst snd rooms messageBuffers].
    + rewrite !lookup_delete_eq. apply Nat.eqb_eq in E2. apply Nat.eqb_neq in E1.
      destruct cl; cbn in *; [lia|done].
    + by rewrite lookup_insert_eq.
Qed.

Lemma swept_open rs cl cl' :
  swept rs cl = Some cl' -> Forall (fun c => client_open rs c = true) cl'.
Proof.
  unfold swept. destruct (_ && _); [done|]. intros [= <-].
  apply List.Forall_forall. intros c Hc. apply filter_In in Hc. tauto.
Qed.

(** X9. The sweep never throws and treats every room alike: a room is left
    with exactly its open connections, in their order, or is dropped with
    its history when it had clients and none of them is open; the history
    of a room that stays is untouched; so after a sweep every listed
    client is open. *)
Theorem sweep_keeps_open_clients rs s r :
  let s' := store_of (sweep rs s) in
  result_of (sweep rs s) = Normal tt
  /\ rooms s' !! r = rooms s !! r ≫= swept rs
  /\ messageBuffers s' !! r
     = match rooms s' !! r, rooms s !! r with
       | None, Some _ => None
       | _, _ => messageBuffers s !! r
       end
  /\ (forall cl', rooms s' !! r = Some cl' -> Forall (fun c => client_open rs c = true) cl').
Proof.
  intros s'. destruct (sweep_at rs r s) as [Hres _].
  destruct (sweep_rooms rs s r) as [Hr Hb]. fold s' in Hr, Hb.
  split; [done|]. split; [done|]. split; [done|].
  intros cl' Hcl'. rewrite Hr in Hcl'.
  destruct (rooms s !! r) as [cl|]; [|done]. cbn in Hcl'.
  by apply (swept_open rs cl).
Qed.

Lemma sweep_room_noop rs k s cl :
  rooms s !! k = Some cl -> List.filter (client_open rs) cl = cl ->
  sweep_room rs k s = (Normal tt, s, []).
Proof.
  intros Hcl Hall. rewrite sweep_room_run, Hcl. cbv zeta.
  by rewrite Hall, Nat.eqb_refl.
Qed.

Lemma forEach_sweep_noop rs ks s :
  (forall k, k ∈ ks -> exists cl, rooms s !! k = Some cl
                                  /\ List.filter (client_open rs) cl = cl) ->
  forEach ks (sweep_room rs) s = (Normal tt, s, []).
Proof.
  induction ks as [|k ks IH]; intros H; [done|].
  cbn [forEach]. unfold mbind, M_bind.
  destruct (H k (list_elem_of_here _ _)) as (cl & Hcl & Hall).
  rewrite (sweep_room_noop rs k s cl Hcl Hall).
  rewrite IH; [done|]. intros k' Hk'. by apply H, list_elem_of_further.
Qed.

Lemma filter_idem {A} (p : A -> bool) (l : list A) :
  List.filter p (List.filter p l) = List.filter p l.
Proof.
  apply filter_all. intros x Hx. apply list_elem_of_In, filter_In in Hx. tauto.
Qed.

(** X10. Sweeping twice under the same socket states is sweeping once: right
    after a sweep, a second one finds nothing to remove, sends nothing and
    leaves the registries as they are. *)
Theorem sweep_twice rs s :
  sweep rs (store_of (sweep rs s)) = (Normal tt, store_of (sweep rs s), []).
Proof.
  set (s' := store_of (sweep rs s)).
  unfold sweep at 1. unfold mbind, M_bind, gets.
  rewrite forEach_sweep_noop; [done|].
  intros k Hk. apply list_elem_of_fmap in Hk as ([k' cl'] & -> & Hk).
  apply elem_of_map_to_list in Hk. cbn. exists cl'. split; [done|].
  destruct (sweep_rooms rs s k') as [Hr _]. fold s' in Hr. rewrite Hk in Hr.
  destruct (rooms s !! k') as [cl|]; [|done]. cbn in Hr. symmetry in Hr.
  pose proof (swept_open rs cl cl' Hr) as Hopen.
  apply filter_all. intros c Hc. rewrite List.Forall_forall in Hopen.
  by apply Hopen, list_elem_of_In.
Qed.

(** X11. When the sweep removes a client from a room that stays, it also
    cuts the typing set of the room down to the names of the clients that
    stay: a name typing after the sweep was typing before it and is the
    name of a connection that is still open. *)
Theorem sweep_prunes_typing rs s r cl u :
  rooms s !! r = Some cl ->
  List.filter (client_open rs) cl <> cl ->
  List.filter (client_open rs) cl <> [] ->
  u ∈ typing_of (store_of (sweep rs s)) r ->
  u ∈ typing_of s r /\ u ∈ List.map nick (List.filter (client_open rs) cl).
Proof.
  intros Hcl Hsome Hnot.
  destruct (sweep_at rs r s) as [_ (_ & _ & H3)]. rewrite Hcl in H3.
  unfold typing_of. rewrite H3, sweep_room_run, Hcl. cbv zeta.
  destruct (length (List.filter (client_open rs) cl) =? length cl)%nat eqn:E1.
  { apply Nat.eqb_eq in E1. by apply filter_length_all in E1. }
  destruct (length (List.filter (client_open rs) cl) =? 0)%nat eqn:E2.
  { apply Nat.eqb_eq in E2. by destruct (List.filter (client_open rs) cl). }
  cbn [store_of fst snd typingUsers]. unfold typing_pruned.
  destruct (typingUsers s !! r) as [l|] eqn:Ht.
  - rewrite lookup_insert_eq. cbn. rewrite list_elem_of_In, filter_In.
    rewrite bool_decide_eq_true, <- list_elem_of_In. done.
  - rewrite Ht. cbn. intros H. by apply elem_of_nil in H.
Qed.

Lemma sweep_keeps_open_clients_witness :
  rooms (store_of (sweep first_gone alice_and_bob)) !! lobby
  = Some [mkClient 2 bob lobby 6]
  /\ messageBuffers (store_of (sweep first_gone alice_and_bob)) !! lobby = Some [].
Proof.
  destruct (sweep_keeps_open_clients first_gone alice_and_bob lobby) as (_ & Hr & Hb & _).
  split.
  - rewrite Hr. vm_compute. reflexivity.
  - rewrite Hb. vm_compute. reflexivity.
Defined.

Lemma sweep_prunes_typing_witness :
  bob ∈ typing_of both_typing lobby
  /\ bob ∈ List.map nick (List.filter (client_open first_gone)
                           [mkClient 1 alice lobby 5; mkClient 2 bob lobby 6]).
Proof.
  apply (sweep_prunes_typing first_gone both_typing lobby
           [mkClient 1 alice lobby 5; mkClient 2 bob lobby 6] bob).
  - vm_compute. reflexivity.
  - vm_compute. discriminate.
  - vm_compute. discriminate.
  - assert (typing_of (store_of (sweep first_gone both_typing)) lobby = [bob]) as ->
      by (vm_compute; reflexivity).
    apply list_elem_of_here.
Defined.

(** ** Edge cases of [close] and of typing indicators *)

(** X12. The [close] event of a socket that is no longer on the list of its
    room (the sweep or the clean-up of its name has removed it) still takes
    the name out of the typing set and still tells the open connections of
    the room that the name left, followed by the unchanged user list; the
    client list and the history stay as they are. *)
Theorem close_of_unlisted_socket rs now w r n s cl :
  rooms s !! r = Some cl -> cl <> [] ->
  (forall c, c ∈ cl -> ws c <> w) ->
  on_close rs now w r n s
  = (Normal tt,
     mkStore (rooms s) (messageBuffers s) (typing_cleared r n s),
     match typingUsers s !! r with
     | Some l => send_open rs cl (typing (Set_delete n l))
     | None => []
     end
     ++ send_open rs cl (system (n ++ js " left the room") now)
     ++ send_open rs cl (userList (List.map nick cl))).
Proof.
  intros Hcl Hne Hw. rewrite on_close_run, Hcl. cbv zeta.
  assert (remaining w cl = cl) as ->.
  { apply filter_all. intros c Hc. apply negb_true_iff, bool_decide_eq_false.
    by apply Hw. }
  destruct cl as [|c cl]; [done|]. cbn [length Nat.ltb Nat.leb].
  by rewrite (insert_id _ _ _ Hcl).
Qed.

Lemma close_of_unlisted_socket_witness :
  trace_of (on_close all_open 9 3 lobby alice alice_alone)
  = [send 1 (typing []); send 1 (system (alice ++ js " left the room") 9);
     send 1 (userList [alice])].
Proof.
  rewrite (close_of_unlisted_socket all_open 9 3%nat lobby alice alice_alone
             [mkClient 1 alice lobby 5]).
  - vm_compute. reflexivity.
  - vm_compute. reflexivity.
  - discriminate.
  - intros c Hc. apply list_elem_of_singleton in Hc as ->. cbn. lia.
Defined.

(** X13. A typing indicator that arrives for a room that is not registered
    (its last listed socket was swept while the socket still delivers) is
    sent to nobody, but brings a typing set for that room into being, which
    holds the sender's name if the indicator was truthy. *)
Theorem typing_for_unregistered_room rs now w r n data isTyping s :
  typing_control data = Some isTyping ->
  rooms s !! r = None ->
  let out := on_message rs now w r n data s in
  trace_of out = []
  /\ typingUsers (store_of out) !! r
     = Some ((if ToBoolean isTyping then Set_add n else Set_delete n) (typing_of s r))
  /\ rooms (store_of out) !! r = None.
Proof.
  intros Hshape Hroom out. subst out.
  rewrite on_message_classify, (classify_typing_control data isTyping Hshape).
  rewrite broadcastTypingStatus_run, Hroom. cbn. by rewrite lookup_insert_eq.
Qed.

Lemma typing_for_unregistered_room_witness :
  typingUsers (store_of (on_message all_open 7 1 lobby alice typing_on empty_store)) !! lobby
  = Some [alice].
Proof.
  assert (typing_control typing_on = Some (Some (JBool true))) as Hshape
    by (vm_compute; reflexivity).
  assert (rooms empty_store !! lobby = None) as Hroom by (vm_compute; reflexivity).
  rewrite (proj1 (proj2 (typing_for_unregistered_room all_open 7 1%nat lobby alice
                           typing_on (Some (JBool true)) empty_store Hshape Hroom))).
  vm_compute. reflexivity.
Defined.

(** X14. When a listed connection closes and others remain, its name is gone
    from the room: in a store the server can reach, the list of the room
    becomes the clients on other sockets, the closing client's name is not
    among their names, and the last thing the handler does is to broadcast
    that list of names to the open connections that remain. *)
Theorem close_removes_name rs now w r n s cl c :
  reachable s ->
  rooms s !! r = Some cl -> c ∈ cl -> ws c = w -> nick c = n ->
  remaining w cl <> [] ->
  let out := on_close rs now w r n s in
  rooms (store_of out) !! r = Some (remaining w cl)
  /\ (n ∉ List.map nick (remaining w cl))
  /\ messageBuffers (store_of out) = messageBuffers s
  /\ exists t, trace_of out
               = t ++ send_open rs (remaining w cl)
                        (userList (List.map nick (remaining w cl))).
Proof.
  intros Hreach Hcl Hc Hw Hn Hrem out. subst out.
  rewrite on_close_run, Hcl. cbv zeta.
  destruct (remaining w cl) as [|x rem] eqn:E; [done|]. rewrite <- E.
  replace (0 <? length (remaining w cl))%nat with true by (by rewrite E).
  cbn [store_of trace_of fst snd rooms messageBuffers]. rewrite lookup_insert_eq.
  split; [done|]. split.
  - intros Hin. apply list_elem_of_In, in_map_iff in Hin as (c' & Hn' & Hin).
    unfold remaining in Hin. apply filter_In in Hin as [Hin Hws].
    apply negb_true_iff, bool_decide_eq_false in Hws.
    assert (c' = c) as ->; [|by subst].
    apply (NoDup_map_eq nick cl); [|by apply list_elem_of_In|done|congruence].
    apply (ok_nodup s (reachable_ok s Hreach) r cl Hcl).
  - split; [done|]. eexists. rewrite app_assoc. reflexivity.
Qed.

Lemma close_removes_name_witness :
  rooms (store_of (on_close all_open 9 1 lobby alice alice_and_bob)) !! lobby
  = Some [mkClient 2 bob lobby 6].
Proof.
  refine (proj1 (close_removes_name all_open 9 1%nat lobby alice alice_and_bob
                   [mkClient 1 alice lobby 5; mkClient 2 bob lobby 6]
                   (mkClient 1 alice lobby 5) _ _ _ _ _ _)).
  - exists [joins 1 alice 5; joins 2 bob 6]. vm_compute. reflexivity.
  - vm_compute. reflexivity.
  - apply list_elem_of_here.
  - reflexivity.
  - reflexivity.
  - vm_compute. discriminate.
Defined.

(** ** Shutdown *)

Lemma closes_of_app w t1 t2 : closes_of w (t1 ++ t2) = closes_of w t1 ++ closes_of w t2.
Proof.
  induction t1 as [|[to m|to c rsn] t1 IH]; cbn; [done|done|].
  destruct (bool_decide (to = w)); cbn; by rewrite IH.
Qed.

(** X15. On shutdown every socket the server holds that is open is closed
    exactly once, with code 1001 and the reason [Server shutting down]; a
    socket that is not open, or not held, is left alone; nothing is
    sent. *)
Theorem shutdown_closes_open_sockets rs clients w :
  NoDup clients ->
  closes_of w (gracefulShutdown rs clients)
  = (if bool_decide (w ∈ clients) && is_open (rs w)
     then [(1001%Z, js "Server shutting down")] else [])
  /\ sent_to w (gracefulShutdown rs clients) = [].
Proof.
  unfold gracefulShutdown. induction clients as [|x clients IH]; intros Hnd.
  { rewrite bool_decide_eq_false_2 by apply not_elem_of_nil. done. }
  apply NoDup_cons in Hnd as [Hx Hnd]. destruct (IH Hnd) as [IHc IHs].
  cbn [List.filter]. destruct (decide (x = w)) as [->|Hne].
  - rewrite (bool_decide_eq_true_2 (w ∈ w :: clients)) by apply list_elem_of_here.
    rewrite (bool_decide_eq_false_2 _ Hx) in IHc. cbn [andb] in *.
    destruct (is_open (rs w)); [|done].
    cbn [List.map closes_of sent_to]. by rewrite bool_decide_eq_true_2, IHc.
  - assert (bool_decide (w ∈ x :: clients) = bool_decide (w ∈ clients)) as ->.
    { apply bool_decide_ext. rewrite elem_of_cons. split; [|by right].
      intros [E|E]; [congruence|done]. }
    destruct (is_open (rs x)); [|done].
    cbn [List.map closes_of sent_to]. by rewrite bool_decide_eq_false_2.
Qed.

Lemma shutdown_closes_open_sockets_witness :
  closes_of 2 (gracefulShutdown first_gone [1; 2; 3]%nat)
  = [(1001%Z, js "Server shutting down")]
  /\ closes_of 1 (gracefulShutdown first_gone [1; 2; 3]%nat) = [].
Proof.
  assert (NoDup [1; 2; 3]%nat) as Hnd.
  { repeat (apply NoDup_cons; split; [rewrite ?elem_of_cons, elem_of_nil; lia|]).
    apply NoDup_nil_2. }
  split.
  - rewrite (proj1 (shutdown_closes_open_sockets first_gone _ 2%nat Hnd)).
    vm_compute. reflexivity.
  - rewrite (proj1 (shutdown_closes_open_sockets first_gone _ 1%nat Hnd)).
    vm_compute. reflexivity.
Defined.

(** ** The other variants *)

(** X16. In the variant without typing indicators every payload is chat
    text, also one that is JSON text: for a registered room, an empty
    trimmed payload does nothing, one of more than 500 characters is
    answered by the one error message, and any other is appended to the
    history, trimmed, and broadcast to the open connections of the room. *)
Theorem text_variant_takes_every_payload rs now w r n data s b cl :
  messageBuffers s !! r = Some b -> rooms s !! r = Some cl ->
  on_message_text rs now w r n data s
  = if bool_decide (trim data = []) then (Normal tt, s, [])
    else if (500 <? length (trim data))%nat then
      (Normal tt, s, [send w (error (js "Message too long (max 500 characters)"))])
    else
      let m := mkMessage n (Some (JString (trim data))) now in
      (Normal tt,
       mkStore (rooms s) (<[r := push_message b m]> (messageBuffers s)) (typingUsers s),
       send_open rs cl (message m)).
Proof.
  intros Hb Hcl. unfold on_message_text, on_message_text_body, try_catch. munfold.
  destruct (bool_decide (trim data = [])); [reflexivity|].
  destruct (500 <? length (trim data))%nat; [reflexivity|].
  unfold push_message. cbn -[js Nat.ltb MAX_MESSAGES]. rewrite Hb.
  cbn -[js Nat.ltb MAX_MESSAGES].
  destruct (MAX_MESSAGES <? length (b ++ [_]))%nat;
    cbn -[js Nat.ltb MAX_MESSAGES]; rewrite ?insert_insert_eq, Hcl; reflexivity.
Qed.

Lemma text_variant_takes_every_payload_witness :
  messageBuffers
    (store_of (on_message_text all_open 7 1 lobby alice payload_42 alice_alone)) !! lobby
  = Some [mkMessage alice (Some (JString (js "42"))) 7].
Proof.
  rewrite (text_variant_takes_every_payload all_open 7 1%nat lobby alice payload_42
             alice_alone [] [mkClient 1 alice lobby 5]).
  - vm_compute. reflexivity.
  - vm_compute. reflexivity.
  - vm_compute. reflexivity.
Defined.

Lemma on_connection_no_cleanup_run rs now joined w r n s :
  r <> [] -> n <> [] ->
  (rooms s !! r = None -> inherited r = false) ->
  let s0 := init_room r s in
  let cl0 := default [] (rooms s !! r) in
  on_connection_no_cleanup rs now joined w (Some r) (Some n) s
  = match holder rs n cl0 with
    | Some _ =>
        (Normal tt, s0,
         [send w (error (js "Nickname already taken in this room"));
          close w 1008 (js "Nickname already taken")])
    | None =>
        let cl2 := cl0 ++ [mkClient w n r joined] in
        (Normal tt,
         mkStore (<[r := cl2]> (rooms s0)) (messageBuffers s0) (typingUsers s0),
         join_trace rs now w n cl2 (default [] (messageBuffers s0 !! r))
                    (default [] (typingUsers s0 !! r)))
    end.
Proof.
  intros Hr Hn Hown s0 cl0.
  unfold on_connection_no_cleanup.
  destruct r as [|c r]; [done|]. destruct n as [|d n]; [done|].
  cbn [missing orb from_option id].
  set (r' := c :: r) in *. set (n' := d :: n) in *.
  munfold. subst s0 cl0. unfold init_room, holder, join_trace, id.
  cbv beta.
  destruct (rooms s !! r') as [cl|] eqn:Hroom.
  - repeat (progress (rewrite ?Hroom, ?lookup_insert_eq, ?insert_insert_eq; cbn -[js])).
    destruct (List.find _ _) eqn:Hf; cbn -[js]; [reflexivity|].
    rewrite broadcastUserList_run. unfold broadcastSystemMessage. rewrite broadcast_run.
    repeat (progress (rewrite ?Hroom, ?lookup_insert_eq, ?insert_insert_eq; cbn -[js])).
    rewrite <- ?app_assoc. reflexivity.
  - rewrite (Hown eq_refl).
    repeat (progress (rewrite ?Hroom, ?lookup_insert_eq, ?insert_insert_eq; cbn -[js])).
    rewrite broadcastUserList_run. unfold broadcastSystemMessage. rewrite broadcast_run.
    repeat (progress (rewrite ?Hroom, ?lookup_insert_eq, ?insert_insert_eq; cbn -[js])).
    rewrite <- ?app_assoc. reflexivity.
Qed.

(** X17. Without the clean-up, a name whose holder is stale is not blocked
    either, but the stale entry stays: the joiner is appended to the
    unchanged list, so the name is listed twice in the room and in the user
    list that is broadcast. *)
Theorem no_cleanup_lists_name_twice rs now joined w r n s cl c :
  rooms s !! r = Some cl -> r <> [] -> n <> [] ->
  c ∈ cl -> nick c = n ->
  (forall x, x ∈ cl -> nick x = n -> client_open rs x = false) ->
  let out := on_connection_no_cleanup rs now joined w (Some r) (Some n) s in
  rooms (store_of out) !! r = Some (cl ++ [mkClient w n r joined])
  /\ ~ NoDup (List.map nick (cl ++ [mkClient w n r joined]))
  /\ (is_open (rs w) = true ->
      In (send w (userList (List.map nick (cl ++ [mkClient w n r joined]))))
         (trace_of out)).
Proof.
  intros Hcl Hr Hn Hc Hnc Hstale out. subst out.
  rewrite on_connection_no_cleanup_run by (done || by rewrite Hcl).
  cbv zeta. rewrite Hcl.
  cbn [from_option id]. rewrite (holder_none_intro rs n cl Hstale).
  cbn [store_of trace_of fst snd rooms]. rewrite lookup_insert_eq.
  split; [done|]. split.
  - rewrite List.map_app. cbn. intros Hnd. apply NoDup_app in Hnd as (_ & Hdisj & _).
    apply (Hdisj n); [|apply list_elem_of_here].
    apply list_elem_of_In, in_map_iff. exists c. by rewrite <- list_elem_of_In.
  - intros Ho. unfold join_trace. apply in_or_app. right. apply in_or_app. left.
    apply list_elem_of_In, elem_of_send_open. exists (mkClient w n r joined).
    split; [apply elem_of_app; right; apply list_elem_of_here|]. by split.
Qed.

Lemma no_cleanup_lists_name_twice_witness :
  rooms (store_of (on_connection_no_cleanup first_gone 9 8 3 (Some lobby) (Some alice)
                     alice_and_bob)) !! lobby
  = Some [mkClient 1 alice lobby 5; mkClient 2 bob lobby 6; mkClient 3 alice lobby 8].
Proof.
  refine (proj1 (no_cleanup_lists_name_twice first_gone 9 8 3%nat lobby alice alice_and_bob
                   [mkClient 1 alice lobby 5; mkClient 2 bob lobby 6]
                   (mkClient 1 alice lobby 5) _ _ _ _ _ _)).
  - vm_compute. reflexivity.
  - vm_compute. discriminate.
  - vm_compute. discriminate.
  - apply list_elem_of_here.
  - reflexivity.
  - intros x Hx Hn.
    apply elem_of_cons in Hx as [->|Hx]; [reflexivity|].
    apply list_elem_of_singleton in Hx as ->. vm_compute in Hn. discriminate Hn.
Defined.
